(** * dsRAG [dsparse/file_parsing/file_system.py]: storage back ends

    A shallow embedding of the [FileSystem] interface and of its two
    implementations, [LocalFileSystem] (a directory tree below [base_path])
    and [S3FileSystem] (an object store plus a local mirror), together with
    the properties the specification states about them.

    The Python methods are written in a small state-and-exception monad over
    a [world] that holds the local disk, the object store, the error table
    and the standard output.  The operating system, the object-store client
    and the JSON codec are libraries the source only calls: the first two are
    modelled below, the codec is a parameter of the back ends.  The values
    saved are JSON data, which [json.dumps] serialises, and a client of the
    object store is made whenever a method asks for one: what is stated of
    the remote back end is stated of calls that got their client.

    Text is ASCII text, one [ascii] per character.  Python's [int] and
    [str.lower] also know the digits, the white space and the letters of
    other scripts; where a statement rests on a numeral not being read, it
    says that the text is ASCII ([ascii_text]). *)

From Stdlib Require Import ZArith String Ascii List Lia Bool.
From Stdlib Require Import DecimalString DecimalZ DecimalPos.
From stdpp Require Import base option list sorting gmap strings.

Set Warnings "-register-all,-clear-no-such-hyp".
Local Open Scope string_scope.

(* ===================================================================== *)
(** * Python strings and integers *)
(* ===================================================================== *)

Module Py.

(** [s.startswith(p)] *)
Definition startswith (s p : string) : bool := String.prefix p s.

(** [s.endswith(suf)] *)
Fixpoint endswith (s suf : string) : bool :=
  String.eqb s suf ||
  match s with
  | EmptyString => false
  | String _ s' => endswith s' suf
  end.

(** [s.split(sep)] for a separator of one character: never empty. *)
Fixpoint split (sep : ascii) (s : string) : list string :=
  match s with
  | EmptyString => [EmptyString]
  | String a s' =>
      if Ascii.eqb a sep then EmptyString :: split sep s'
      else match split sep s' with
           | h :: t => String a h :: t
           | [] => [String a EmptyString]
           end
  end.

(** [l[-1]] and [l[0]] on the result of a split *)
Definition last_piece (l : list string) : string := List.last l EmptyString.
Definition first_piece (l : list string) : string := List.hd EmptyString l.

(** [s.lower()], on the ASCII letters (no other character lowers to one
    of the letters the extensions are made of). *)
Definition lower_ascii (a : ascii) : ascii :=
  let n := nat_of_ascii a in
  if (65 <=? n)%nat && (n <=? 90)%nat then ascii_of_nat (n + 32) else a.

Fixpoint lower (s : string) : string :=
  match s with
  | EmptyString => EmptyString
  | String a s' => String (lower_ascii a) (lower s')
  end.

(** [f"{i}"] for an [int] *)
Definition str_of_int (i : Z) : string := NilZero.string_of_int (Z.to_int i).

(** White space that [int()] strips around the numeral: of the ASCII
    characters the blank, the controls 9 to 13 and the separators 28 to
    31. *)
Definition is_space (a : ascii) : bool :=
  let n := nat_of_ascii a in
  (n =? 32)%nat || ((9 <=? n)%nat && (n <=? 13)%nat)
  || ((28 <=? n)%nat && (n <=? 31)%nat).

Fixpoint lstrip (s : string) : string :=
  match s with
  | EmptyString => EmptyString
  | String a s' => if is_space a then lstrip s' else s
  end.

Fixpoint rstrip (s : string) : string :=
  match s with
  | EmptyString => EmptyString
  | String a s' =>
      let r := rstrip s' in
      if is_space a && String.eqb r EmptyString then EmptyString else String a r
  end.

Definition strip (s : string) : string := rstrip (lstrip s).

(** [int(s)] on a piece of a file name, for ASCII text: optional white
    space, an optional sign, then decimal digits; [None] stands for
    [ValueError].  (Digit grouping with [_] is not modelled: the argument is
    always a piece of a split at [_].  Python also reads the decimal digits
    of other scripts; a text with such a character is not ASCII text.) *)
Definition int_of_str (s : string) : option Z :=
  let t := strip s in
  let '(neg, ds) :=
    match t with
    | String "-" r => (true, r)
    | String "+" r => (false, r)
    | _ => (false, t)
    end in
  match NilEmpty.uint_of_string ds with
  | Some Decimal.Nil => None
  | Some d => Some (if neg then (- Z.of_uint d)%Z else Z.of_uint d)
  | None => None
  end.

(** [range(a, b + 1)] *)
Definition range_incl (a b : Z) : list Z := seqZ a (b + 1 - a).

(** [os.path.join(a, b)] of [posixpath] *)
Definition join (a b : string) : string :=
  if startswith b "/" then b
  else if String.eqb a EmptyString || endswith a "/" then a +:+ b
  else a +:+ "/" +:+ b.

Definition join3 (a b c : string) : string := join (join a b) c.
Definition join4 (a b c d : string) : string := join (join (join a b) c) d.

End Py.

(* ===================================================================== *)
(** * Exceptions, the world, and the monad of the methods *)
(* ===================================================================== *)

(** The exception classes the source raises, catches or lets through. *)
Inductive exn_class : Type :=
  | FileNotFoundError | NotADirectoryError | IsADirectoryError
  | FileExistsError | OSError
  | JSONDecodeError | KeyError | TypeError | ValueError
  | RuntimeError
  | NoSuchKey | ClientError.

Record exn : Type := Exn { exn_cls : exn_class; exn_msg : string }.

Global Instance exn_class_eq_dec : EqDecision exn_class.
Proof. solve_decision. Defined.

(** Values of the JSON data model, as [json.load] builds them and as the
    callers pass them in; [JNull] is Python's [None].  A [dict] keeps the
    order of insertion, hence the association list. *)
Inductive json : Type :=
  | JNull
  | JBool (b : bool)
  | JInt (z : Z)
  | JFloat (lexeme : string)
  | JStr (s : string)
  | JList (l : list json)
  | JDict (d : list (string * json)).

(** The [json] module of Python: [dumps] with its [indent] argument, and
    [loads], which answers the message of a [JSONDecodeError] when the text
    is not JSON. *)
Class JsonCodec : Type := {
  json_dumps : option nat -> json -> string;
  json_loads : string -> string + json
}.

(** A node of the local disk: a regular file with its text, or a directory
    with its entries by name. *)
Inductive node : Type :=
  | File (data : string)
  | Dir (entries : gmap string node).

(** An item of the error table. *)
Record error_item : Type := ErrorItem {
  client_id : string;
  item_doc_id : string;
  error : json;
  timestamp : string
}.

Record world : Type := World {
  disk : node;                               (* the local directory tree *)
  s3 : gmap string (gmap string string);     (* bucket name, key, body *)
  dynamodb : gmap string (list error_item);  (* table name, items *)
  stdout : list string;                      (* what [print] wrote *)
  clock : string                             (* [datetime.now().isoformat()] *)
}.

Definition set_disk (d : node) (w : world) : world :=
  World d (s3 w) (dynamodb w) (stdout w) (clock w).
Definition set_s3 (s : gmap string (gmap string string)) (w : world) : world :=
  World (disk w) s (dynamodb w) (stdout w) (clock w).
Definition set_dynamodb (t : gmap string (list error_item)) (w : world) : world :=
  World (disk w) (s3 w) t (stdout w) (clock w).
Definition add_stdout (line : string) (w : world) : world :=
  World (disk w) (s3 w) (dynamodb w) ((stdout w ++ [line])%list) (clock w).

(** The outcome of a call: a value, or an exception that reached the
    caller.  The world is answered in both cases: what a method did before
    it raised stays done. *)
Inductive res (A : Type) : Type :=
  | Ok (a : A)
  | Raise (e : exn).
Arguments Ok {A} a.
Arguments Raise {A} e.

Definition M (A : Type) : Type := world -> res A * world.

Definition ret {A} (a : A) : M A := fun w => (Ok a, w).
Definition raise {A} (e : exn) : M A := fun w => (Raise e, w).
Definition bind {A B} (m : M A) (k : A -> M B) : M B :=
  fun w => match m w with
           | (Ok a, w') => k a w'
           | (Raise e, w') => (Raise e, w')
           end.

Declare Scope py_scope.
Delimit Scope py_scope with py.
Notation "x <- m ;; k" := (bind m (fun x => k))
  (at level 100, m at next level, right associativity) : py_scope.
Notation "m ;;; k" := (bind m (fun _ => k))
  (at level 100, right associativity) : py_scope.
Local Open Scope py_scope.

(** [try: m except ...: h]: the handler [h] answers [None] for an exception
    no clause matches. *)
Definition try_except {A} (m : M A) (h : exn -> option (M A)) : M A :=
  fun w => match m w with
           | (Ok a, w') => (Ok a, w')
           | (Raise e, w') =>
               match h e with
               | Some k => k w'
               | None => (Raise e, w')
               end
           end.

(** [except C:] for one class, [except Exception:] for all. *)
Definition on_class {A} (c : exn_class) (k : exn -> M A) (e : exn) : option (M A) :=
  if decide (exn_cls e = c) then Some (k e) else None.
Definition on_any {A} (k : exn -> M A) (e : exn) : option (M A) := Some (k e).
(** Clauses are tried in the order they are written. *)
Definition orelse {A} (h1 h2 : exn -> option (M A)) (e : exn) : option (M A) :=
  match h1 e with Some k => Some k | None => h2 e end.

Definition print (line : string) : M unit := fun w => (Ok tt, add_stdout line w).
Definition get_world : M world := fun w => (Ok w, w).

(** [for x in l: body x] *)
Fixpoint for_each {A} (l : list A) (body : A -> M unit) : M unit :=
  match l with
  | [] => ret tt
  | x :: l' => body x ;;; for_each l' body
  end.

(* ===================================================================== *)
(** * The operating system: a directory tree *)
(* ===================================================================== *)

(** Paths are resolved from one root (the working directory is the root, so
    ["a/b"] and ["/a/b"] name the same node); there are no symbolic links,
    and [".."] is an ordinary name no entry carries. *)
Module Os.

Inductive errno : Type :=
  ENOENT | ENOTDIR | EISDIR | EEXIST | ENOTEMPTY | EBUSY.

(** The names a path walks through. *)
Definition components (p : string) : list string :=
  filter (fun c => c <> "" /\ c <> ".") (Py.split "/" p).

Fixpoint get (cs : list string) (n : node) : errno + node :=
  match cs with
  | [] => inr n
  | c :: cs' =>
      match n with
      | File _ => inl ENOTDIR
      | Dir es =>
          match es !! c with
          | Some m => get cs' m
          | None => inl ENOENT
          end
      end
  end.

(** [os.stat]: the empty path names nothing, and a path that ends in a
    slash names a directory only. *)
Definition stat (p : string) (root : node) : errno + node :=
  if String.eqb p "" then inl ENOENT
  else match get (components p) root with
       | inr (File d) => if Py.endswith p "/" then inl ENOTDIR else inr (File d)
       | r => r
       end.

Definition set_entry (c : string) (o : option node) (es : gmap string node)
  : gmap string node :=
  match o with
  | Some m => <[c := m]> es
  | None => delete c es
  end.

(** Change the entry a path names, in the directory that holds it. *)
Fixpoint update (cs : list string) (f : option node -> errno + option node)
    (n : node) : errno + node :=
  match cs with
  | [] => inl EBUSY
  | c :: cs' =>
      match n with
      | File _ => inl ENOTDIR
      | Dir es =>
          match cs' with
          | [] =>
              match f (es !! c) with
              | inl e => inl e
              | inr o => inr (Dir (set_entry c o es))
              end
          | _ :: _ =>
              match es !! c with
              | None => inl ENOENT
              | Some m =>
                  match update cs' f m with
                  | inl e => inl e
                  | inr m' => inr (Dir (<[c := m']> es))
                  end
              end
          end
      end
  end.

Definition update_path (p : string) (f : option node -> errno + option node)
    (root : node) : errno + node :=
  if String.eqb p "" then inl ENOENT else update (components p) f root.

(** [os.remove]: unlink a regular file. *)
Definition remove (p : string) : node -> errno + node :=
  update_path p (fun o =>
    match o with
    | None => inl ENOENT
    | Some (File _) => if Py.endswith p "/" then inl ENOTDIR else inr None
    | Some (Dir _) => inl EISDIR
    end).

(** [os.rmdir]: remove an empty directory. *)
Definition rmdir (p : string) : node -> errno + node :=
  update_path p (fun o =>
    match o with
    | None => inl ENOENT
    | Some (File _) => inl ENOTDIR
    | Some (Dir es) => if decide (es = ∅) then inr None else inl ENOTEMPTY
    end).

(** [open(p, "w")] followed by the write of [data]. *)
Definition write_file (p data : string) : node -> errno + node :=
  update_path p (fun o =>
    match o with
    | Some (Dir _) => inl EISDIR
    | Some (File _) => if Py.endswith p "/" then inl ENOTDIR else inr (Some (File data))
    | None => if Py.endswith p "/" then inl EISDIR else inr (Some (File data))
    end).

(** [open(p, "r")] followed by the read of the whole file. *)
Definition read_file (p : string) (root : node) : errno + string :=
  match stat p root with
  | inl e => inl e
  | inr (File d) => inr d
  | inr (Dir _) => inl EISDIR
  end.

(** A fresh chain of directories. *)
Fixpoint chain (cs : list string) : node :=
  match cs with
  | [] => Dir ∅
  | c :: cs' => Dir {[ c := chain cs' ]}
  end.

Fixpoint makedirs_at (cs : list string) (exist_ok : bool) (n : node)
  : errno + node :=
  match cs with
  | [] =>
      match n with
      | Dir _ => if exist_ok then inr n else inl EEXIST
      | File _ => inl EEXIST
      end
  | c :: cs' =>
      match n with
      | File _ => inl ENOTDIR
      | Dir es =>
          match es !! c with
          | Some m =>
              match makedirs_at cs' exist_ok m with
              | inl e => inl e
              | inr m' => inr (Dir (<[c := m']> es))
              end
          | None => inr (Dir (<[c := chain cs']> es))
          end
      end
  end.

(** [os.makedirs(p, exist_ok=...)] *)
Definition makedirs (p : string) (exist_ok : bool) (root : node) : errno + node :=
  if String.eqb p "" then inl ENOENT
  else makedirs_at (components p) exist_ok root.

(** [os.path.exists], [os.path.isdir], [os.listdir] *)
Definition path_exists (p : string) (root : node) : bool :=
  match stat p root with inr _ => true | inl _ => false end.

Definition isdir (p : string) (root : node) : bool :=
  match stat p root with inr (Dir _) => true | _ => false end.

Definition listdir (p : string) (root : node) : errno + list string :=
  match stat p root with
  | inl e => inl e
  | inr (File _) => inl ENOTDIR
  | inr (Dir es) => inr (map fst (map_to_list es))
  end.

(** The exception Python raises for an error number. *)
Definition class_of (e : errno) : exn_class :=
  match e with
  | ENOENT => FileNotFoundError
  | ENOTDIR => NotADirectoryError
  | EISDIR => IsADirectoryError
  | EEXIST => FileExistsError
  | ENOTEMPTY | EBUSY => OSError
  end.

Definition strerror (e : errno) : string :=
  match e with
  | ENOENT => "[Errno 2] No such file or directory"
  | ENOTDIR => "[Errno 20] Not a directory"
  | EISDIR => "[Errno 21] Is a directory"
  | EEXIST => "[Errno 17] File exists"
  | ENOTEMPTY => "[Errno 39] Directory not empty"
  | EBUSY => "[Errno 16] Device or resource busy"
  end.

Definition os_error (e : errno) (p : string) : exn :=
  Exn (class_of e) (strerror e +:+ ": '" +:+ p +:+ "'").

(** The calls as steps of the monad. *)
Definition query {A} (p : string) (f : node -> errno + A) : M A :=
  fun w => match f (disk w) with
           | inr a => (Ok a, w)
           | inl e => (Raise (os_error e p), w)
           end.

Definition change (p : string) (f : node -> errno + node) : M unit :=
  fun w => match f (disk w) with
           | inr d => (Ok tt, set_disk d w)
           | inl e => (Raise (os_error e p), w)
           end.

Definition test (f : node -> bool) : M bool := fun w => (Ok (f (disk w)), w).

End Os.

(* ===================================================================== *)
(** * The object store and the error table *)
(* ===================================================================== *)

(** The client of the object store, as [boto3] offers it.  A request names
    its bucket; a listing answers the keys below the prefix in the order of
    the keys, at most [max_keys] of them in one response (the source asks
    for one response only and never for the next), and the credentials are
    always accepted. *)
Module S3.

(** A client, as [boto3.client('s3', ...)] answers it. *)
Record client : Type := Client {
  client_region : string;
  client_access_key : string;
  client_secret_key : string
}.

(** [boto3.client(service_name='s3', region_name=, aws_access_key_id=,
    aws_secret_access_key=)].  The client is made: [boto3] is installed and
    takes the region name.  What [boto3.client] raises otherwise has no
    counterpart here, so what is stated of the remote back end is stated of
    calls that got their client. *)
Definition new_client (region_name access_key secret_key : string) : M client :=
  ret (Client region_name access_key secret_key).

Definition no_such_bucket (op : string) : exn :=
  Exn ClientError
    ("An error occurred (NoSuchBucket) when calling the " +:+ op +:+
     " operation: The specified bucket does not exist").

Definition with_bucket {A} (op bucket : string)
    (k : gmap string string -> M A) : M A :=
  fun w => match s3 w !! bucket with
           | Some objs => k objs w
           | None => (Raise (no_such_bucket op), w)
           end.

Definition set_bucket (bucket : string) (objs : gmap string string) : M unit :=
  fun w => (Ok tt, set_s3 (<[bucket := objs]> (s3 w)) w).

Definition keys_with_prefix (prefix : string) (objs : gmap string string)
  : list string :=
  merge_sort String.le
    (filter (fun k => Py.startswith k prefix = true) (map fst (map_to_list objs))).

(** The keys one response carries at most. *)
Definition max_keys : nat := 1000.

(** [list_objects_v2(Bucket=, Prefix=)]: the keys of the ['Contents'] of
    the response, the first [max_keys] keys below the prefix; [None] when
    the response has no ['Contents']. *)
Definition list_objects_v2 (bucket prefix : string) : M (option (list string)) :=
  with_bucket "ListObjectsV2" bucket (fun objs =>
    match take max_keys (keys_with_prefix prefix objs) with
    | [] => ret None
    | ks => ret (Some ks)
    end).

(** [delete_objects(Bucket=, Delete={'Objects': ...})] *)
Definition delete_objects (bucket : string) (ks : list string) : M unit :=
  with_bucket "DeleteObjects" bucket (fun objs =>
    set_bucket bucket (foldr delete objs ks)).

(** [put_object(Bucket=, Key=, Body=, ContentType=)] *)
Definition put_object (bucket key body : string) : M unit :=
  with_bucket "PutObject" bucket (fun objs =>
    set_bucket bucket (<[key := body]> objs)).

(** [get_object(Bucket=, Key=)['Body'].read().decode('utf-8')] *)
Definition get_object (bucket key : string) : M string :=
  with_bucket "GetObject" bucket (fun objs =>
    match objs !! key with
    | Some body => ret body
    | None =>
        raise (Exn NoSuchKey
          "An error occurred (NoSuchKey) when calling the GetObject operation: The specified key does not exist.")
    end).

(** [download_file(bucket, key, filename)] *)
Definition download_file (bucket key filename : string) : M unit :=
  with_bucket "HeadObject" bucket (fun objs =>
    match objs !! key with
    | Some body => Os.change filename (Os.write_file filename body)
    | None =>
        raise (Exn ClientError
          "An error occurred (404) when calling the HeadObject operation: Not Found")
    end).

End S3.

(** [boto3.resource('dynamodb').Table(name).put_item(Item=item)] *)
Definition put_item (table : string) (item : error_item) : M unit :=
  fun w => match dynamodb w !! table with
           | Some items => (Ok tt, set_dynamodb (<[table := (items ++ [item])%list]> (dynamodb w)) w)
           | None =>
               (Raise (Exn ClientError
                  "An error occurred (ResourceNotFoundException) when calling the PutItem operation: Requested resource not found"), w)
           end.

(* ===================================================================== *)
(** * What the methods share *)
(* ===================================================================== *)

(** An in-memory image, as far as the back ends use it: [image.save(path)]
    picks the format from the path, [image.save(buffer, format=...)] is told
    it; [None] is the exception the imaging library raises. *)
Record image : Type := Image {
  save_to_path : string -> option string;
  save_to_format : string -> option string
}.

Definition image_error : exn := Exn ValueError "unknown file extension".

(** [json.loads], raising [JSONDecodeError]. *)
Definition loads `{JsonCodec} (text : string) : M json :=
  match json_loads text with
  | inr v => ret v
  | inl msg => raise (Exn JSONDecodeError msg)
  end.

Fixpoint assoc {A} (k : string) (d : list (string * A)) : option A :=
  match d with
  | [] => None
  | (k', v) :: d' => if String.eqb k k' then Some v else assoc k d'
  end.

(** [data[key]] for a string [key] *)
Definition subscript (data : json) (key : string) : M json :=
  match data with
  | JDict d =>
      match assoc key d with
      | Some v => ret v
      | None => raise (Exn KeyError ("'" +:+ key +:+ "'"))
      end
  | JList _ => raise (Exn TypeError "list indices must be integers or slices, not str")
  | JStr _ => raise (Exn TypeError "string indices must be integers, not 'str'")
  | JNull => raise (Exn TypeError "'NoneType' object is not subscriptable")
  | JBool _ => raise (Exn TypeError "'bool' object is not subscriptable")
  | JInt _ => raise (Exn TypeError "'int' object is not subscriptable")
  | JFloat _ => raise (Exn TypeError "'float' object is not subscriptable")
  end.

(** The extensions of a page image, in the order of preference. *)
Definition extensions : list string := [".jpg"; ".jpeg"; ".png"].

(** [f'page_{i}{ext}'] and [f'page_content_{page_number}.json'] *)
Definition page_name (i : Z) (ext : string) : string :=
  "page_" +:+ Py.str_of_int i +:+ ext.
Definition page_content_name (page_number : Z) : string :=
  "page_content_" +:+ Py.str_of_int page_number +:+ ".json".

(** The sort key of both [get_all_jpg_files]:
    [int(x.split('_')[-1].split('.')[0])]. *)
Definition page_key (x : string) : option Z :=
  Py.int_of_str (Py.first_piece (Py.split "." (Py.last_piece (Py.split "_" x)))).

(** [l.sort(key=...)] once the keys are there: a stable sort. *)
Fixpoint insert_by_key {A} (kx : Z * A) (l : list (Z * A)) : list (Z * A) :=
  match l with
  | [] => [kx]
  | ky :: l' => if (fst kx <=? fst ky)%Z then kx :: ky :: l'
                else ky :: insert_by_key kx l'
  end.

Definition sort_by_key {A} (l : list (Z * A)) : list (Z * A) :=
  foldr insert_by_key [] l.

(** The keys of a [sort]: the first key that fails stops the sort. *)
Fixpoint keyed (l : list string) : M (list (Z * string)) :=
  match l with
  | [] => ret []
  | x :: l' =>
      match page_key x with
      | Some k => r <- keyed l' ;; ret ((k, x) :: r)
      | None =>
          raise (Exn ValueError
            ("invalid literal for int() with base 10: '" +:+
             Py.first_piece (Py.split "." (Py.last_piece (Py.split "_" x))) +:+ "'"))
      end
  end.

Definition sort_by_page (l : list string) : M (list string) :=
  ks <- keyed l ;; ret (map snd (sort_by_key ks)).

(** A loop that carries the list it appends to. *)
Fixpoint for_fold {A B} (l : list A) (acc : B) (body : A -> B -> M B) : M B :=
  match l with
  | [] => ret acc
  | x :: l' => acc' <- body x acc ;; for_fold l' acc' body
  end.

(* ===================================================================== *)
(** * [class LocalFileSystem(FileSystem)] *)
(* ===================================================================== *)

Module LocalFileSystem.

Record t : Type := Make { base_path : string }.

Section Methods.
Context `{JsonCodec}.
Variable self : t.

(** The body the two deleting methods share: empty the directory, one
    level deep, then remove it. *)
Definition clear_directory (page_images_path : string) : M unit :=
  files <- Os.query page_images_path (Os.listdir page_images_path) ;;
  for_each files (fun file =>
    let p := Py.join page_images_path file in
    Os.change p (Os.remove p)) ;;;
  Os.change page_images_path (Os.rmdir page_images_path).

Definition create_directory (kb_id doc_id : string) : M unit :=
  let page_images_path := Py.join3 (base_path self) kb_id doc_id in
  ex <- Os.test (Os.path_exists page_images_path) ;;
  (if ex then clear_directory page_images_path else ret tt) ;;;
  Os.change page_images_path (Os.makedirs page_images_path false).

Definition delete_directory (kb_id doc_id : string) : M unit :=
  let page_images_path := Py.join3 (base_path self) kb_id doc_id in
  ex <- Os.test (Os.path_exists page_images_path) ;;
  isd <- Os.test (Os.isdir page_images_path) ;;
  if ex && isd then clear_directory page_images_path else ret tt.

Definition delete_kb (kb_id : string) : M unit :=
  let kb_path := Py.join (base_path self) kb_id in
  ex <- Os.test (Os.path_exists kb_path) ;;
  if ex then
    docs <- Os.query kb_path (Os.listdir kb_path) ;;
    for_each docs (fun doc_id => delete_directory kb_id doc_id) ;;;
    delete_directory kb_id ""
  else ret tt.

Definition save_json (kb_id doc_id file_name : string) (file : json) : M unit :=
  let file_path := Py.join4 (base_path self) kb_id doc_id file_name in
  Os.change file_path (Os.write_file file_path (json_dumps (Some 2%nat) file)).

Definition save_image (kb_id doc_id file_name : string) (img : image) : M unit :=
  let image_path := Py.join4 (base_path self) kb_id doc_id file_name in
  match save_to_path img image_path with
  | Some bytes => Os.change image_path (Os.write_file image_path bytes)
  | None => raise image_error
  end.

(** The inner loop of [get_files]: the first extension that exists is
    appended and ends the loop ([break]). *)
Fixpoint first_existing (page_images_path : string) (i : Z)
    (exts : list string) (image_file_paths : list string) : M (list string) :=
  match exts with
  | [] => ret image_file_paths
  | ext :: exts' =>
      let image_file_path := Py.join page_images_path (page_name i ext) in
      ex <- Os.test (Os.path_exists image_file_path) ;;
      if ex then ret (image_file_paths ++ [image_file_path])%list
      else first_existing page_images_path i exts' image_file_paths
  end.

Definition get_files (kb_id doc_id : string) (page_start page_end : option Z)
  : M (list string) :=
  match page_start, page_end with
  | Some page_start, Some page_end =>
      let page_images_path := Py.join3 (base_path self) kb_id doc_id in
      for_fold (Py.range_incl page_start page_end) []
        (fun i acc => first_existing page_images_path i extensions acc)
  | _, _ => ret []
  end.

Definition is_image_name (file : string) : bool :=
  Py.endswith file ".jpg" || Py.endswith file ".jpeg" || Py.endswith file ".png".

Definition get_all_jpg_files (kb_id doc_id : string) : M (list string) :=
  let page_images_path := Py.join3 (base_path self) kb_id doc_id in
  files <- Os.query page_images_path (Os.listdir page_images_path) ;;
  let image_file_paths :=
    map (Py.join page_images_path) (List.filter is_image_name files) in
  sort_by_page image_file_paths.

Definition log_error (kb_id doc_id : string) (err : json) : M unit := ret tt.

Definition save_page_content (kb_id doc_id : string) (page_number : Z)
    (content : string) : M unit :=
  let page_content_path :=
    Py.join4 (base_path self) kb_id doc_id (page_content_name page_number) in
  Os.change page_content_path
    (Os.write_file page_content_path
       (json_dumps None (JDict [("content", JStr content)]))).

Definition load_page_content (kb_id doc_id : string) (page_number : Z) : M json :=
  let page_content_path :=
    Py.join4 (base_path self) kb_id doc_id (page_content_name page_number) in
  try_except
    (text <- Os.query page_content_path (Os.read_file page_content_path) ;;
     data <- loads text ;;
     subscript data "content")
    (on_class FileNotFoundError (fun _ => ret JNull)).

Definition load_page_content_range (kb_id doc_id : string)
    (page_start page_end : Z) : M (list json) :=
  for_fold (Py.range_incl page_start page_end) []
    (fun page_num page_contents =>
       content <- load_page_content kb_id doc_id page_num ;;
       match content with
       | JNull => ret page_contents
       | _ => ret (page_contents ++ [content])%list
       end).

Definition load_data (kb_id doc_id data_name : string) : M json :=
  let file_path :=
    Py.join4 (base_path self) kb_id doc_id (data_name +:+ ".json") in
  try_except
    (text <- Os.query file_path (Os.read_file file_path) ;;
     loads text)
    (orelse
       (on_class FileNotFoundError (fun _ =>
          print ("File not found: " +:+ file_path) ;;; ret JNull))
       (on_class JSONDecodeError (fun e =>
          print ("Error decoding JSON from " +:+ file_path +:+ ": "
                 +:+ exn_msg e) ;;;
          ret JNull))).

Definition to_dict : gmap string json :=
  <["base_path" := JStr (base_path self)]>
    {[ "subclass_name" := JStr "LocalFileSystem" ]}.

(** The attributes of the instance, as [__init__] has set them. *)
Definition attributes : gmap string json :=
  {[ "base_path" := JStr (base_path self) ]}.

End Methods.

End LocalFileSystem.

(* ===================================================================== *)
(** * [class S3FileSystem(FileSystem)] *)
(* ===================================================================== *)

Module S3FileSystem.

Record t : Type := Make {
  base_path : string;
  bucket_name : string;
  region_name : string;
  access_key : string;
  secret_key : string;
  error_table : option string;
  dynamodb_table_name : option string;
  dynamodb_client_data_table_name : option string
}.

Section Methods.
Context `{JsonCodec}.
Variable self : t.

Definition create_s3_client : M S3.client :=
  S3.new_client (region_name self) (access_key self) (secret_key self).

Definition create_directory (kb_id doc_id : string) : M unit := ret tt.

(** [[{'Key': obj['Key']} for obj in response['Contents']]] *)
Definition key_dict (k : string) : json := JDict [("Key", JStr k)].

(** The body [delete_directory] and [delete_kb] share, for their
    prefix. *)
Definition delete_prefix (prefix : string) : M json :=
  s3_client <- create_s3_client ;;
  response <- S3.list_objects_v2 (bucket_name self) prefix ;;
  match response with
  | Some contents =>
      S3.delete_objects (bucket_name self) contents ;;;
      print ("Deleted all objects in " +:+ prefix +:+ " from "
             +:+ bucket_name self +:+ ".") ;;;
      ret (JList (map key_dict contents))
  | None =>
      print ("No objects found in " +:+ prefix +:+ ".") ;;;
      ret (JList [])
  end.

Definition delete_directory (kb_id doc_id : string) : M json :=
  delete_prefix (kb_id +:+ "/" +:+ doc_id +:+ "/").

Definition delete_kb (kb_id : string) : M json :=
  delete_prefix (kb_id +:+ "/").

Definition save_json (kb_id doc_id file_name : string) (file : json) : M unit :=
  let file_name := kb_id +:+ "/" +:+ doc_id +:+ "/" +:+ file_name in
  let json_data := json_dumps (Some 2%nat) file in
  s3_client <- create_s3_client ;;
  try_except
    (S3.put_object (bucket_name self) file_name json_data ;;;
     print ("JSON data uploaded to " +:+ bucket_name self +:+ "/"
            +:+ file_name +:+ "."))
    (on_any (fun _ => raise (Exn RuntimeError "Failed to upload JSON to S3."))).

Definition save_image (kb_id doc_id file_name : string) (file : image) : M unit :=
  let file_name := kb_id +:+ "/" +:+ doc_id +:+ "/" +:+ file_name in
  match save_to_format file "JPEG" with
  | None => raise image_error
  | Some buffer =>
      s3_client <- create_s3_client ;;
      try_except
        (S3.put_object (bucket_name self) file_name buffer ;;;
         print ("JPEG uploaded to " +:+ bucket_name self +:+ "/"
                +:+ file_name +:+ "."))
        (on_any (fun _ => raise (Exn RuntimeError "Failed to upload image to S3.")))
  end.

(** The inner loop of [get_files]: the answer carries [found_file]. *)
Fixpoint first_downloaded (kb_id doc_id : string) (i : Z)
    (exts : list string) (file_paths : list string) : M (bool * list string) :=
  match exts with
  | [] => ret (false, file_paths)
  | ext :: exts' =>
      let filename := kb_id +:+ "/" +:+ doc_id +:+ "/" +:+ page_name i ext in
      let output_folder := Py.join3 (base_path self) kb_id doc_id in
      ex <- Os.test (Os.path_exists output_folder) ;;
      (if ex then ret tt
       else try_except
              (Os.change output_folder (Os.makedirs output_folder false))
              (on_class FileExistsError (fun _ => ret tt))) ;;;
      let output_filepath := Py.join (base_path self) filename in
      ok <- try_except
              (S3.download_file (bucket_name self) filename output_filepath ;;;
               ret true)
              (on_any (fun _ => ret false)) ;;
      if ok then ret (true, (file_paths ++ [output_filepath])%list)
      else first_downloaded kb_id doc_id i exts' file_paths
  end.

Definition get_files (kb_id doc_id : string) (page_start page_end : option Z)
  : M (list string) :=
  match page_start, page_end with
  | Some page_start, Some page_end =>
      s3_client <- create_s3_client ;;
      for_fold (Py.range_incl page_start page_end) []
        (fun i file_paths =>
           r <- first_downloaded kb_id doc_id i extensions file_paths ;;
           (if fst r then ret tt
            else print ("Warning: No image file found for page "
                        +:+ Py.str_of_int i +:+ " in S3")) ;;;
           ret (snd r))
  | _, _ => ret []
  end.

Definition is_image_key (k : string) : bool :=
  let l := Py.lower k in
  Py.endswith l ".jpg" || Py.endswith l ".jpeg" || Py.endswith l ".png".

Definition get_all_jpg_files (kb_id doc_id : string) : M (list string) :=
  let prefix := kb_id +:+ "/" +:+ doc_id +:+ "/" in
  s3_client <- create_s3_client ;;
  try_except
    (response <- S3.list_objects_v2 (bucket_name self) prefix ;;
     match response with
     | None => ret []
     | Some contents =>
         let jpg_files := List.filter is_image_key contents in
         let output_folder := Py.join3 (base_path self) kb_id doc_id in
         Os.change output_folder (Os.makedirs output_folder true) ;;;
         local_file_paths <-
           for_fold jpg_files [] (fun s3_key local_file_paths =>
             let local_path := Py.join (base_path self) s3_key in
             try_except
               (S3.download_file (bucket_name self) s3_key local_path ;;;
                ret (local_file_paths ++ [local_path])%list)
               (on_any (fun e =>
                  print ("Error downloading file " +:+ s3_key +:+ ": "
                         +:+ exn_msg e) ;;;
                  ret local_file_paths))) ;;
         sort_by_page local_file_paths
     end)
    (on_any (fun e =>
       print ("Error listing/downloading files from S3: " +:+ exn_msg e) ;;;
       ret [])).

Definition log_error (kb_id doc_id : string) (err : json) : M unit :=
  match error_table self with
  | None => ret tt
  | Some table =>
      w <- get_world ;;
      put_item table (ErrorItem kb_id doc_id err (clock w))
  end.

Definition save_page_content (kb_id doc_id : string) (page_number : Z)
    (content : string) : M unit :=
  let file_name :=
    kb_id +:+ "/" +:+ doc_id +:+ "/" +:+ page_content_name page_number in
  let data := json_dumps None (JDict [("content", JStr content)]) in
  s3_client <- create_s3_client ;;
  try_except
    (S3.put_object (bucket_name self) file_name data)
    (on_any (fun _ =>
       raise (Exn RuntimeError "Failed to upload page content to S3."))).

Definition load_page_content (kb_id doc_id : string) (page_number : Z) : M json :=
  let file_name :=
    kb_id +:+ "/" +:+ doc_id +:+ "/" +:+ page_content_name page_number in
  s3_client <- create_s3_client ;;
  try_except
    (text <- S3.get_object (bucket_name self) file_name ;;
     data <- loads text ;;
     subscript data "content")
    (orelse
       (on_class NoSuchKey (fun _ => ret JNull))
       (on_any (fun e =>
          print ("Error loading page content from S3: " +:+ exn_msg e) ;;;
          ret JNull))).

Definition load_page_content_range (kb_id doc_id : string)
    (page_start page_end : Z) : M (list json) :=
  for_fold (Py.range_incl page_start page_end) []
    (fun page_num page_contents =>
       content <- load_page_content kb_id doc_id page_num ;;
       match content with
       | JNull => ret page_contents
       | _ => ret (page_contents ++ [content])%list
       end).

Definition opt_json (o : option string) : json :=
  match o with Some s => JStr s | None => JNull end.

Definition to_dict : gmap string json :=
  <["error_table" := opt_json (error_table self)]>
  (<["secret_key" := JStr (secret_key self)]>
  (<["access_key" := JStr (access_key self)]>
  (<["region_name" := JStr (region_name self)]>
  (<["bucket_name" := JStr (bucket_name self)]>
  (<["base_path" := JStr (base_path self)]>
     {[ "subclass_name" := JStr "S3FileSystem" ]}))))).

(** The attributes of the instance, as [__init__] has set them. *)
Definition attributes : gmap string json :=
  <["dynamodb_client_data_table_name" := opt_json (dynamodb_client_data_table_name self)]>
  (<["dynamodb_table_name" := opt_json (dynamodb_table_name self)]>
  (<["error_table" := opt_json (error_table self)]>
  (<["secret_key" := JStr (secret_key self)]>
  (<["access_key" := JStr (access_key self)]>
  (<["region_name" := JStr (region_name self)]>
  (<["bucket_name" := JStr (bucket_name self)]>
     {[ "base_path" := JStr (base_path self) ]})))))).

Definition load_data (kb_id doc_id data_name : string) : M json :=
  let s3_key := kb_id +:+ "/" +:+ doc_id +:+ "/" +:+ data_name +:+ ".json" in
  s3_client <- create_s3_client ;;
  try_except
    (text <- S3.get_object (bucket_name self) s3_key ;;
     loads text)
    (orelse
       (on_class NoSuchKey (fun _ =>
          print ("File not found in S3: " +:+ s3_key) ;;; ret JNull))
    (orelse
       (on_class JSONDecodeError (fun e =>
          print ("Error decoding JSON from S3 file " +:+ s3_key +:+ ": "
                 +:+ exn_msg e) ;;;
          ret JNull))
       (on_any (fun e =>
          print ("Error loading data from S3: " +:+ exn_msg e) ;;;
          ret JNull)))).

End Methods.

End S3FileSystem.

(* ===================================================================== *)
(** * [class FileSystem(ABC)]: the registry, the descriptor, the interface *)
(* ===================================================================== *)

Module FileSystem.

(** The classes [__init_subclass__] can be called for. *)
Inductive subclass : Type := LocalFileSystemClass | S3FileSystemClass.

Definition class_name (cls : subclass) : string :=
  match cls with
  | LocalFileSystemClass => "LocalFileSystem"
  | S3FileSystemClass => "S3FileSystem"
  end.

(** [cls.subclasses[cls.__name__] = cls] *)
Definition init_subclass (cls : subclass) (subclasses : gmap string subclass)
  : gmap string subclass :=
  <[class_name cls := cls]> subclasses.

(** The registry once the module is loaded: the two [class] statements
    have run, in the order of the file. *)
Definition subclasses : gmap string subclass :=
  init_subclass S3FileSystemClass (init_subclass LocalFileSystemClass ∅).

(** An instance of one of the two classes. *)
Inductive t : Type :=
  | Local (fs : LocalFileSystem.t)
  | Remote (fs : S3FileSystem.t).

Definition to_dict (self : t) : gmap string json :=
  match self with
  | Local fs => LocalFileSystem.to_dict fs
  | Remote fs => S3FileSystem.to_dict fs
  end.

(** An object of one of the two classes as Python holds it: its class, and
    the attributes [__init__] has set, each with the value it was given,
    of whatever type. *)
Record instance : Type := Instance {
  instance_class : subclass;
  attributes : gmap string json
}.

(** The object an instance with fields of the annotated types is. *)
Definition instance_of (self : t) : instance :=
  match self with
  | Local fs => Instance LocalFileSystemClass (LocalFileSystem.attributes fs)
  | Remote fs => Instance S3FileSystemClass (S3FileSystem.attributes fs)
  end.

(** The parameters of [__init__], and those without a default. *)
Definition local_params : gset string := {[ "base_path" ]}.

Definition s3_params : gset string :=
  {[ "base_path"; "bucket_name"; "region_name"; "access_key"; "secret_key";
     "error_table"; "dynamodb_table_name"; "dynamodb_client_data_table_name" ]}.

Definition s3_required : list string :=
  [ "base_path"; "bucket_name"; "region_name"; "access_key"; "secret_key" ].

Definition parameters (cls : subclass) : gset string :=
  match cls with
  | LocalFileSystemClass => local_params
  | S3FileSystemClass => s3_params
  end.

Definition required_parameters (cls : subclass) : list string :=
  match cls with
  | LocalFileSystemClass => [ "base_path" ]
  | S3FileSystemClass => s3_required
  end.

(** [__init__] of the class, on the values bound to its parameters: the
    attributes it sets, in the order of its assignments. *)
Definition init (cls : subclass) (arg : string -> json) : gmap string json :=
  match cls with
  | LocalFileSystemClass => {[ "base_path" := arg "base_path" ]}
  | S3FileSystemClass =>
      <["dynamodb_client_data_table_name" := arg "dynamodb_client_data_table_name"]>
      (<["dynamodb_table_name" := arg "dynamodb_table_name"]>
      (<["error_table" := arg "error_table"]>
      (<["secret_key" := arg "secret_key"]>
      (<["access_key" := arg "access_key"]>
      (<["region_name" := arg "region_name"]>
      (<["bucket_name" := arg "bucket_name"]>
         {[ "base_path" := arg "base_path" ]}))))))
  end.

(** The names in the message for missing arguments: ['a'], ['a' and 'b'],
    ['a', 'b', and 'c']. *)
Fixpoint quoted_names (names : list string) : string :=
  match names with
  | [] => ""
  | [a] => "'" +:+ a +:+ "'"
  | [a; b] => "'" +:+ a +:+ "' and '" +:+ b +:+ "'"
  | a :: rest =>
      "'" +:+ a +:+ "', " +:+
      match rest with
      | [b; c] => "'" +:+ b +:+ "', and '" +:+ c +:+ "'"
      | _ => quoted_names rest
      end
  end.

Definition missing_message (cls : subclass) (missing : list string) : string :=
  class_name cls +:+ ".__init__() missing "
  +:+ Py.str_of_int (Z.of_nat (length missing))
  +:+ " required positional argument"
  +:+ (if decide (length missing = 1%nat) then "" else "s")
  +:+ ": " +:+ quoted_names missing.

(** The message names one keyword that is no parameter: Python the first
    in the order of the dictionary, which the map does not keep; here the
    first in the order of the map. *)
Definition unexpected_message (cls : subclass) (config : gmap string json) : string :=
  class_name cls +:+ ".__init__() got an unexpected keyword argument '"
  +:+ default "" (head (filter (fun k => k ∉ parameters cls) (map fst (map_to_list config))))
  +:+ "'".

(** [subclass] called with [config] as keyword arguments: their binding to the
    parameters of [__init__], then [__init__].  A keyword that is no
    parameter, and then a parameter without default that is not given, is a
    [TypeError]; otherwise the object is made, with the values as they are
    given and [None] for a parameter left at its default. *)
Definition construct (cls : subclass) (config : gmap string json) : res instance :=
  if decide (dom config ⊆ parameters cls) then
    match filter (fun k => config !! k = None) (required_parameters cls) with
    | [] => Ok (Instance cls (init cls (fun k => default JNull (config !! k))))
    | missing => Raise (Exn TypeError (missing_message cls missing))
    end
  else Raise (Exn TypeError (unexpected_message cls config)).

(** [str(v)] inside the message of [from_dict], for the values a
    dictionary can be asked for. *)
Definition str_of_value (v : json) : string :=
  match v with
  | JNull => "None"
  | JBool true => "True"
  | JBool false => "False"
  | JInt z => Py.str_of_int z
  | JFloat l => l
  | JStr s => s
  | JList _ | JDict _ => ""
  end.

(** [from_dict(config)]: the outcome, and [config] as the call leaves it
    ([pop] takes [subclass_name] out of the caller's dictionary). *)
Definition from_dict (config : gmap string json)
  : res instance * gmap string json :=
  let subclass_name := default JNull (config !! "subclass_name") in
  let config := delete "subclass_name" config in
  match subclass_name with
  | JList _ => (Raise (Exn TypeError "unhashable type: 'list'"), config)
  | JDict _ => (Raise (Exn TypeError "unhashable type: 'dict'"), config)
  | _ =>
      let subclass :=
        match subclass_name with
        | JStr name => subclasses !! name
        | _ => None
        end in
      match subclass with
      | Some cls => (construct cls config, config)
      | None =>
          (Raise (Exn ValueError
             ("Unknown subclass: " +:+ str_of_value subclass_name)), config)
      end
  end.

(** The calls of the interface, and their dispatch on the instance. *)
Inductive call : Type :=
  | CreateDirectory (kb_id doc_id : string)
  | DeleteDirectory (kb_id doc_id : string)
  | DeleteKb (kb_id : string)
  | SaveJson (kb_id doc_id file_name : string) (file : json)
  | SaveImage (kb_id doc_id file_name : string) (img : image)
  | GetFiles (kb_id doc_id : string) (page_start page_end : option Z)
  | GetAllJpgFiles (kb_id doc_id : string)
  | LogError (kb_id doc_id : string) (err : json)
  | SavePageContent (kb_id doc_id : string) (page_number : Z) (content : string)
  | LoadPageContent (kb_id doc_id : string) (page_number : Z)
  | LoadPageContentRange (kb_id doc_id : string) (page_start page_end : Z)
  | LoadData (kb_id doc_id data_name : string).

(** What a method returns, as a Python value. *)
Definition none (m : M unit) : M json := m ;;; ret JNull.
Definition paths (m : M (list string)) : M json :=
  l <- m ;; ret (JList (map JStr l)).
Definition values (m : M (list json)) : M json := l <- m ;; ret (JList l).

Definition run `{JsonCodec} (self : t) (c : call) : M json :=
  match self with
  | Local fs =>
      match c with
      | CreateDirectory kb doc => none (LocalFileSystem.create_directory fs kb doc)
      | DeleteDirectory kb doc => none (LocalFileSystem.delete_directory fs kb doc)
      | DeleteKb kb => none (LocalFileSystem.delete_kb fs kb)
      | SaveJson kb doc n f => none (LocalFileSystem.save_json fs kb doc n f)
      | SaveImage kb doc n i => none (LocalFileSystem.save_image fs kb doc n i)
      | GetFiles kb doc a b => paths (LocalFileSystem.get_files fs kb doc a b)
      | GetAllJpgFiles kb doc => paths (LocalFileSystem.get_all_jpg_files fs kb doc)
      | LogError kb doc e => none (LocalFileSystem.log_error kb doc e)
      | SavePageContent kb doc n s => none (LocalFileSystem.save_page_content fs kb doc n s)
      | LoadPageContent kb doc n => LocalFileSystem.load_page_content fs kb doc n
      | LoadPageContentRange kb doc a b =>
          values (LocalFileSystem.load_page_content_range fs kb doc a b)
      | LoadData kb doc n => LocalFileSystem.load_data fs kb doc n
      end
  | Remote fs =>
      match c with
      | CreateDirectory kb doc => none (S3FileSystem.create_directory kb doc)
      | DeleteDirectory kb doc => S3FileSystem.delete_directory fs kb doc
      | DeleteKb kb => S3FileSystem.delete_kb fs kb
      | SaveJson kb doc n f => none (S3FileSystem.save_json fs kb doc n f)
      | SaveImage kb doc n i => none (S3FileSystem.save_image fs kb doc n i)
      | GetFiles kb doc a b => paths (S3FileSystem.get_files fs kb doc a b)
      | GetAllJpgFiles kb doc => paths (S3FileSystem.get_all_jpg_files fs kb doc)
      | LogError kb doc e => none (S3FileSystem.log_error fs kb doc e)
      | SavePageContent kb doc n s => none (S3FileSystem.save_page_content fs kb doc n s)
      | LoadPageContent kb doc n => S3FileSystem.load_page_content fs kb doc n
      | LoadPageContentRange kb doc a b =>
          values (S3FileSystem.load_page_content_range fs kb doc a b)
      | LoadData kb doc n => S3FileSystem.load_data fs kb doc n
      end
  end.

End FileSystem.

(** An instance with fields of the annotated types is read as the object
    it is, also where it is the value a call answers. *)
Coercion FileSystem.instance_of : FileSystem.t >-> FileSystem.instance.
Arguments Ok {A} & a.

(* ===================================================================== *)
(** * A JSON codec to run the methods with *)
(* ===================================================================== *)

(** The methods take the codec as a parameter.  [MiniJson] is a codec of
    this development to evaluate them on examples: it writes JSON the way
    [json.dumps] lays it out and reads JSON text back.  A character of a
    string is one code point below 256. *)
Module MiniJson.

(** The double quote. *)
Definition dquote : ascii := ascii_of_nat 34.

Definition hex_digit (n : nat) : ascii :=
  ascii_of_nat (if (n <? 10)%nat then 48 + n else 87 + n).

Definition escape_char (a : ascii) : string :=
  let n := nat_of_ascii a in
  if (n =? 34)%nat then String "\" (String dquote "")
  else if (n =? 92)%nat then "\\"
  else if (n =? 10)%nat then "\n"
  else if (n =? 13)%nat then "\r"
  else if (n =? 9)%nat then "\t"
  else if (n =? 8)%nat then "\b"
  else if (n =? 12)%nat then "\f"
  else if (32 <=? n)%nat && (n <? 127)%nat then String a ""
  else "\u00" +:+ String (hex_digit (n / 16)) (String (hex_digit (n mod 16)) "").

Fixpoint escape (s : string) : string :=
  match s with
  | EmptyString => ""
  | String a s' => escape_char a +:+ escape s'
  end.

Definition quote (s : string) : string :=
  String dquote (escape s +:+ String dquote "").

Fixpoint spaces (n : nat) : string :=
  match n with O => "" | S n' => String " " (spaces n') end.

Definition newline : string := String (ascii_of_nat 10) "".

(** The separators of an indented and of a flat layout. *)
Definition opening (indent : option nat) (level : nat) : string :=
  match indent with
  | Some n => newline +:+ spaces (n * S level)
  | None => ""
  end.
Definition between (indent : option nat) (level : nat) : string :=
  match indent with
  | Some n => "," +:+ newline +:+ spaces (n * S level)
  | None => ", "
  end.
Definition closing (indent : option nat) (level : nat) : string :=
  match indent with
  | Some n => newline +:+ spaces (n * level)
  | None => ""
  end.

Fixpoint dumps_at (indent : option nat) (level : nat) (v : json) : string :=
  match v with
  | JNull => "null"
  | JBool true => "true"
  | JBool false => "false"
  | JInt z => Py.str_of_int z
  | JFloat l => l
  | JStr s => quote s
  | JList [] => "[]"
  | JList l =>
      "[" +:+ opening indent level
      +:+ String.concat (between indent level)
            (map (dumps_at indent (S level)) l)
      +:+ closing indent level +:+ "]"
  | JDict [] => "{}"
  | JDict d =>
      "{" +:+ opening indent level
      +:+ String.concat (between indent level)
            (map (fun kv => quote (fst kv) +:+ ": "
                            +:+ dumps_at indent (S level) (snd kv)) d)
      +:+ closing indent level +:+ "}"
  end.

Definition dumps (indent : option nat) (v : json) : string := dumps_at indent 0 v.

(** Reading. *)
Definition is_ws (a : ascii) : bool :=
  let n := nat_of_ascii a in
  (n =? 32)%nat || (n =? 9)%nat || (n =? 10)%nat || (n =? 13)%nat.

Fixpoint skip_ws (s : string) : string :=
  match s with
  | String a s' => if is_ws a then skip_ws s' else s
  | EmptyString => ""
  end.

Fixpoint strip_prefix (p s : string) : option string :=
  match p, s with
  | EmptyString, _ => Some s
  | String a p', String b s' => if Ascii.eqb a b then strip_prefix p' s' else None
  | String _ _, EmptyString => None
  end.

Definition hex_value (a : ascii) : option nat :=
  let n := nat_of_ascii a in
  if (48 <=? n)%nat && (n <=? 57)%nat then Some (n - 48)
  else if (97 <=? n)%nat && (n <=? 102)%nat then Some (n - 87)
  else if (65 <=? n)%nat && (n <=? 70)%nat then Some (n - 55)
  else None.

Definition hex2 (h1 h2 h3 h4 : ascii) : option ascii :=
  match hex_value h1, hex_value h2, hex_value h3, hex_value h4 with
  | Some 0%nat, Some 0%nat, Some a, Some b => Some (ascii_of_nat (16 * a + b))
  | _, _, _, _ => None
  end.

Definition unescape (e : ascii) : option ascii :=
  let n := nat_of_ascii e in
  if (n =? 34)%nat || (n =? 92)%nat || (n =? 47)%nat then Some e
  else if (n =? 110)%nat then Some (ascii_of_nat 10)
  else if (n =? 114)%nat then Some (ascii_of_nat 13)
  else if (n =? 116)%nat then Some (ascii_of_nat 9)
  else if (n =? 98)%nat then Some (ascii_of_nat 8)
  else if (n =? 102)%nat then Some (ascii_of_nat 12)
  else None.

(** The characters of a string literal, after its opening quote. *)
Fixpoint read_string (s : string) : option (string * string) :=
  let cons (c : option ascii) (r : option (string * string)) :=
    match c, r with
    | Some c, Some (t, rest) => Some (String c t, rest)
    | _, _ => None
    end in
  match s with
  | EmptyString => None
  | String a s' =>
      let n := nat_of_ascii a in
      if (n =? 34)%nat then Some ("", s')
      else if (n <? 32)%nat then None
      else if (n =? 92)%nat then
        match s' with
        | String "u" (String h1 (String h2 (String h3 (String h4 r)))) =>
            cons (hex2 h1 h2 h3 h4) (read_string r)
        | String e r => cons (unescape e) (read_string r)
        | EmptyString => None
        end
      else cons (Some a) (read_string s')
  end.

Definition is_digit (a : ascii) : bool :=
  let n := nat_of_ascii a in (48 <=? n)%nat && (n <=? 57)%nat.

Definition is_float_char (a : ascii) : bool :=
  is_digit a || match a with "."%char | "e"%char | "E"%char | "+"%char | "-"%char => true
                | _ => false end.

Fixpoint span (p : ascii -> bool) (s : string) : string * string :=
  match s with
  | String a s' =>
      if p a then let '(t, r) := span p s' in (String a t, r) else ("", s)
  | EmptyString => ("", "")
  end.

Definition read_number (s : string) : option (json * string) :=
  let '(sign, r) := match s with String "-" r => ("-", r) | _ => ("", s) end in
  let '(ds, r) := span is_digit r in
  match ds with
  | EmptyString => None
  | String "0" (String _ _) => None
  | _ =>
      match r with
      | String c _ =>
          if is_float_char c && negb (is_digit c) then
            let '(tail, r') := span is_float_char r in
            Some (JFloat (sign +:+ ds +:+ tail), r')
          else option_map (fun z => (JInt z, r)) (Py.int_of_str (sign +:+ ds))
      | EmptyString => option_map (fun z => (JInt z, r)) (Py.int_of_str (sign +:+ ds))
      end
  end.

(** A key read twice keeps its place and takes the later value. *)
Fixpoint dict_set (k : string) (v : json) (d : list (string * json))
  : list (string * json) :=
  match d with
  | [] => [(k, v)]
  | (k', v') :: d' =>
      if String.eqb k k' then (k, v) :: d' else (k', v') :: dict_set k v d'
  end.

Fixpoint read_value (fuel : nat) (s : string) : option (json * string) :=
  match fuel with
  | O => None
  | S fuel' =>
      let s := skip_ws s in
      match s with
      | String "[" r =>
          match skip_ws r with
          | String "]" r' => Some (JList [], r')
          | _ => read_items fuel' [] r
          end
      | String "{" r =>
          match skip_ws r with
          | String "}" r' => Some (JDict [], r')
          | _ => read_members fuel' [] r
          end
      | _ =>
          match strip_prefix (String dquote "") s, strip_prefix "null" s,
                strip_prefix "true" s, strip_prefix "false" s with
          | Some r, _, _, _ =>
              option_map (fun '(t, r') => (JStr t, r')) (read_string r)
          | _, Some r, _, _ => Some (JNull, r)
          | _, _, Some r, _ => Some (JBool true, r)
          | _, _, _, Some r => Some (JBool false, r)
          | _, _, _, _ => read_number s
          end
      end
  end
with read_items (fuel : nat) (acc : list json) (s : string)
  : option (json * string) :=
  match fuel with
  | O => None
  | S fuel' =>
      match read_value fuel' s with
      | Some (v, r) =>
          match skip_ws r with
          | String "," r' => read_items fuel' (acc ++ [v])%list r'
          | String "]" r' => Some (JList (acc ++ [v])%list, r')
          | _ => None
          end
      | None => None
      end
  end
with read_members (fuel : nat) (acc : list (string * json)) (s : string)
  : option (json * string) :=
  match fuel with
  | O => None
  | S fuel' =>
      match strip_prefix (String dquote "") (skip_ws s) with
      | Some r =>
          match read_string r with
          | Some (k, r1) =>
              match skip_ws r1 with
              | String ":" r2 =>
                  match read_value fuel' r2 with
                  | Some (v, r3) =>
                      match skip_ws r3 with
                      | String "," r4 => read_members fuel' (dict_set k v acc) r4
                      | String "}" r4 => Some (JDict (dict_set k v acc), r4)
                      | _ => None
                      end
                  | None => None
                  end
              | _ => None
              end
          | None => None
          end
      | _ => None
      end
  end.

Definition loads (s : string) : string + json :=
  match read_value (2 * String.length s + 2) s with
  | Some (v, r) =>
      match skip_ws r with
      | EmptyString => inr v
      | _ => inl "Extra data"
      end
  | None => inl "Expecting value"
  end.

Definition codec : JsonCodec := {| json_dumps := dumps; json_loads := loads |}.

End MiniJson.


(* ===================================================================== *)
(** * The vocabulary of the specification *)
(* ===================================================================== *)

(** The class an instance belongs to. *)
Definition class_of (self : FileSystem.t) : FileSystem.subclass :=
  match self with
  | FileSystem.Local _ => FileSystem.LocalFileSystemClass
  | FileSystem.Remote _ => FileSystem.S3FileSystemClass
  end.

(** What a descriptor keeps of an instance: everything of a local one; of a
    remote one everything but the two table names. *)
Definition described (self : FileSystem.t) : FileSystem.t :=
  match self with
  | FileSystem.Local fs => FileSystem.Local fs
  | FileSystem.Remote fs =>
      FileSystem.Remote
        (S3FileSystem.Make (S3FileSystem.base_path fs) (S3FileSystem.bucket_name fs)
           (S3FileSystem.region_name fs) (S3FileSystem.access_key fs)
           (S3FileSystem.secret_key fs) (S3FileSystem.error_table fs) None None)
  end.

(** Two instances that read and write the same place. *)
Definition same_location (a b : FileSystem.t) : Prop :=
  match a, b with
  | FileSystem.Local x, FileSystem.Local y =>
      LocalFileSystem.base_path x = LocalFileSystem.base_path y
  | FileSystem.Remote x, FileSystem.Remote y =>
      S3FileSystem.base_path x = S3FileSystem.base_path y
      /\ S3FileSystem.bucket_name x = S3FileSystem.bucket_name y
      /\ S3FileSystem.region_name x = S3FileSystem.region_name y
      /\ S3FileSystem.access_key x = S3FileSystem.access_key y
      /\ S3FileSystem.secret_key x = S3FileSystem.secret_key y
      /\ S3FileSystem.error_table x = S3FileSystem.error_table y
  | _, _ => False
  end.

(** Every character of [s] passes [p]. *)
Fixpoint all_chars (p : ascii -> bool) (s : string) : bool :=
  match s with
  | EmptyString => true
  | String a s' => p a && all_chars p s'
  end.

Definition no_char (c : ascii) (s : string) : bool :=
  all_chars (fun a => negb (Ascii.eqb a c)) s.

(** A name one directory entry can carry. *)
Definition segment (s : string) : bool :=
  negb (String.eqb s "") && negb (String.eqb s ".") && negb (String.eqb s "..")
  && no_char "/" s.

Definition is_digit (a : ascii) : bool :=
  let n := nat_of_ascii a in (48 <=? n)%nat && (n <=? 57)%nat.

(** The characters of a decimal numeral, with its sign. *)
Definition is_numeral_char (a : ascii) : bool := is_digit a || Ascii.eqb a "-".


(** The tree [d] with the node at [cs] replaced by [m] (and [d] itself when
    [cs] leads nowhere). *)
Fixpoint subst (cs : list string) (m : node) (d : node) : node :=
  match cs with
  | [] => m
  | c :: cs' =>
      match d with
      | File _ => d
      | Dir es =>
          match es !! c with
          | Some k => Dir (<[c := subst cs' m k]> es)
          | None => d
          end
      end
  end.

(** The tree [d] without the entry the path [p] names, and so without
    everything below it. *)
Definition without (p : string) (d : node) : node :=
  match Os.update (Os.components p) (fun _ => inr None) d with
  | inr d' => d'
  | inl _ => d
  end.

Definition is_file (n : node) : bool :=
  match n with File _ => true | Dir _ => false end.

(** A directory that holds regular files only, under names an entry can
    carry. *)
Definition flat (es : gmap string node) : Prop :=
  map_Forall (fun name n => segment name = true /\ is_file n = true) es.

(** The objects of a bucket that are not below a prefix. *)
Definition objs_without (prefix : string) (objs : gmap string string)
  : gmap string string :=
  filter (fun kv => Py.startswith (fst kv) prefix = false) objs.

(** ** Worlds to evaluate the methods in *)

(** A directory of regular files, by name and text. *)
Definition dir_of (files : list (string * string)) : node :=
  Dir (list_to_map (map (fun f => (fst f, File (snd f))) files)).

(** The pages of the second testable property: 2, 10 and 1, with mixed
    extensions, page 1 also as [.png]; beside them a data blob, and a page
    content file that is not JSON. *)
Definition example_files : list (string * string) :=
  [ ("page_2.png", "png 2"); ("page_10.jpg", "jpg 10");
    ("page_1.jpeg", "jpeg 1"); ("page_1.png", "png 1");
    ("elements.json", "[]"); ("page_content_7.json", "{not json") ].

Definition example_disk : node :=
  Dir {[ "base" := Dir {[ "kb" := Dir {[ "doc" := dir_of example_files ]} ]} ]}.

Definition example_objects : gmap string string :=
  list_to_map (map (fun f => ("kb/doc/" +:+ fst f, snd f)) example_files).

(** A world with the example document on the local disk below ["base"] and
    in the bucket ["bucket"], and nothing below ["cache"]. *)
Definition example_world : world :=
  World example_disk {[ "bucket" := example_objects ]} ∅ [] "2024-01-01T00:00:00".

Definition example_local : LocalFileSystem.t := LocalFileSystem.Make "base".

Definition example_s3 : S3FileSystem.t :=
  S3FileSystem.Make "cache" "bucket" "eu-west-1" "AK" "SK" None (Some "t1") (Some "t2").




(** Following the specification of [getFiles]: the extension of a page is
    the first of [jpg], [jpeg], [png] that matches. *)
Definition chosen_extension (found : string -> bool) : option string :=
  List.find found extensions.

(** Following the specification of [getFiles]: the pages of the range, in
    increasing order, each with its chosen extension; a page with no match
    is skipped. *)
Definition page_hits (found : Z -> string -> bool) (page_start page_end : Z)
  : list (Z * string) :=
  omap (fun i => option_map (fun ext => (i, ext)) (chosen_extension (found i)))
    (Py.range_incl page_start page_end).

(** What [get_files] looks for, and the path it answers, on the local back
    end. *)
Definition local_page_path (self : LocalFileSystem.t) (kb_id doc_id : string)
    (hit : Z * string) : string :=
  Py.join (Py.join3 (LocalFileSystem.base_path self) kb_id doc_id)
    (page_name (fst hit) (snd hit)).

Definition local_found (self : LocalFileSystem.t) (kb_id doc_id : string)
    (d : node) (i : Z) (ext : string) : bool :=
  Os.path_exists (local_page_path self kb_id doc_id (i, ext)) d.

(** What [get_files] looks for, and the path it answers, on the remote back
    end. *)
Definition s3_page_key (kb_id doc_id : string) (hit : Z * string) : string :=
  kb_id +:+ "/" +:+ doc_id +:+ "/" +:+ page_name (fst hit) (snd hit).

Definition s3_page_path (self : S3FileSystem.t) (kb_id doc_id : string)
    (hit : Z * string) : string :=
  Py.join (S3FileSystem.base_path self) (s3_page_key kb_id doc_id hit).

Definition s3_found (objs : gmap string string) (kb_id doc_id : string)
    (i : Z) (ext : string) : bool :=
  bool_decide (is_Some (objs !! s3_page_key kb_id doc_id (i, ext))).

(** The local mirror of a document can take downloads: its folder is there
    or can be made, and holds regular files only. *)
Definition mirror_ready (folder : string) (d : node) : Prop :=
  exists d1 es,
    Os.makedirs folder true d = inr d1
    /\ Os.get (Os.components folder) d1 = inr (Dir es)
    /\ flat es.


(** ** Words for the further properties *)

(** ASCII text: every character is below 128. *)
Definition is_ascii (a : ascii) : bool := (nat_of_ascii a <? 128)%nat.
Definition ascii_text (s : string) : bool := all_chars is_ascii s.

(** An ASCII path that carries no page number: [int] raises on the piece
    of it the sort key is read from. *)
Definition unnumbered (x : string) : Prop :=
  ascii_text x = true /\ page_key x = None.

(** [content is None] *)
Definition is_none (v : json) : bool :=
  match v with JNull => true | _ => false end.

(** The contents of the pages [page_start] to [page_end], in the order of
    the page numbers, where [read] gives the content of a page, and [None]
    for a page without content. *)
Definition page_contents (read : Z -> json) (page_start page_end : Z) : list json :=
  List.filter (fun v => negb (is_none v)) (map read (Py.range_incl page_start page_end)).

(** The descriptor of a remote instance with the two table names [to_dict]
    leaves out, as a caller can complete it. *)
Definition with_tables (fs : S3FileSystem.t) : gmap string json :=
  <["dynamodb_client_data_table_name"
    := S3FileSystem.opt_json (S3FileSystem.dynamodb_client_data_table_name fs)]>
  (<["dynamodb_table_name"
     := S3FileSystem.opt_json (S3FileSystem.dynamodb_table_name fs)]>
     (FileSystem.to_dict (FileSystem.Remote fs))).

(** The local copies of the page images [hits] hold what the objects of
    these pages hold. *)
Definition downloaded (self : S3FileSystem.t) (kb_id doc_id : string)
    (objs : gmap string string) (d : node) (hits : list (Z * string)) : Prop :=
  Forall (fun hit =>
    exists body,
      objs !! s3_page_key kb_id doc_id hit = Some body
      /\ Os.read_file (s3_page_path self kb_id doc_id hit) d = inr body) hits.

(** The images that were downloaded, with extensions that are part of a
    name. *)
Definition mirrored (self : S3FileSystem.t) (kb doc : string)
    (objs : gmap string string) (d : node) (hits : list (Z * string)) : Prop :=
  downloaded self kb doc objs d hits
  /\ Forall (fun hit => no_char "/" (snd hit) = true) hits.

(** Two worlds with the same local disk and the same object store; they
    may differ in what was printed, in the error table and in the time. *)
Definition same_stores (w w' : world) : Prop :=
  disk w = disk w' /\ s3 w = s3 w'.

(** A computation that reads the disk and the object store only, and in
    two worlds that agree on them answers the same and leaves them in
    agreement. *)
Definition stores_only {A} (m : M A) : Prop :=
  forall w w', same_stores w w' ->
    fst (m w) = fst (m w') /\ same_stores (snd (m w)) (snd (m w')).

Definition handler_stores_only {A} (h : exn -> option (M A)) : Prop :=
  forall e k, h e = Some k -> stores_only k.

(** Whether a call is [log_error]. *)
Definition is_log_error (c : FileSystem.call) : bool :=
  match c with FileSystem.LogError _ _ _ => true | _ => false end.

(* ===================================================================== *)
(** * Properties *)
(* ===================================================================== *)

Ltac desc_lookup :=
  repeat first
    [ rewrite lookup_insert_eq
    | rewrite lookup_singleton_eq
    | rewrite lookup_insert_ne by done
    | rewrite lookup_delete_ne by done
    | rewrite lookup_delete_eq
    | rewrite lookup_singleton_ne by done
    | rewrite lookup_empty ].

(** ** The descriptor and the registry *)

Lemma subclasses_local :
  FileSystem.subclasses !! "LocalFileSystem" = Some FileSystem.LocalFileSystemClass.
Proof. unfold FileSystem.subclasses, FileSystem.init_subclass. simpl. by desc_lookup. Qed.

Lemma subclasses_s3 :
  FileSystem.subclasses !! "S3FileSystem" = Some FileSystem.S3FileSystemClass.
Proof. unfold FileSystem.subclasses, FileSystem.init_subclass. simpl. by desc_lookup. Qed.

Lemma subclasses_lookup name cls :
  FileSystem.subclasses !! name = Some cls -> FileSystem.class_name cls = name.
Proof.
  unfold FileSystem.subclasses, FileSystem.init_subclass. simpl.
  rewrite lookup_insert. case_decide as H1; [intros [= <-]; by subst|].
  rewrite lookup_insert. case_decide as H2; [intros [= <-]; by subst|].
  by rewrite lookup_empty.
Qed.

Lemma subclasses_registered name :
  is_Some (FileSystem.subclasses !! name)
  <-> name = "LocalFileSystem" \/ name = "S3FileSystem".
Proof.
  split.
  - intros [cls Hc]. apply subclasses_lookup in Hc. destruct cls; simpl in Hc; auto.
  - intros [-> | ->]; [rewrite subclasses_local | rewrite subclasses_s3]; eauto.
Qed.

(** The arguments a required parameter is missing for, when there is
    none. *)
Lemma required_given (config : gmap string json) (names : list string) :
  Forall (fun k => is_Some (config !! k)) names ->
  filter (fun k => config !! k = None) names = [].
Proof.
  induction 1 as [|k names [v Hk] _ IH]; [done|].
  rewrite filter_cons_False by by rewrite Hk. exact IH.
Qed.

Lemma required_missing (config : gmap string json) (names : list string) :
  ~ Forall (fun k => is_Some (config !! k)) names ->
  filter (fun k => config !! k = None) names <> [].
Proof.
  intros Hno Hnil. apply Hno. apply Forall_forall. intros k Hk.
  destruct (config !! k) as [v|] eqn:E; [by eauto|].
  assert (Hin : k ∈ filter (fun k => config !! k = None) names)
    by by apply list_elem_of_filter.
  rewrite Hnil in Hin. by apply elem_of_nil in Hin.
Qed.

Lemma construct_ok cls (config : gmap string json) :
  dom config ⊆ FileSystem.parameters cls ->
  Forall (fun k => is_Some (config !! k)) (FileSystem.required_parameters cls) ->
  FileSystem.construct cls config
  = Ok (FileSystem.Instance cls
          (FileSystem.init cls (fun k => default JNull (config !! k)))).
Proof.
  intros Hdom Hreq. unfold FileSystem.construct.
  rewrite decide_True by done. by rewrite required_given.
Qed.

Lemma construct_raise cls (config : gmap string json) :
  ~ (dom config ⊆ FileSystem.parameters cls
     /\ Forall (fun k => is_Some (config !! k)) (FileSystem.required_parameters cls)) ->
  exists msg, FileSystem.construct cls config = Raise (Exn TypeError msg).
Proof.
  intros Hno. unfold FileSystem.construct. case_decide as Hdom; [|by eauto].
  destruct (filter _ (FileSystem.required_parameters cls)) as [|k ks] eqn:E; [|by eauto].
  exfalso. apply Hno. split; [done|].
  destruct (decide (Forall (fun k => is_Some (config !! k))
                      (FileSystem.required_parameters cls))) as [|Hn]; [done|].
  by apply required_missing in Hn.
Qed.

Lemma init_attributes cls arg :
  dom (FileSystem.init cls arg) = FileSystem.parameters cls
  /\ forall k, k ∈ FileSystem.parameters cls -> FileSystem.init cls arg !! k = Some (arg k).
Proof.
  destruct cls; simpl.
  - unfold FileSystem.local_params. rewrite dom_singleton_L. split; [done|].
    intros k ->%elem_of_singleton. by rewrite lookup_singleton_eq.
  - unfold FileSystem.s3_params. rewrite !dom_insert_L, dom_singleton_L.
    split; [set_solver|].
    intros k Hk. repeat (apply elem_of_union in Hk as [Hk|Hk]).
    all: apply elem_of_singleton in Hk as ->; by desc_lookup.
Qed.

Lemma from_dict_registered (config : gmap string json) name cls :
  config !! "subclass_name" = Some (JStr name) ->
  FileSystem.subclasses !! name = Some cls ->
  FileSystem.from_dict config
  = (FileSystem.construct cls (delete "subclass_name" config),
     delete "subclass_name" config).
Proof.
  intros Hn Hc. unfold FileSystem.from_dict. rewrite Hn. simpl. by rewrite Hc.
Qed.

Lemma from_dict_to_dict (self : FileSystem.t) :
  FileSystem.from_dict (FileSystem.to_dict self)
  = (Ok (FileSystem.instance_of (described self)),
     delete "subclass_name" (FileSystem.to_dict self)).
Proof.
  destruct self as [[b]|[b bk r a s e d1 d2]].
  - rewrite (from_dict_registered _ "LocalFileSystem" FileSystem.LocalFileSystemClass);
      [|by unfold FileSystem.to_dict, LocalFileSystem.to_dict; desc_lookup
       |apply subclasses_local].
    reflexivity.
  - rewrite (from_dict_registered _ "S3FileSystem" FileSystem.S3FileSystemClass);
      [|by unfold FileSystem.to_dict, S3FileSystem.to_dict; desc_lookup
       |apply subclasses_s3].
    simpl FileSystem.to_dict. unfold S3FileSystem.to_dict. simpl.
    rewrite construct_ok.
    + simpl. unfold S3FileSystem.attributes. simpl. desc_lookup. by destruct e.
    + simpl. unfold FileSystem.s3_params.
      rewrite dom_delete_L, !dom_insert_L, dom_singleton_L. set_solver.
    + unfold FileSystem.required_parameters, FileSystem.s3_required.
      repeat constructor; desc_lookup; eauto.
Qed.

Lemma run_described `{JsonCodec} (self : FileSystem.t) (c : FileSystem.call) (w : world) :
  FileSystem.run (described self) c w = FileSystem.run self c w.
Proof. destruct self as [fs|fs]; [reflexivity|]. destruct fs, c; reflexivity. Qed.

Lemma construct_class cls config obj :
  FileSystem.construct cls config = Ok obj -> FileSystem.instance_class obj = cls.
Proof.
  unfold FileSystem.construct. case_decide; [|discriminate].
  destruct (filter _ _); [|discriminate]. by intros [= <-].
Qed.

(** C7.  For an instance of either class, [from_dict] applied to the
    descriptor [to_dict] made of it answers an instance of the same class
    that names the same place (the same [base_path]; for the remote class
    also the same bucket, region, keys and error table), and every call of
    the interface on it does, in every world, what the call does on the
    original. *)
Theorem descriptor_round_trip `{JsonCodec} (self : FileSystem.t) :
  exists self' : FileSystem.t,
    fst (FileSystem.from_dict (FileSystem.to_dict self)) = Ok self'
    /\ class_of self' = class_of self
    /\ same_location self self'
    /\ forall (c : FileSystem.call) (w : world),
         FileSystem.run self' c w = FileSystem.run self c w.
Proof.
  exists (described self). rewrite from_dict_to_dict. split; [reflexivity|].
  split; [by destruct self|]. split.
  - destruct self as [fs|fs]; simpl; auto 10.
  - intros c w. apply run_described.
Qed.

(** C8.  A descriptor whose [subclass_name] is no registered name (or is
    missing) makes [from_dict] raise [ValueError("Unknown subclass: ...")]:
    no object is answered.  For a registered name, [from_dict] calls the
    class of that name with the rest of the descriptor as keyword
    arguments: when the remaining keys are parameters of its constructor
    and the parameters without default are among them, it answers an object
    of that class whose attributes are the parameters, each with the value
    the descriptor gives it, and [None] where it gives none; otherwise it
    raises the [TypeError] of the call and answers no object.  The
    descriptor is left without its [subclass_name] in every case.  The
    registered names are those of the two back ends. *)
Theorem from_dict_dispatch :
  (forall (config : gmap string json) (name : string),
      config !! "subclass_name" = Some (JStr name) ->
      FileSystem.subclasses !! name = None ->
      FileSystem.from_dict config
      = (Raise (Exn ValueError ("Unknown subclass: " +:+ name)),
         delete "subclass_name" config))
  /\ (forall config : gmap string json,
      config !! "subclass_name" = None ->
      FileSystem.from_dict config
      = (Raise (Exn ValueError "Unknown subclass: None"),
         delete "subclass_name" config))
  /\ (forall (config : gmap string json) (name : string) (cls : FileSystem.subclass),
      config !! "subclass_name" = Some (JStr name) ->
      FileSystem.subclasses !! name = Some cls ->
      let fields := delete "subclass_name" config in
      let fitting :=
        dom fields ⊆ FileSystem.parameters cls
        /\ Forall (fun k => is_Some (fields !! k)) (FileSystem.required_parameters cls) in
      FileSystem.class_name cls = name
      /\ (fitting ->
          exists obj,
            FileSystem.from_dict config = (Ok obj, fields)
            /\ FileSystem.instance_class obj = cls
            /\ dom (FileSystem.attributes obj) = FileSystem.parameters cls
            /\ forall k, k ∈ FileSystem.parameters cls ->
                 FileSystem.attributes obj !! k = Some (default JNull (fields !! k)))
      /\ (~ fitting ->
          exists msg,
            FileSystem.from_dict config = (Raise (Exn TypeError msg), fields)))
  /\ (forall name : string,
      is_Some (FileSystem.subclasses !! name)
      <-> name = "LocalFileSystem" \/ name = "S3FileSystem").
Proof.
  split; [|split; [|split]].
  - intros config name Hn Hr. unfold FileSystem.from_dict. rewrite Hn. simpl.
    by rewrite Hr.
  - intros config Hn. unfold FileSystem.from_dict. by rewrite Hn.
  - intros config name cls Hn Hc fields fitting.
    rewrite (from_dict_registered config name cls Hn Hc). fold fields.
    split; [by apply subclasses_lookup|]. split.
    + intros [Hdom Hreq]. rewrite (construct_ok cls fields Hdom Hreq).
      eexists. split; [reflexivity|]. split; [done|]. apply init_attributes.
    + intros Hno. destruct (construct_raise cls fields Hno) as [msg ->]. by exists msg.
  - apply subclasses_registered.
Qed.

Lemma from_dict_dispatch_witness :
  FileSystem.from_dict
    (<["base_path" := JStr "data"]> {[ "subclass_name" := JStr "GCSFileSystem" ]})
  = (Raise (Exn ValueError "Unknown subclass: GCSFileSystem"),
     delete "subclass_name"
       (<["base_path" := JStr "data"]> {[ "subclass_name" := JStr "GCSFileSystem" ]}))
  /\ exists obj,
       FileSystem.from_dict
         (<["base_path" := JStr "data"]> {[ "subclass_name" := JStr "LocalFileSystem" ]})
       = (Ok obj,
          delete "subclass_name"
            (<["base_path" := JStr "data"]>
               {[ "subclass_name" := JStr "LocalFileSystem" ]}))
       /\ FileSystem.instance_class obj = FileSystem.LocalFileSystemClass
       /\ dom (FileSystem.attributes obj) = FileSystem.parameters FileSystem.LocalFileSystemClass
       /\ FileSystem.attributes obj !! "base_path" = Some (JStr "data").
Proof.
  split.
  - apply (proj1 from_dict_dispatch).
    + by desc_lookup.
    + vm_compute. reflexivity.
  - destruct (proj1 (proj2 (proj2 from_dict_dispatch))
               (<["base_path" := JStr "data"]>
                  {[ "subclass_name" := JStr "LocalFileSystem" ]})
               "LocalFileSystem" FileSystem.LocalFileSystemClass)
      as (_ & Hmade & _); [by desc_lookup|apply subclasses_local|].
    destruct Hmade as (obj & Hrun & Hcls & Hdom & Hattr).
    + split.
      * rewrite dom_delete_L, dom_insert_L, dom_singleton_L. simpl.
        unfold FileSystem.local_params. set_solver.
      * repeat constructor. desc_lookup. eauto.
    + exists obj. split; [done|]. split; [done|]. split; [done|].
      rewrite (Hattr "base_path") by (simpl; unfold FileSystem.local_params; set_solver).
      by desc_lookup.
Defined.

(** The constructor stores what it is given: a [base_path] that is no
    string makes an object all the same. *)
Example from_dict_any_value :
  fst (FileSystem.from_dict
         (<["base_path" := JInt 5]> {[ "subclass_name" := JStr "LocalFileSystem" ]}))
  = Ok (FileSystem.Instance FileSystem.LocalFileSystemClass {[ "base_path" := JInt 5 ]}).
Proof. vm_compute. reflexivity. Qed.

(** C10.  The descriptor of a remote instance has exactly the seven fields
    [subclass_name], [base_path], [bucket_name], [region_name],
    [access_key], [secret_key] and [error_table]; the instance [from_dict]
    makes of it has no [dynamodb_table_name] and no
    [dynamodb_client_data_table_name], whatever the original had. *)
Theorem s3_descriptor_fields (fs : S3FileSystem.t) :
  dom (FileSystem.to_dict (FileSystem.Remote fs))
  = ({[ "subclass_name"; "base_path"; "bucket_name"; "region_name";
        "access_key"; "secret_key"; "error_table" ]} : gset string)
  /\ exists fs',
       fst (FileSystem.from_dict (FileSystem.to_dict (FileSystem.Remote fs)))
       = Ok (FileSystem.Remote fs')
       /\ S3FileSystem.dynamodb_table_name fs' = None
       /\ S3FileSystem.dynamodb_client_data_table_name fs' = None.
Proof.
  split.
  - simpl. unfold S3FileSystem.to_dict.
    rewrite !dom_insert_L, dom_singleton_L. set_solver.
  - rewrite from_dict_to_dict. simpl. eauto.
Qed.

(** ** Strings and paths *)

Lemma app_cons (x : ascii) (a b : string) : String x a +:+ b = String x (a +:+ b).
Proof. reflexivity. Qed.

Lemma app_nil_l (b : string) : "" +:+ b = b.
Proof. reflexivity. Qed.

Lemma append_assoc (a b c : string) : (a +:+ b) +:+ c = a +:+ (b +:+ c).
Proof. induction a; rewrite ?app_nil_l, ?app_cons; congruence. Qed.

Lemma append_nil_r (a : string) : a +:+ "" = a.
Proof. induction a; rewrite ?app_nil_l, ?app_cons; congruence. Qed.

Lemma all_chars_app p a b :
  all_chars p (a +:+ b) = all_chars p a && all_chars p b.
Proof.
  induction a; rewrite ?app_nil_l, ?app_cons; simpl; [done|].
  rewrite IHa. by rewrite andb_assoc.
Qed.

Lemma all_chars_impl (p q : ascii -> bool) s :
  (forall a, p a = true -> q a = true) -> all_chars p s = true -> all_chars q s = true.
Proof.
  intros Hpq. induction s; simpl; [done|].
  rewrite !andb_true_iff. intros [? ?]. auto.
Qed.

Lemma split_nonempty c s : exists h t, Py.split c s = h :: t.
Proof.
  induction s as [|a s IH]; simpl; [eauto|].
  destruct (Ascii.eqb a c); [eauto|]. destruct IH as (h & t & ->). eauto.
Qed.

Lemma split_app c a b :
  Py.split c (a +:+ String c b) = (Py.split c a ++ Py.split c b)%list.
Proof.
  induction a as [|x a IH]; rewrite ?app_nil_l, ?app_cons; simpl.
  - by rewrite Ascii.eqb_refl.
  - destruct (Ascii.eqb x c); [by rewrite IH|].
    rewrite IH. by destruct (split_nonempty c a) as (h & t & ->).
Qed.

Lemma split_no_char c s : no_char c s = true -> Py.split c s = [s].
Proof.
  unfold no_char. induction s as [|a s IH]; simpl; [done|].
  rewrite andb_true_iff, negb_true_iff. intros [-> Hs]. by rewrite IH.
Qed.

Lemma last_piece_app l1 l2 :
  l2 <> [] -> Py.last_piece (l1 ++ l2) = Py.last_piece l2.
Proof.
  unfold Py.last_piece. intros Hl2. induction l1 as [|x l1 IH]; [done|].
  simpl. destruct (l1 ++ l2)%list eqn:E; [|done].
  by apply app_eq_nil in E as [_ ?].
Qed.

Lemma endswith_cons x s suf :
  Py.endswith (String x s) suf = String.eqb (String x s) suf || Py.endswith s suf.
Proof. reflexivity. Qed.

Lemma endswith_app a suf : Py.endswith (a +:+ suf) suf = true.
Proof.
  induction a as [|x a IH]; rewrite ?app_nil_l, ?app_cons.
  - destruct suf; [done|]. rewrite endswith_cons. by rewrite String.eqb_refl.
  - rewrite endswith_cons, IH. by rewrite orb_true_r.
Qed.

Lemma endswith_inv s suf :
  Py.endswith s suf = true -> exists a, s = a +:+ suf.
Proof.
  induction s as [|x s IH].
  - simpl. rewrite orb_false_r. destruct suf; [by exists ""|done].
  - rewrite endswith_cons, orb_true_iff. intros [H | H].
    + apply String.eqb_eq in H. by exists "".
    + destruct (IH H) as [a ->]. by exists (String x a).
Qed.

Lemma startswith_app p s : Py.startswith (p +:+ s) p = true.
Proof.
  unfold Py.startswith.
  induction p as [|a p IH]; rewrite ?app_nil_l, ?app_cons; simpl; [by destruct s|].
  destruct (ascii_dec a a); [apply IH | congruence].
Qed.


Lemma segment_inv s :
  segment s = true -> s <> "" /\ s <> "." /\ s <> ".." /\ no_char "/" s = true.
Proof.
  unfold segment. rewrite !andb_true_iff, !negb_true_iff.
  intros [[[H1 H2] H3] H4]. repeat split; try done.
  all: intros ->; discriminate.
Qed.

Lemma components_segment s : segment s = true -> Os.components s = [s].
Proof.
  intros (H1 & H2 & _ & H4)%segment_inv. unfold Os.components.
  rewrite (split_no_char _ _ H4). by rewrite filter_cons_True.
Qed.

Lemma components_app a b :
  Os.components (a +:+ String "/" b) = (Os.components a ++ Os.components b)%list.
Proof. unfold Os.components. by rewrite split_app, filter_app. Qed.

Lemma components_nil : Os.components "" = [].
Proof. reflexivity. Qed.

Lemma components_slash a : Os.components (a +:+ "/") = Os.components a.
Proof. by rewrite components_app, components_nil, app_nil_r. Qed.

(** A string that does not start with a slash: what [join] appends. *)
Lemma components_join a b :
  Py.startswith b "/" = false ->
  Os.components (Py.join a b) = (Os.components a ++ Os.components b)%list.
Proof.
  intros Hb. unfold Py.join. rewrite Hb.
  destruct (String.eqb a "") eqn:Ea; simpl.
  - apply String.eqb_eq in Ea as ->. by rewrite app_nil_l.
  - destruct (Py.endswith a "/") eqn:Es.
    + apply endswith_inv in Es as [a' ->]. rewrite append_assoc.
      change ("/" +:+ b) with (String "/" b).
      by rewrite components_app, components_slash.
    + change ("/" +:+ b) with (String "/" b). by rewrite components_app.
Qed.

Lemma no_char_startswith c s :
  no_char c s = true -> Py.startswith s (String c "") = false.
Proof.
  unfold no_char, Py.startswith. destruct s as [|a s]; simpl; [done|].
  rewrite andb_true_iff, negb_true_iff. intros [H _].
  destruct (ascii_dec c a) as [->|]; [|by destruct s].
  by rewrite Ascii.eqb_refl in H.
Qed.

Lemma segment_startswith s : segment s = true -> Py.startswith s "/" = false.
Proof. intros (_ & _ & _ & H)%segment_inv. by apply no_char_startswith. Qed.

Lemma components_join_segment a s :
  segment s = true -> Os.components (Py.join a s) = (Os.components a ++ [s])%list.
Proof.
  intros Hs. rewrite components_join by by apply segment_startswith.
  by rewrite (components_segment s).
Qed.

Lemma endswith_no_char s c :
  s <> "" -> no_char c s = true -> Py.endswith s (String c "") = false.
Proof.
  unfold no_char. induction s as [|a s IH]; [done|]. intros _.
  simpl all_chars. rewrite andb_true_iff, negb_true_iff. intros [Ha Hs].
  rewrite endswith_cons. destruct s as [|b s].
  - simpl. by rewrite Ha.
  - rewrite IH by done. rewrite orb_false_r. simpl. by destruct (a =? c)%char.
Qed.

Lemma endswith_app_r a b suf :
  b <> "" -> Py.endswith b suf = false -> String.length suf = 1%nat ->
  Py.endswith (a +:+ b) suf = false.
Proof.
  intros Hb Hs Hl. destruct suf as [|c [|? ?]]; try discriminate. clear Hl.
  induction a as [|x a IH]; rewrite ?app_nil_l, ?app_cons; [done|].
  rewrite endswith_cons, IH, orb_false_r.
  destruct (a +:+ b) eqn:E.
  - destruct a; [|discriminate]. by rewrite app_nil_l in E.
  - simpl. by destruct (x =? c)%char.
Qed.

Lemma join_segment_not_dir a s :
  segment s = true -> Py.endswith (Py.join a s) "/" = false.
Proof.
  intros Hs. pose proof (segment_startswith _ Hs) as Hst.
  destruct (segment_inv _ Hs) as (Hne & _ & _ & Hno).
  pose proof (endswith_no_char s "/" Hne Hno) as He.
  unfold Py.join. rewrite Hst.
  destruct (String.eqb a "" || Py.endswith a "/").
  - by apply endswith_app_r.
  - rewrite <- append_assoc. by apply endswith_app_r.
Qed.

Lemma join_segment_nonempty a s : segment s = true -> Py.join a s <> "".
Proof.
  intros Hs E. pose proof (join_segment_not_dir a s Hs) as H.
  pose proof (components_join_segment a s Hs) as Hc. rewrite E in Hc.
  rewrite components_nil in Hc. by destruct (Os.components a).
Qed.

(** ** Page numbers in file names *)

Lemma string_of_uint_digits d : all_chars is_digit (NilEmpty.string_of_uint d) = true.
Proof. induction d; simpl; auto. Qed.

Lemma str_of_int_chars i : all_chars is_numeral_char (Py.str_of_int i) = true.
Proof.
  assert (Hd : forall d, all_chars is_numeral_char (NilZero.string_of_uint d) = true).
  { intros d. unfold NilZero.string_of_uint. destruct d; try reflexivity.
    all: eapply all_chars_impl; [|apply string_of_uint_digits].
    all: intros a Ha; unfold is_numeral_char; by rewrite Ha. }
  unfold Py.str_of_int, NilZero.string_of_int.
  destruct (Z.to_int i); [apply Hd|]. simpl. apply Hd.
Qed.

Lemma numeral_no_char c i :
  is_numeral_char c = false -> no_char c (Py.str_of_int i) = true.
Proof.
  intros Hc. unfold no_char. eapply all_chars_impl; [|apply str_of_int_chars].
  intros a Ha. apply negb_true_iff. destruct (Ascii.eqb_spec a c); [congruence|done].
Qed.

Lemma lstrip_id s : all_chars (fun a => negb (Py.is_space a)) s = true -> Py.lstrip s = s.
Proof. destruct s; simpl; [done|]. rewrite andb_true_iff, negb_true_iff. by intros [-> _]. Qed.

Lemma rstrip_id s : all_chars (fun a => negb (Py.is_space a)) s = true -> Py.rstrip s = s.
Proof.
  induction s as [|a s IH]; simpl; [done|].
  rewrite andb_true_iff, negb_true_iff. intros [-> Hs]. by rewrite IH.
Qed.

Lemma strip_numeral i : Py.strip (Py.str_of_int i) = Py.str_of_int i.
Proof.
  assert (H : all_chars (fun a => negb (Py.is_space a)) (Py.str_of_int i) = true).
  { eapply all_chars_impl; [|apply str_of_int_chars].
    intros a. unfold is_numeral_char, is_digit, Py.is_space.
    rewrite orb_true_iff, andb_true_iff, !Nat.leb_le. intros [[? ?]|Ha].
    - apply negb_true_iff, orb_false_iff. split; [apply orb_false_iff; split|].
      + apply Nat.eqb_neq. lia.
      + apply andb_false_iff. right. apply Nat.leb_gt. lia.
      + apply andb_false_iff. right. apply Nat.leb_gt. lia.
    - apply Ascii.eqb_eq in Ha as ->. reflexivity. }
  unfold Py.strip. by rewrite lstrip_id, rstrip_id.
Qed.

Lemma int_of_unsigned d :
  d <> Decimal.Nil ->
  Py.int_of_str (NilEmpty.string_of_uint d) = Some (Z.of_uint d)
  /\ Py.strip (NilEmpty.string_of_uint d) = NilEmpty.string_of_uint d.
Proof.
  intros Hd.
  assert (Hs : Py.strip (NilEmpty.string_of_uint d) = NilEmpty.string_of_uint d).
  { assert (H : all_chars (fun a => negb (Py.is_space a)) (NilEmpty.string_of_uint d) = true).
    { eapply all_chars_impl; [|apply string_of_uint_digits].
      intros a. unfold is_digit, Py.is_space.
      rewrite andb_true_iff, !Nat.leb_le. intros [? ?].
      apply negb_true_iff, orb_false_iff. split; [apply orb_false_iff; split|].
      - apply Nat.eqb_neq. lia.
      - apply andb_false_iff. right. apply Nat.leb_gt. lia.
      - apply andb_false_iff. right. apply Nat.leb_gt. lia. }
    unfold Py.strip. by rewrite lstrip_id, rstrip_id. }
  split; [|done]. unfold Py.int_of_str. rewrite Hs.
  pose proof (NilEmpty.usu d) as Hu.
  destruct d; try done; simpl NilEmpty.string_of_uint in *; cbv iota beta; rewrite Hu; done.
Qed.

Lemma int_of_str_of_int i : Py.int_of_str (Py.str_of_int i) = Some i.
Proof.
  pose proof (DecimalZ.of_to i) as Hz. unfold Py.str_of_int.
  destruct (Z.to_int i) as [d|d] eqn:E.
  - assert (Hd : d <> Decimal.Nil).
    { destruct i; simpl in E; inversion E; subst; try done.
      apply Unsigned.to_uint_nonnil. }
    simpl in Hz. unfold NilZero.string_of_int, NilZero.string_of_uint.
    destruct d; try done; rewrite (proj1 (int_of_unsigned _ Hd)); by rewrite Hz.
  - assert (Hd : d <> Decimal.Nil).
    { destruct i; simpl in E; inversion E; subst. apply Unsigned.to_uint_nonnil. }
    simpl in Hz. unfold NilZero.string_of_int, NilZero.string_of_uint.
    assert (Hstrip : Py.strip (String "-" (NilEmpty.string_of_uint d))
                     = String "-" (NilEmpty.string_of_uint d)).
    { unfold Py.strip. simpl Py.lstrip. simpl Py.rstrip.
      destruct (int_of_unsigned d Hd) as [_ Hs]. unfold Py.strip in Hs.
      rewrite lstrip_id in Hs.
      - by rewrite Hs.
      - eapply all_chars_impl; [|apply string_of_uint_digits].
        intros a. unfold is_digit, Py.is_space.
        rewrite andb_true_iff, !Nat.leb_le. intros [? ?].
        apply negb_true_iff, orb_false_iff. split; [apply orb_false_iff; split|].
        + apply Nat.eqb_neq. lia.
        + apply andb_false_iff. right. apply Nat.leb_gt. lia.
        + apply andb_false_iff. right. apply Nat.leb_gt. lia. }
    destruct d; try done; unfold Py.int_of_str; rewrite Hstrip;
      cbv iota beta; rewrite NilEmpty.usu; by rewrite <- Hz.
Qed.

Lemma join_suffix a b : Py.startswith b "/" = false -> exists p, Py.join a b = p +:+ b.
Proof.
  intros Hb. unfold Py.join. rewrite Hb.
  destruct (String.eqb a "" || Py.endswith a "/").
  - by exists a.
  - exists (a +:+ "/"). by rewrite append_assoc.
Qed.



Lemma page_name_segment i ext : no_char "/" ext = true -> segment (page_name i ext) = true.
Proof.
  intros He. unfold segment, page_name.
  assert (Hn : no_char "/" ("page_" +:+ Py.str_of_int i +:+ ext) = true).
  { unfold no_char. rewrite !all_chars_app. fold (no_char "/" (Py.str_of_int i)).
    rewrite numeral_no_char by done. simpl. apply He. }
  rewrite Hn.
  change ("page_" +:+ Py.str_of_int i +:+ ext)
    with (String "p" (String "a" ("ge_" +:+ Py.str_of_int i +:+ ext))).
  reflexivity.
Qed.



(** ** The monad *)

Lemma bind_ok {A B} (m : M A) (k : A -> M B) w a w' :
  m w = (Ok a, w') -> bind m k w = k a w'.
Proof. unfold bind. by intros ->. Qed.

Lemma bind_raise {A B} (m : M A) (k : A -> M B) w e w' :
  m w = (Raise e, w') -> bind m k w = (Raise e, w').
Proof. unfold bind. by intros ->. Qed.

Lemma query_ok {A} p (f : node -> Os.errno + A) w a :
  f (disk w) = inr a -> Os.query p f w = (Ok a, w).
Proof. unfold Os.query. by intros ->. Qed.

Lemma query_raise {A} p (f : node -> Os.errno + A) w e :
  f (disk w) = inl e -> Os.query p f w = (Raise (Os.os_error e p), w).
Proof. unfold Os.query. by intros ->. Qed.

Lemma change_ok p f w d :
  f (disk w) = inr d -> Os.change p f w = (Ok tt, set_disk d w).
Proof. unfold Os.change. by intros ->. Qed.

Lemma change_raise p f w e :
  f (disk w) = inl e -> Os.change p f w = (Raise (Os.os_error e p), w).
Proof. unfold Os.change. by intros ->. Qed.

(** ** The stable sort by page number *)






Lemma keyed_raise l w :
  Exists (fun x => page_key x = None) l ->
  exists msg, keyed l w = (Raise (Exn ValueError msg), w).
Proof.
  induction l as [|x l IH]; [by intros ?%Exists_nil|].
  intros [Hx|Hl]%Exists_cons; simpl.
  - rewrite Hx. eauto.
  - destruct (page_key x); [|eauto]. destruct (IH Hl) as [msg Hm].
    exists msg. by rewrite (bind_raise _ _ _ _ _ Hm).
Qed.


(** ** The directory tree *)

Lemma get_app cs cs' d :
  Os.get (cs ++ cs') d
  = match Os.get cs d with inr n => Os.get cs' n | inl e => inl e end.
Proof.
  revert d. induction cs as [|c cs IH]; intros d; simpl; [done|].
  destruct d as [|es]; [done|]. destruct (es !! c); [apply IH|done].
Qed.

Lemma get_snoc_inv cs c d n :
  Os.get (cs ++ [c]) d = inr n ->
  exists es, Os.get cs d = inr (Dir es) /\ es !! c = Some n.
Proof.
  rewrite get_app. destruct (Os.get cs d) as [|[|es]]; simpl; try done.
  destruct (es !! c) eqn:E; [|done]. intros [= ->]. eauto.
Qed.

Lemma get_subst cs m d n : Os.get cs d = inr n -> Os.get cs (subst cs m d) = inr m.
Proof.
  revert d. induction cs as [|c cs IH]; intros d; simpl; [done|].
  destruct d as [|es]; [done|]. destruct (es !! c) as [k|] eqn:E; [|done].
  intros H. simpl. rewrite lookup_insert_eq. by apply IH.
Qed.

Lemma subst_subst cs m1 m2 d n :
  Os.get cs d = inr n -> subst cs m2 (subst cs m1 d) = subst cs m2 d.
Proof.
  revert d. induction cs as [|c cs IH]; intros d; simpl; [done|].
  destruct d as [|es]; [done|]. destruct (es !! c) as [k|] eqn:E; [|done].
  intros H. simpl. rewrite lookup_insert_eq, insert_insert_eq. by rewrite IH.
Qed.

Lemma subst_id cs d n : Os.get cs d = inr n -> subst cs n d = d.
Proof.
  revert d. induction cs as [|c cs IH]; intros d; simpl; [by intros [= ->]|].
  destruct d as [|es]; [done|]. destruct (es !! c) as [k|] eqn:E; [|done].
  intros H. rewrite IH by done. by rewrite insert_id.
Qed.

Lemma subst_snoc cs c m d es k :
  Os.get cs d = inr (Dir es) -> es !! c = Some k ->
  subst (cs ++ [c]) m d = subst cs (Dir (<[c := m]> es)) d.
Proof.
  revert d. induction cs as [|x cs IH]; intros d; simpl.
  - intros [= ->] ->. done.
  - destruct d as [|ds]; [done|]. destruct (ds !! x) as [j|] eqn:E; [|done].
    intros H1 H2. by rewrite (IH _ H1 H2).
Qed.

(** An update of an entry, in terms of the directory that holds it. *)
Lemma update_snoc cs c f d es :
  Os.get cs d = inr (Dir es) ->
  Os.update (cs ++ [c]) f d
  = match f (es !! c) with
    | inl e => inl e
    | inr o => inr (subst cs (Dir (Os.set_entry c o es)) d)
    end.
Proof.
  revert d. induction cs as [|x cs IH]; intros d; simpl.
  - intros [= ->]. done.
  - destruct d as [|ds]; [done|]. destruct (ds !! x) as [j|] eqn:E; [|done].
    intros H. rewrite (IH _ H).
    destruct (cs ++ [c])%list eqn:Ec; [by destruct cs|].
    by destruct (f (es !! c)).
Qed.

Lemma lookup_foldr_delete {A} (m : gmap string A) (l : list string) k :
  foldr delete m l !! k = if decide (k ∈ l) then None else m !! k.
Proof.
  induction l as [|x l IH]; simpl; [done|].
  destruct (decide (x = k)) as [->|Hne].
  - rewrite lookup_delete_eq. rewrite decide_True; [done|by left].
  - rewrite lookup_delete_ne by done. rewrite IH.
    destruct (decide (k ∈ l)).
    + rewrite decide_True; [done|by right].
    + rewrite decide_False; [done|]. rewrite elem_of_cons. naive_solver.
Qed.

Lemma foldr_delete_all {A} (m : gmap string A) :
  foldr delete m (map fst (map_to_list m)) = ∅.
Proof.
  apply map_eq. intros k. rewrite lookup_foldr_delete, lookup_empty.
  case_decide as Hk; [done|]. destruct (m !! k) as [v|] eqn:E; [|done].
  exfalso. apply Hk. apply list_elem_of_fmap. exists (k, v). split; [done|].
  by apply elem_of_map_to_list.
Qed.

Lemma foldr_delete_commute {A} (m : gmap string A) (l : list string) k :
  foldr delete (delete k m) l = delete k (foldr delete m l).
Proof.
  induction l as [|x l IH]; simpl; [done|]. rewrite IH. apply delete_delete.
Qed.

Lemma stat_dir p d es :
  p <> "" -> Os.get (Os.components p) d = inr (Dir es) -> Os.stat p d = inr (Dir es).
Proof.
  intros Hp Hg. unfold Os.stat. rewrite (proj2 (String.eqb_neq p "") Hp). by rewrite Hg.
Qed.

Lemma stat_file p d x :
  p <> "" -> Py.endswith p "/" = false ->
  Os.get (Os.components p) d = inr (File x) -> Os.stat p d = inr (File x).
Proof.
  intros Hp He Hg. unfold Os.stat. rewrite (proj2 (String.eqb_neq p "") Hp).
  by rewrite Hg, He.
Qed.

Lemma stat_inv p d n :
  Os.stat p d = inr n -> p <> "" /\ Os.get (Os.components p) d = inr n.
Proof.
  unfold Os.stat. destruct (String.eqb_spec p ""); [done|].
  destruct (Os.get (Os.components p) d) as [|[x|es]]; try done.
  destruct (Py.endswith p "/"); [done|]. by intros [= <-].
Qed.

Lemma stat_absent p d e :
  Os.get (Os.components p) d = inl e -> exists e', Os.stat p d = inl e'.
Proof.
  intros Hg. unfold Os.stat. destruct (String.eqb p ""); [eauto|]. rewrite Hg. eauto.
Qed.

Lemma set_disk_same w : set_disk (disk w) w = w.
Proof. by destruct w. Qed.

Lemma set_disk_set_disk d1 d2 w : set_disk d2 (set_disk d1 w) = set_disk d2 w.
Proof. reflexivity. Qed.

Lemma update_path_snoc p cs c f d es :
  p <> "" -> Os.components p = (cs ++ [c])%list -> Os.get cs d = inr (Dir es) ->
  Os.update_path p f d
  = match f (es !! c) with
    | inl e => inl e
    | inr o => inr (subst cs (Dir (Os.set_entry c o es)) d)
    end.
Proof.
  intros Hp Hc Hg. unfold Os.update_path.
  rewrite (proj2 (String.eqb_neq p "") Hp), Hc. by apply update_snoc.
Qed.

Lemma without_snoc p cs c d es :
  Os.components p = (cs ++ [c])%list -> Os.get cs d = inr (Dir es) ->
  without p d = subst cs (Dir (delete c es)) d.
Proof. intros Hc Hg. unfold without. by rewrite Hc, (update_snoc _ _ _ _ _ Hg). Qed.

(** The loop of [clear_directory] over the names of regular files. *)
Lemma remove_loop p cs l :
  forall es w,
    NoDup l ->
    (forall f, f ∈ l -> segment f = true /\ exists x, es !! f = Some (File x)) ->
    Os.components p = cs -> Os.get cs (disk w) = inr (Dir es) ->
    for_each l (fun file =>
      let pf := Py.join p file in Os.change pf (Os.remove pf)) w
    = (Ok tt, set_disk (subst cs (Dir (foldr delete es l)) (disk w)) w).
Proof.
  induction l as [|f l IH]; intros es w Hnd Hl Hc Hg; simpl.
  - unfold ret. by rewrite (subst_id _ _ _ Hg), set_disk_same.
  - apply NoDup_cons in Hnd as [Hf Hnd].
    destruct (Hl f) as [Hseg [x Hx]]; [by left|].
    assert (Hrm : Os.remove (Py.join p f) (disk w)
                  = inr (subst cs (Dir (delete f es)) (disk w))).
    { unfold Os.remove.
      rewrite (update_path_snoc _ cs f _ _ es);
        [| by apply join_segment_nonempty
         | by rewrite components_join_segment, Hc
         | done ].
      rewrite Hx. by rewrite join_segment_not_dir. }
    rewrite (bind_ok _ _ _ _ _ (change_ok _ _ _ _ Hrm)).
    rewrite (IH (delete f es)); [| done | | done |].
    + simpl. rewrite (subst_subst _ _ _ _ _ Hg).
      by rewrite foldr_delete_commute.
    + intros g Hgl. destruct (Hl g) as [? [y Hy]]; [by right|].
      split; [done|]. exists y. rewrite lookup_delete_ne; [done|].
      intros ->. done.
    + simpl. by apply (get_subst _ _ _ _ Hg).
Qed.

Lemma clear_directory_flat p w cs c docs es :
  p <> "" -> Os.components p = (cs ++ [c])%list ->
  Os.get cs (disk w) = inr (Dir docs) -> docs !! c = Some (Dir es) -> flat es ->
  LocalFileSystem.clear_directory p w
  = (Ok tt, set_disk (subst cs (Dir (delete c docs)) (disk w)) w).
Proof.
  intros Hp Hc Hg Hd Hflat. unfold LocalFileSystem.clear_directory.
  assert (Hget : Os.get (cs ++ [c]) (disk w) = inr (Dir es)).
  { rewrite get_app, Hg. simpl. by rewrite Hd. }
  assert (Hls : Os.listdir p (disk w) = inr (map fst (map_to_list es))).
  { unfold Os.listdir. rewrite (stat_dir p _ es); [done|done|by rewrite Hc]. }
  rewrite (bind_ok _ _ _ _ _ (query_ok _ _ _ _ Hls)).
  erewrite bind_ok.
  2:{ apply (remove_loop p (cs ++ [c]) _ es); [apply NoDup_fst_map_to_list | | done | done].
      intros f [[f' n] [-> Hin]]%list_elem_of_fmap. simpl.
      apply elem_of_map_to_list in Hin. destruct (Hflat _ _ Hin) as [Hs Hn].
      split; [done|]. destruct n; [eauto|done]. }
  rewrite foldr_delete_all.
  assert (Hrmdir : Os.rmdir p (subst (cs ++ [c]) (Dir ∅) (disk w))
                   = inr (subst cs (Dir (delete c docs)) (disk w))).
  { unfold Os.rmdir. rewrite (subst_snoc _ _ _ _ _ _ Hg Hd).
    rewrite (update_path_snoc _ cs c _ _ (<[c := Dir ∅]> docs)); [|done|done|].
    - rewrite lookup_insert_eq. rewrite decide_True by done. simpl.
      by rewrite delete_insert_eq, (subst_subst _ _ _ _ _ Hg).
    - by apply (get_subst _ _ _ _ Hg). }
  exact (change_ok p (Os.rmdir p)
           (set_disk (subst (cs ++ [c]) (Dir ∅) (disk w)) w) _ Hrmdir).
Qed.

(** ** [delete_directory] *)

Lemma test_run f w : Os.test f w = (Ok (f (disk w)), w).
Proof. reflexivity. Qed.

Lemma local_delete_directory_at self kb doc w cs c docs es :
  let p := Py.join3 (LocalFileSystem.base_path self) kb doc in
  p <> "" -> Os.components p = (cs ++ [c])%list ->
  Os.get cs (disk w) = inr (Dir docs) -> docs !! c = Some (Dir es) -> flat es ->
  LocalFileSystem.delete_directory self kb doc w
  = (Ok tt, set_disk (subst cs (Dir (delete c docs)) (disk w)) w).
Proof.
  intros p Hp Hc Hg Hd Hflat. unfold LocalFileSystem.delete_directory.
  fold p. unfold bind. rewrite !test_run.
  assert (Hst : Os.stat p (disk w) = inr (Dir es)).
  { apply stat_dir; [done|]. rewrite Hc, get_app, Hg. simpl. by rewrite Hd. }
  unfold Os.path_exists, Os.isdir. rewrite Hst. simpl.
  by apply (clear_directory_flat p w cs c docs es).
Qed.

Lemma local_delete_directory_absent self kb doc w :
  Os.path_exists (Py.join3 (LocalFileSystem.base_path self) kb doc) (disk w) = false ->
  LocalFileSystem.delete_directory self kb doc w = (Ok tt, w).
Proof.
  intros He. unfold LocalFileSystem.delete_directory, bind. rewrite !test_run.
  by rewrite He.
Qed.

Lemma get_without_below p d cs c es rest :
  Os.components p = (cs ++ [c])%list -> Os.get cs d = inr (Dir es) ->
  Os.get (Os.components p ++ rest) (without p d) = inl Os.ENOENT.
Proof.
  intros Hc Hg. rewrite (without_snoc p cs c d es Hc Hg), Hc.
  rewrite <- app_assoc, get_app, (get_subst _ _ _ _ Hg). simpl.
  by rewrite lookup_delete_eq.
Qed.

Lemma local_delete_directory_flat self kb doc w es :
  let p := Py.join3 (LocalFileSystem.base_path self) kb doc in
  segment doc = true -> Os.stat p (disk w) = inr (Dir es) -> flat es ->
  LocalFileSystem.delete_directory self kb doc w
  = (Ok tt, set_disk (without p (disk w)) w)
  /\ forall rest, Os.get (Os.components p ++ rest) (without p (disk w)) = inl Os.ENOENT.
Proof.
  intros p Hseg Hst Hflat. apply stat_inv in Hst as [Hp Hg].
  assert (Hc : Os.components p
               = (Os.components (Py.join (LocalFileSystem.base_path self) kb) ++ [doc])%list).
  { unfold p, Py.join3. by apply components_join_segment. }
  rewrite Hc in Hg. apply get_snoc_inv in Hg as (docs & Hg & Hd).
  split.
  - rewrite (without_snoc p _ doc _ docs Hc Hg).
    by apply (local_delete_directory_at self kb doc w _ doc docs es).
  - intros rest. by apply (get_without_below p _ _ doc docs rest Hc Hg).
Qed.

Lemma keys_with_prefix_elem prefix (objs : gmap string string) k :
  k ∈ S3.keys_with_prefix prefix objs
  <-> is_Some (objs !! k) /\ Py.startswith k prefix = true.
Proof.
  unfold S3.keys_with_prefix. rewrite merge_sort_Permutation.
  rewrite list_elem_of_filter, list_elem_of_fmap. split.
  - intros [Hp [[k' v] [-> Hin]]]. apply elem_of_map_to_list in Hin. eauto.
  - intros [[v Hv] Hp]. split; [done|]. exists (k, v). split; [done|].
    by apply elem_of_map_to_list.
Qed.

Lemma objs_without_lookup prefix (objs : gmap string string) k :
  objs_without prefix objs !! k
  = if Py.startswith k prefix then None else objs !! k.
Proof.
  unfold objs_without. destruct (Py.startswith k prefix) eqn:E.
  - apply map_lookup_filter_None. right. intros v _. simpl. by rewrite E.
  - destruct (objs !! k) as [v|] eqn:Ev.
    + by apply map_lookup_filter_Some.
    + apply map_lookup_filter_None. by left.
Qed.

Lemma delete_keys_with_prefix prefix (objs : gmap string string) :
  foldr delete objs (S3.keys_with_prefix prefix objs) = objs_without prefix objs.
Proof.
  apply map_eq. intros k. rewrite lookup_foldr_delete, objs_without_lookup.
  case_decide as Hk.
  - apply keys_with_prefix_elem in Hk as [_ ->]. done.
  - destruct (Py.startswith k prefix) eqn:E; [|done].
    destruct (objs !! k) eqn:Ev; [|done]. exfalso. apply Hk.
    apply keys_with_prefix_elem. eauto.
Qed.

(** The client is there when a method asks for it. *)
Lemma client_made {A} self (k : S3.client -> M A) :
  bind (S3FileSystem.create_s3_client self) k
  = k (S3.Client (S3FileSystem.region_name self) (S3FileSystem.access_key self)
         (S3FileSystem.secret_key self)).
Proof. reflexivity. Qed.

(** One response lists all the keys when they are at most [max_keys]. *)
Lemma list_objects_v2_all bucket prefix w objs :
  s3 w !! bucket = Some objs ->
  length (S3.keys_with_prefix prefix objs) <= S3.max_keys ->
  S3.list_objects_v2 bucket prefix w
  = (Ok match S3.keys_with_prefix prefix objs with
        | [] => None
        | ks => Some ks
        end, w).
Proof.
  intros Hb Hlen. unfold S3.list_objects_v2, S3.with_bucket. rewrite Hb.
  rewrite take_ge by done. by destruct (S3.keys_with_prefix prefix objs).
Qed.

(** What [delete_directory] and [delete_kb] do with the keys of the one
    response they ask for. *)
Lemma s3_delete_prefix_listed self prefix w objs :
  s3 w !! S3FileSystem.bucket_name self = Some objs ->
  exists line,
    S3FileSystem.delete_prefix self prefix w
    = (Ok (JList (map S3FileSystem.key_dict
                    (take S3.max_keys (S3.keys_with_prefix prefix objs)))),
       add_stdout line
         (set_s3 (<[S3FileSystem.bucket_name self
                    := foldr delete objs
                         (take S3.max_keys (S3.keys_with_prefix prefix objs))]>
                    (s3 w)) w)).
Proof.
  intros Hb. unfold S3FileSystem.delete_prefix. rewrite client_made.
  unfold S3.list_objects_v2, S3.with_bucket. unfold bind at 1. rewrite Hb.
  destruct (take S3.max_keys (S3.keys_with_prefix prefix objs)) as [|k ks] eqn:Ek.
  - eexists. unfold ret, bind, print. simpl.
    rewrite insert_id by done. by destruct w.
  - eexists. unfold ret. unfold bind, S3.delete_objects, S3.with_bucket, S3.set_bucket.
    rewrite Hb. unfold print. reflexivity.
Qed.

Lemma s3_delete_prefix self prefix w objs :
  s3 w !! S3FileSystem.bucket_name self = Some objs ->
  length (S3.keys_with_prefix prefix objs) <= S3.max_keys ->
  exists line,
    S3FileSystem.delete_prefix self prefix w
    = (Ok (JList (map S3FileSystem.key_dict (S3.keys_with_prefix prefix objs))),
       add_stdout line
         (set_s3 (<[S3FileSystem.bucket_name self := objs_without prefix objs]> (s3 w)) w)).
Proof.
  intros Hb Hlen. destruct (s3_delete_prefix_listed self prefix w objs Hb) as [line Hrun].
  exists line. rewrite Hrun, take_ge by done. by rewrite delete_keys_with_prefix.
Qed.

Lemma flat_dir_of files :
  Forall (fun f => segment (fst f) = true) files ->
  flat (list_to_map (map (fun f => (fst f, File (snd f))) files)).
Proof.
  intros Hf k n Hk. apply elem_of_list_to_map_2 in Hk.
  apply list_elem_of_fmap in Hk as [[name x] [[= -> ->] Hin]].
  rewrite Forall_forall in Hf. split; [|done]. by apply (Hf (name, x)).
Qed.

(** C3 (as amended).  On the local back end [delete_directory] empties a
    document directory that holds regular files and removes it: the disk is
    left without the directory and without every path below it, and nothing
    is returned ([None]).  A directory that does not exist is left alone,
    without an error.  On the remote back end, for a document of at most
    [max_keys] objects, which one response lists, it deletes every object
    below the prefix of the document and returns their keys, one
    [{'Key': k}] per object; with no object below the prefix it returns the
    empty list and changes nothing in the store. *)
Theorem delete_directory_removes `{JsonCodec} :
  (forall self kb doc w es,
      let p := Py.join3 (LocalFileSystem.base_path self) kb doc in
      segment doc = true -> Os.stat p (disk w) = inr (Dir es) -> flat es ->
      FileSystem.run (FileSystem.Local self) (FileSystem.DeleteDirectory kb doc) w
      = (Ok JNull, set_disk (without p (disk w)) w)
      /\ forall rest,
           Os.get (Os.components p ++ rest) (without p (disk w)) = inl Os.ENOENT)
  /\ (forall self kb doc w,
      Os.path_exists (Py.join3 (LocalFileSystem.base_path self) kb doc) (disk w)
      = false ->
      FileSystem.run (FileSystem.Local self) (FileSystem.DeleteDirectory kb doc) w
      = (Ok JNull, w))
  /\ (forall self kb doc w objs,
      let prefix := kb +:+ "/" +:+ doc +:+ "/" in
      s3 w !! S3FileSystem.bucket_name self = Some objs ->
      length (S3.keys_with_prefix prefix objs) <= S3.max_keys ->
      (exists line,
         FileSystem.run (FileSystem.Remote self) (FileSystem.DeleteDirectory kb doc) w
         = (Ok (JList (map S3FileSystem.key_dict (S3.keys_with_prefix prefix objs))),
            add_stdout line
              (set_s3 (<[S3FileSystem.bucket_name self := objs_without prefix objs]>
                         (s3 w)) w)))
      /\ (forall k, k ∈ S3.keys_with_prefix prefix objs
                    <-> is_Some (objs !! k) /\ Py.startswith k prefix = true)
      /\ (forall k, objs_without prefix objs !! k
                    = if Py.startswith k prefix then None else objs !! k))
  /\ (forall self kb doc w objs,
      let prefix := kb +:+ "/" +:+ doc +:+ "/" in
      s3 w !! S3FileSystem.bucket_name self = Some objs ->
      (forall k, is_Some (objs !! k) -> Py.startswith k prefix = false) ->
      exists line,
        FileSystem.run (FileSystem.Remote self) (FileSystem.DeleteDirectory kb doc) w
        = (Ok (JList []), add_stdout line w)).
Proof.
  split; [|split; [|split]].
  - intros self kb doc w es p Hseg Hst Hflat.
    destruct (local_delete_directory_flat self kb doc w es Hseg Hst Hflat) as [Hd Hb].
    split; [|exact Hb]. simpl. unfold FileSystem.none.
    by rewrite (bind_ok _ _ _ _ _ Hd).
  - intros self kb doc w He. simpl. unfold FileSystem.none.
    by rewrite (bind_ok _ _ _ _ _ (local_delete_directory_absent self kb doc w He)).
  - intros self kb doc w objs prefix Hb Hlen. split; [|split].
    + apply (s3_delete_prefix self prefix w objs Hb Hlen).
    + apply keys_with_prefix_elem.
    + apply objs_without_lookup.
  - intros self kb doc w objs prefix Hb Hnone.
    assert (Hks : S3.keys_with_prefix prefix objs = []).
    { destruct (S3.keys_with_prefix prefix objs) as [|k ks] eqn:E; [done|].
      assert (Hk : k ∈ S3.keys_with_prefix prefix objs) by (rewrite E; by left).
      apply keys_with_prefix_elem in Hk as [Hs Hp]. by rewrite (Hnone k Hs) in Hp. }
    destruct (s3_delete_prefix self prefix w objs Hb) as [line Hl].
    { rewrite Hks. simpl. lia. }
    exists line. simpl. unfold S3FileSystem.delete_directory. fold prefix. rewrite Hl.
    rewrite Hks. simpl. do 2 f_equal.
    assert (Hw : objs_without prefix objs = objs).
    { apply map_eq. intros k. rewrite objs_without_lookup.
      destruct (Py.startswith k prefix) eqn:E; [|done].
      destruct (objs !! k) eqn:Ek; [|done]. by rewrite (Hnone k) in E. }
    rewrite Hw, insert_id by done. by destruct w.
Qed.

Lemma delete_directory_removes_witness :
  @FileSystem.run MiniJson.codec (FileSystem.Local example_local)
    (FileSystem.DeleteDirectory "kb" "doc") example_world
  = (Ok JNull, set_disk (without "base/kb/doc" (disk example_world)) example_world)
  /\ forall rest,
       Os.get (Os.components "base/kb/doc" ++ rest)
         (without "base/kb/doc" (disk example_world)) = inl Os.ENOENT.
Proof.
  apply (proj1 (@delete_directory_removes MiniJson.codec) example_local "kb" "doc"
           example_world
           (list_to_map (map (fun f => (fst f, File (snd f))) example_files))).
  - reflexivity.
  - vm_compute. reflexivity.
  - apply flat_dir_of. repeat constructor.
Defined.

(** C3, the counterexample: on the local back end [delete_directory]
    returns [None], for a document that was never created as for any
    other; it returns no collection of removed items, empty or not. *)
Lemma delete_directory_local_returns_none :
  ~ exists removed : list json,
      fst (@FileSystem.run MiniJson.codec (FileSystem.Local example_local)
             (FileSystem.DeleteDirectory "kb" "never-created") example_world)
      = Ok (JList removed).
Proof. intros [removed H]. vm_compute in H. discriminate. Qed.

(** ** [delete_kb] *)














(** ** Page content *)

Lemma change_inv p f w w1 :
  Os.change p f w = (Ok tt, w1) ->
  exists d1, f (disk w) = inr d1 /\ w1 = set_disk d1 w.
Proof.
  unfold Os.change. destruct (f (disk w)) as [e|d1]; [done|].
  intros [= <-]. eauto.
Qed.

Lemma update_written cs f d d1 :
  Os.update cs f d = inr d1 ->
  exists o o', f o = inr o' /\ forall m, o' = Some m -> Os.get cs d1 = inr m.
Proof.
  revert d d1. induction cs as [|c cs IH]; intros d d1; simpl; [done|].
  destruct d as [|es]; [done|]. destruct cs as [|c' cs].
  - destruct (f (es !! c)) as [e|o'] eqn:Ef; [done|]. intros [= <-].
    exists (es !! c), o'. split; [done|]. intros m ->. simpl.
    by rewrite lookup_insert_eq.
  - destruct (es !! c) as [k|] eqn:Ek; [|done].
    destruct (Os.update (c' :: cs) f k) as [e|k'] eqn:Eu; [done|]. intros [= <-].
    destruct (IH _ _ Eu) as (o & o' & Hf & Hget). exists o, o'. split; [done|].
    intros m Hm. specialize (Hget m Hm).
    change (Os.get (c :: c' :: cs) (Dir (<[c:=k']> es)))
      with (match (<[c:=k']> es) !! c with
            | Some m0 => Os.get (c' :: cs) m0 | None => inl Os.ENOENT end).
    by rewrite lookup_insert_eq.
Qed.

Lemma write_read p data d d1 :
  Os.write_file p data d = inr d1 -> Os.read_file p d1 = inr data.
Proof.
  unfold Os.write_file, Os.update_path. destruct (String.eqb_spec p ""); [done|].
  intros (o & o' & Hf & Hget)%update_written.
  assert (He : Py.endswith p "/" = false /\ o' = Some (File data)).
  { destruct o as [[x|es]|]; try done; by destruct (Py.endswith p "/"); inversion Hf. }
  destruct He as [He ->]. unfold Os.read_file.
  by rewrite (stat_file p d1 data n He (Hget _ eq_refl)).
Qed.


Lemma loads_ok `{JsonCodec} text v w : json_loads text = inr v -> loads text w = (Ok v, w).
Proof. unfold loads. by intros ->. Qed.

Lemma loads_raise `{JsonCodec} text msg w :
  json_loads text = inl msg -> loads text w = (Raise (Exn JSONDecodeError msg), w).
Proof. unfold loads. by intros ->. Qed.


Lemma local_load_missing `{JsonCodec} self kb doc n w :
  Os.stat (Py.join4 (LocalFileSystem.base_path self) kb doc (page_content_name n))
    (disk w) = inl Os.ENOENT ->
  LocalFileSystem.load_page_content self kb doc n w = (Ok JNull, w).
Proof.
  intros Hst. unfold LocalFileSystem.load_page_content, try_except. cbv zeta.
  assert (Hr : Os.read_file
                 (Py.join4 (LocalFileSystem.base_path self) kb doc (page_content_name n))
                 (disk w) = inl Os.ENOENT).
  { unfold Os.read_file. by rewrite Hst. }
  by rewrite (bind_raise _ _ _ _ _ (query_raise _ _ _ _ Hr)).
Qed.

Lemma try_except_inv_ok {A} (m : M A) (h : exn -> option (M A)) w a w1 :
  try_except m h w = (Ok a, w1) ->
  (forall e k w' , h e = Some k -> exists e', k w' = (Raise e', w')) ->
  m w = (Ok a, w1).
Proof.
  unfold try_except. destruct (m w) as [[a'|e] w']; [done|].
  intros Hk Hh. destruct (h e) as [k|] eqn:E; [|done].
  destruct (Hh e k w' E) as [e' He']. by rewrite He' in Hk.
Qed.

Lemma put_object_inv bucket key body w w1 :
  S3.put_object bucket key body w = (Ok tt, w1) ->
  exists objs, s3 w !! bucket = Some objs
               /\ w1 = set_s3 (<[bucket := <[key := body]> objs]> (s3 w)) w.
Proof.
  unfold S3.put_object, S3.with_bucket, S3.set_bucket.
  destruct (s3 w !! bucket) as [objs|]; [|done]. intros [= <-]. eauto.
Qed.





(** ** [get_files] *)

Lemma seqZ_sorted m n : StronglySorted Z.lt (seqZ m n).
Proof.
  destruct (Z_le_gt_dec n 0) as [Hn|Hn]; [rewrite seqZ_nil by lia; constructor|].
  rewrite <- (Z2Nat.id n) by lia. generalize (Z.to_nat n) as k. clear.
  intros k. revert m. induction k as [|k IH]; intros m.
  - rewrite seqZ_nil by lia. constructor.
  - rewrite seqZ_cons by lia. replace (Z.pred (Z.of_nat (S k))) with (Z.of_nat k) by lia.
    constructor; [apply IH|]. apply Forall_forall. intros x Hx.
    apply list_elem_of_lookup in Hx as [j Hj]. apply lookup_seqZ in Hj. lia.
Qed.

Lemma elem_of_range_incl i a b : i ∈ Py.range_incl a b <-> (a <= i <= b)%Z.
Proof.
  unfold Py.range_incl. rewrite list_elem_of_lookup. split.
  - intros [j Hj]. apply lookup_seqZ in Hj. lia.
  - intros Hi. exists (Z.to_nat (i - a)). apply lookup_seqZ. lia.
Qed.

Lemma omap_hits_sorted (f : Z -> option string) (l : list Z) :
  StronglySorted Z.lt l ->
  StronglySorted Z.lt
    (map fst (omap (fun i => option_map (fun ext => (i, ext)) (f i)) l)).
Proof.
  induction 1 as [|i l Hs IH Hall]; simpl; [constructor|].
  destruct (f i) as [ext|]; simpl; [|exact IH].
  constructor; [exact IH|]. apply Forall_forall. intros x Hx.
  apply list_elem_of_fmap in Hx as [[j e] [-> Hin]]. simpl.
  apply list_elem_of_omap in Hin as (k & Hk & Hfk).
  destruct (f k); [|done]. simpl in Hfk. injection Hfk as <- <-.
  rewrite Forall_forall in Hall. by apply Hall.
Qed.

Lemma page_hits_spec found a b :
  StronglySorted Z.lt (map fst (page_hits found a b))
  /\ forall i ext,
       (i, ext) ∈ page_hits found a b
       <-> (a <= i <= b)%Z /\ chosen_extension (found i) = Some ext.
Proof.
  split.
  - apply omap_hits_sorted, seqZ_sorted.
  - intros i ext. unfold page_hits. rewrite list_elem_of_omap. split.
    + intros (k & Hk & Hf). apply elem_of_range_incl in Hk.
      destruct (chosen_extension (found k)) eqn:E; [|done].
      simpl in Hf. injection Hf as <- <-. done.
    + intros [Hi Hc]. exists i. split; [by apply elem_of_range_incl|].
      by rewrite Hc.
Qed.

Lemma local_first_existing self kb doc i d :
  forall exts acc w,
    disk w = d ->
    LocalFileSystem.first_existing
      (Py.join3 (LocalFileSystem.base_path self) kb doc) i exts acc w
    = (Ok (acc ++ match List.find (local_found self kb doc d i) exts with
                  | Some ext => [local_page_path self kb doc (i, ext)]
                  | None => []
                  end)%list, w).
Proof.
  induction exts as [|ext exts IH]; intros acc w Hd; simpl.
  - unfold ret. by rewrite app_nil_r.
  - unfold bind. rewrite test_run. unfold local_found at 1, local_page_path at 1.
    simpl. rewrite Hd.
    destruct (Os.path_exists _ d); [done|]. by apply IH.
Qed.

Lemma local_pages_loop self kb doc w pages :
  forall acc,
    for_fold pages acc
      (fun i acc =>
         LocalFileSystem.first_existing
           (Py.join3 (LocalFileSystem.base_path self) kb doc) i extensions acc) w
    = (Ok (acc ++ map (local_page_path self kb doc)
             (omap (fun i => option_map (fun ext => (i, ext))
                               (chosen_extension (local_found self kb doc (disk w) i)))
                pages))%list, w).
Proof.
  induction pages as [|i pages IH]; intros acc; simpl.
  - unfold ret. by rewrite app_nil_r.
  - rewrite (bind_ok _ _ _ _ _
      (local_first_existing self kb doc i (disk w) extensions acc w eq_refl)).
    rewrite IH. unfold chosen_extension.
    destruct (List.find (local_found self kb doc (disk w) i) extensions); simpl.
    + by rewrite <- app_assoc.
    + by rewrite app_nil_r.
Qed.

Lemma local_get_files self kb doc a b w :
  LocalFileSystem.get_files self kb doc (Some a) (Some b) w
  = (Ok (map (local_page_path self kb doc)
           (page_hits (local_found self kb doc (disk w)) a b)), w).
Proof.
  unfold LocalFileSystem.get_files. by rewrite local_pages_loop.
Qed.

(** ** The local mirror of the remote back end *)

Lemma makedirs_existing cs d es :
  Os.get cs d = inr (Dir es) -> Os.makedirs_at cs true d = inr d.
Proof.
  revert d. induction cs as [|c cs IH]; intros d; simpl.
  - by intros [= ->].
  - destruct d as [|ds]; [done|]. destruct (ds !! c) as [k|] eqn:E; [|done].
    intros Hg. rewrite (IH _ Hg). by rewrite insert_id.
Qed.

Lemma makedirs_on_file cs d x b :
  Os.get cs d = inr (File x) -> Os.makedirs_at cs b d = inl Os.EEXIST.
Proof.
  revert d. induction cs as [|c cs IH]; intros d; simpl.
  - by intros [= ->].
  - destruct d as [|ds]; [done|]. destruct (ds !! c) as [k|] eqn:E; [|done].
    intros Hg. by rewrite (IH _ Hg).
Qed.

Lemma makedirs_absent cs d e :
  Os.get cs d = inl e -> Os.makedirs_at cs false d = Os.makedirs_at cs true d.
Proof.
  revert d. induction cs as [|c cs IH]; intros d; simpl; [done|].
  destruct d as [|ds]; [done|]. destruct (ds !! c) as [k|] eqn:E; [|done].
  intros Hg. by rewrite (IH _ Hg).
Qed.

Lemma makedirs_ready_existing folder d :
  Os.path_exists folder d = true -> mirror_ready folder d ->
  exists es, Os.get (Os.components folder) d = inr (Dir es) /\ flat es.
Proof.
  unfold Os.path_exists. destruct (Os.stat folder d) as [|n] eqn:Hst; [done|].
  intros _ (d1 & es & Hmk & Hg & Hflat). apply stat_inv in Hst as [Hne Hn].
  unfold Os.makedirs in Hmk. rewrite (proj2 (String.eqb_neq folder "") Hne) in Hmk.
  destruct n as [x|ds].
  - by rewrite (makedirs_on_file _ _ _ _ Hn) in Hmk.
  - rewrite (makedirs_existing _ _ _ Hn) in Hmk. injection Hmk as <-.
    rewrite Hn in Hg. injection Hg as <-. eauto.
Qed.

(** The step of [get_files] that makes sure the folder is there. *)
Lemma ensure_folder folder w d1 :
  Os.makedirs folder true (disk w) = inr d1 ->
  bind (Os.test (Os.path_exists folder)) (fun ex =>
    if ex then ret tt
    else try_except (Os.change folder (Os.makedirs folder false))
           (on_class FileExistsError (fun _ => ret tt))) w
  = (Ok tt, set_disk d1 w).
Proof.
  intros Hmk. unfold bind. rewrite test_run. unfold Os.path_exists.
  unfold Os.makedirs in Hmk. destruct (String.eqb_spec folder "") as [|Hne]; [done|].
  destruct (Os.stat folder (disk w)) as [e|n] eqn:Hst.
  - unfold try_except.
    assert (Hf : Os.makedirs folder false (disk w) = inr d1).
    { unfold Os.makedirs. rewrite (proj2 (String.eqb_neq folder "") Hne).
      destruct (Os.get (Os.components folder) (disk w)) as [e'|[x|ds]] eqn:Hg.
      - by rewrite (makedirs_absent _ _ _ Hg).
      - by rewrite (makedirs_on_file _ _ _ _ Hg) in Hmk.
      - by rewrite (stat_dir _ _ _ Hne Hg) in Hst. }
    by rewrite (change_ok _ _ _ _ Hf).
  - apply stat_inv in Hst as [_ Hn]. destruct n as [x|ds].
    + by rewrite (makedirs_on_file _ _ _ _ Hn) in Hmk.
    + rewrite (makedirs_existing _ _ _ Hn) in Hmk. injection Hmk as <-.
      unfold ret. by rewrite set_disk_same.
Qed.

Lemma mirror_ready_dir folder d es :
  folder <> "" -> Os.get (Os.components folder) d = inr (Dir es) -> flat es ->
  mirror_ready folder d.
Proof.
  intros Hne Hg Hflat. exists d, es. split; [|done]. unfold Os.makedirs.
  rewrite (proj2 (String.eqb_neq folder "") Hne). by apply (makedirs_existing _ _ es).
Qed.

Lemma mirror_ready_nonempty folder d : mirror_ready folder d -> folder <> "".
Proof. intros (d1 & es & Hmk & _) ->. unfold Os.makedirs in Hmk. simpl in Hmk. done. Qed.

Lemma startswith_head a t c : a <> c -> Py.startswith (String a t) (String c "") = false.
Proof.
  intros Hne. unfold Py.startswith.
  change (String.prefix (String c "") (String a t))
    with (if ascii_dec c a then String.prefix "" t else false).
  destruct (ascii_dec c a); [congruence|done].
Qed.

Lemma segment_app_startswith s r : segment s = true -> Py.startswith (s +:+ r) "/" = false.
Proof.
  intros (Hne & _ & _ & Hno)%segment_inv. destruct s as [|a s]; [done|].
  rewrite app_cons. unfold no_char in Hno. simpl in Hno.
  apply andb_true_iff in Hno as [Ha _]. apply negb_true_iff in Ha.
  apply startswith_head. intros ->. by rewrite Ascii.eqb_refl in Ha.
Qed.

(** Where the remote back end puts the download of a page image: in the
    folder it made sure of. *)
Lemma s3_path_components base kb doc name :
  segment kb = true -> segment doc = true -> segment name = true ->
  let path := Py.join base (kb +:+ "/" +:+ doc +:+ "/" +:+ name) in
  Os.components path = (Os.components (Py.join3 base kb doc) ++ [name])%list
  /\ path <> "" /\ Py.endswith path "/" = false.
Proof.
  intros Hkb Hdoc Hname path.
  assert (Hst : Py.startswith (kb +:+ "/" +:+ doc +:+ "/" +:+ name) "/" = false)
    by by apply segment_app_startswith.
  assert (Hc : Os.components path
               = (Os.components (Py.join3 base kb doc) ++ [name])%list).
  { unfold path, Py.join3. rewrite (components_join _ _ Hst).
    rewrite (components_join_segment _ doc), (components_join_segment _ kb) by done.
    change (kb +:+ "/" +:+ doc +:+ "/" +:+ name)
      with (kb +:+ String "/" (doc +:+ String "/" name)).
    rewrite !components_app.
    rewrite (components_segment kb), (components_segment doc),
      (components_segment name) by done.
    by rewrite <- !app_assoc. }
  split; [exact Hc|]. split.
  - intros E. rewrite E, components_nil in Hc. by destruct (Os.components _).
  - destruct (join_suffix base _ Hst) as [q Hq]. unfold path. rewrite Hq.
    destruct (segment_inv _ Hname) as (Hne & _ & _ & Hno).
    replace (q +:+ kb +:+ "/" +:+ doc +:+ "/" +:+ name)
      with ((q +:+ kb +:+ "/" +:+ doc +:+ "/") +:+ name)
      by by rewrite !append_assoc.
    apply endswith_app_r; [done| |done]. by apply endswith_no_char.
Qed.

Lemma flat_insert_file es name body :
  flat es -> segment name = true -> flat (<[name := File body]> es).
Proof. intros Hflat Hs. by apply map_Forall_insert_2. Qed.

Lemma write_into_flat path cs name body d es :
  Os.components path = (cs ++ [name])%list -> path <> "" ->
  Py.endswith path "/" = false ->
  Os.get cs d = inr (Dir es) -> flat es ->
  Os.write_file path body d = inr (subst cs (Dir (<[name := File body]> es)) d).
Proof.
  intros Hc Hne He Hg Hflat. unfold Os.write_file.
  rewrite (update_path_snoc _ cs name _ _ es Hne Hc Hg). rewrite He.
  destruct (es !! name) as [n|] eqn:En; [|done].
  destruct (Hflat _ _ En) as [_ Hn]. by destruct n.
Qed.

Lemma ensure_folder_then {A} folder w d1 (k : unit -> M A) :
  Os.makedirs folder true (disk w) = inr d1 ->
  bind (Os.test (Os.path_exists folder)) (fun ex =>
    bind (if ex then ret tt
          else try_except (Os.change folder (Os.makedirs folder false))
                 (on_class FileExistsError (fun _ => ret tt))) k) w
  = k tt (set_disk d1 w).
Proof.
  intros Hmk. pose proof (ensure_folder folder w d1 Hmk) as He.
  unfold bind in *. rewrite test_run in *.
  destruct (Os.path_exists folder (disk w)).
  - unfold ret in *. by injection He as <-.
  - by rewrite He.
Qed.

Lemma download_found bucket key path body w objs d2 :
  s3 w !! bucket = Some objs -> objs !! key = Some body ->
  Os.write_file path body (disk w) = inr d2 ->
  try_except (bind (S3.download_file bucket key path) (fun _ => ret true))
    (on_any (fun _ => ret false)) w
  = (Ok true, set_disk d2 w).
Proof.
  intros Hb Hk Hw. unfold try_except, bind, S3.download_file, S3.with_bucket.
  rewrite Hb, Hk. by rewrite (change_ok _ _ _ _ Hw).
Qed.

Lemma download_missing bucket key path w objs :
  s3 w !! bucket = Some objs -> objs !! key = None ->
  try_except (bind (S3.download_file bucket key path) (fun _ => ret true))
    (on_any (fun _ => ret false)) w
  = (Ok false, w).
Proof.
  intros Hb Hk. unfold try_except, bind, S3.download_file, S3.with_bucket.
  by rewrite Hb, Hk.
Qed.

Lemma s3_first_downloaded self kb doc i objs :
  segment kb = true -> segment doc = true ->
  forall exts acc w,
    Forall (fun ext => no_char "/" ext = true) exts ->
    s3 w !! S3FileSystem.bucket_name self = Some objs ->
    mirror_ready (Py.join3 (S3FileSystem.base_path self) kb doc) (disk w) ->
    exists w',
      S3FileSystem.first_downloaded self kb doc i exts acc w
      = (Ok match List.find (s3_found objs kb doc i) exts with
            | Some ext => (true, (acc ++ [s3_page_path self kb doc (i, ext)])%list)
            | None => (false, acc)
            end, w')
      /\ s3 w' = s3 w
      /\ mirror_ready (Py.join3 (S3FileSystem.base_path self) kb doc) (disk w').
Proof.
  intros Hkb Hdoc. induction exts as [|ext exts IH]; intros acc w Hexts Hb Hready.
  - exists w. simpl. by repeat split.
  - apply Forall_cons in Hexts as [Hext Hexts].
    destruct Hready as (d1 & es & Hmk & Hg & Hflat).
    pose proof (mirror_ready_nonempty _ _ (ex_intro _ d1 (ex_intro _ es (conj Hmk (conj Hg Hflat)))))
      as Hne.
    simpl S3FileSystem.first_downloaded. cbv zeta.
    rewrite (ensure_folder_then _ w d1 _ Hmk).
    destruct (s3_path_components (S3FileSystem.base_path self) kb doc (page_name i ext)
                Hkb Hdoc (page_name_segment i ext Hext)) as (Hc & Hpne & Hpe).
    simpl List.find. unfold s3_found at 1. unfold s3_page_key at 1. simpl fst. simpl snd.
    assert (Hcase : (exists body,
                        objs !! (kb +:+ "/" +:+ doc +:+ "/" +:+ page_name i ext) = Some body)
                    \/ objs !! (kb +:+ "/" +:+ doc +:+ "/" +:+ page_name i ext) = None).
    { destruct (objs !! _); eauto. }
    destruct Hcase as [[body Ek]|Ek].
    + rewrite bool_decide_eq_true_2 by eauto.
      pose proof (write_into_flat _ _ _ body d1 es Hc Hpne Hpe Hg Hflat) as Hw.
      rewrite (bind_ok _ _ _ _ _
        (download_found _ _ _ body (set_disk d1 w) objs _ Hb Ek Hw)).
      eexists. split; [reflexivity|]. split; [done|]. simpl.
      apply (mirror_ready_dir _ _ (<[page_name i ext := File body]> es) Hne).
      * by apply (get_subst _ _ _ _ Hg).
      * apply flat_insert_file; [done|]. by apply page_name_segment.
    + rewrite bool_decide_eq_false_2 by (rewrite Ek; by intros [? ?]).
      rewrite (bind_ok _ _ _ _ _
        (download_missing _ _ _ (set_disk d1 w) objs Hb Ek)).
      destruct (IH acc (set_disk d1 w) Hexts Hb) as (w' & Hrun & Hs & Hr).
      { simpl. by apply (mirror_ready_dir _ _ es Hne). }
      exists w'. by repeat split.
Qed.

Lemma extensions_no_slash : Forall (fun ext => no_char "/" ext = true) extensions.
Proof. repeat constructor. Qed.

Lemma omap_cons_some {A B} (f : A -> option B) x l y :
  f x = Some y -> omap f (x :: l) = y :: omap f l.
Proof. intros Hf. simpl. by rewrite Hf. Qed.

Lemma omap_cons_none {A B} (f : A -> option B) x l :
  f x = None -> omap f (x :: l) = omap f l.
Proof. intros Hf. simpl. by rewrite Hf. Qed.

Lemma for_fold_cons {A B} (x : A) l (acc : B) body :
  for_fold (x :: l) acc body = bind (body x acc) (fun acc' => for_fold l acc' body).
Proof. reflexivity. Qed.

Lemma s3_pages_loop self kb doc objs pages :
  segment kb = true -> segment doc = true ->
  forall acc w,
    s3 w !! S3FileSystem.bucket_name self = Some objs ->
    mirror_ready (Py.join3 (S3FileSystem.base_path self) kb doc) (disk w) ->
    exists w',
      for_fold pages acc
        (fun i file_paths =>
           r <- S3FileSystem.first_downloaded self kb doc i extensions file_paths ;;
           (if fst r then ret tt
            else print ("Warning: No image file found for page "
                        +:+ Py.str_of_int i +:+ " in S3")) ;;;
           ret (snd r)) w
      = (Ok (acc ++ map (s3_page_path self kb doc)
               (omap (fun i => option_map (fun ext => (i, ext))
                                 (chosen_extension (s3_found objs kb doc i)))
                  pages))%list, w')
      /\ s3 w' = s3 w.
Proof.
  intros Hkb Hdoc. induction pages as [|i pages IH]; intros acc w Hb Hready.
  - exists w. simpl. unfold ret. by rewrite app_nil_r.
  - destruct (s3_first_downloaded self kb doc i objs Hkb Hdoc extensions acc w
                extensions_no_slash Hb Hready) as (w1 & Hrun & Hs1 & Hr1).
    rewrite for_fold_cons. cbv beta. unfold bind at 1. unfold bind at 1. rewrite Hrun.
    fold (chosen_extension (s3_found objs kb doc i)).
    destruct (chosen_extension (s3_found objs kb doc i)) as [ext|] eqn:E;
      cbv beta iota.
    + destruct (IH (acc ++ [s3_page_path self kb doc (i, ext)])%list w1)
        as (w' & Hloop & Hs'); [by rewrite Hs1|done|].
      exists w'. split; [|by rewrite Hs', Hs1].
      rewrite (omap_cons_some _ i pages (i, ext)) by by rewrite E.
      rewrite <- app_assoc in Hloop. exact Hloop.
    + destruct (IH acc (add_stdout ("Warning: No image file found for page "
                                    +:+ Py.str_of_int i +:+ " in S3") w1))
        as (w' & Hloop & Hs'); [simpl; by rewrite Hs1|exact Hr1|].
      exists w'. split; [|rewrite Hs'; simpl; exact Hs1].
      rewrite (omap_cons_none _ i pages) by by rewrite E.
      exact Hloop.
Qed.

Lemma s3_get_files self kb doc a b w objs :
  segment kb = true -> segment doc = true ->
  s3 w !! S3FileSystem.bucket_name self = Some objs ->
  mirror_ready (Py.join3 (S3FileSystem.base_path self) kb doc) (disk w) ->
  exists w',
    S3FileSystem.get_files self kb doc (Some a) (Some b) w
    = (Ok (map (s3_page_path self kb doc) (page_hits (s3_found objs kb doc) a b)), w')
    /\ s3 w' = s3 w.
Proof.
  intros Hkb Hdoc Hb Hready.
  destruct (s3_pages_loop self kb doc objs (Py.range_incl a b) Hkb Hdoc [] w Hb Hready)
    as (w' & Hrun & Hs).
  exists w'. split; [|done]. unfold S3FileSystem.get_files. rewrite client_made. by rewrite Hrun.
Qed.

(** C1.  For two set bounds, [get_files] returns the local paths of the
    page images it finds, one for each hit of [page_hits]: the pages of the
    range in increasing order, at most one path per page, the extension of
    a page being the first of [.jpg], [.jpeg], [.png] that is found, and a
    page with none being skipped without an error.  On the local back end
    an image is found when its path exists; on the remote back end, with
    the bucket there and the local mirror able to take downloads, when its
    key is in the bucket.  With a bound that is [None], [get_files] returns
    the empty list. *)
Theorem get_files_pages `{JsonCodec} :
  (forall self kb doc a b w,
      let hits := page_hits (local_found self kb doc (disk w)) a b in
      FileSystem.run (FileSystem.Local self)
        (FileSystem.GetFiles kb doc (Some a) (Some b)) w
      = (Ok (JList (map JStr (map (local_page_path self kb doc) hits))), w)
      /\ StronglySorted Z.lt (map fst hits)
      /\ forall i ext,
           (i, ext) ∈ hits
           <-> (a <= i <= b)%Z
               /\ chosen_extension (local_found self kb doc (disk w) i) = Some ext)
  /\ (forall self kb doc a b w objs,
      segment kb = true -> segment doc = true ->
      s3 w !! S3FileSystem.bucket_name self = Some objs ->
      mirror_ready (Py.join3 (S3FileSystem.base_path self) kb doc) (disk w) ->
      let hits := page_hits (s3_found objs kb doc) a b in
      (exists w',
         FileSystem.run (FileSystem.Remote self)
           (FileSystem.GetFiles kb doc (Some a) (Some b)) w
         = (Ok (JList (map JStr (map (s3_page_path self kb doc) hits))), w')
         /\ s3 w' = s3 w)
      /\ StronglySorted Z.lt (map fst hits)
      /\ forall i ext,
           (i, ext) ∈ hits
           <-> (a <= i <= b)%Z /\ chosen_extension (s3_found objs kb doc i) = Some ext)
  /\ (forall self kb doc a b w,
      a = None \/ b = None ->
      FileSystem.run self (FileSystem.GetFiles kb doc a b) w = (Ok (JList []), w))
  /\ (forall found,
      chosen_extension found
      = if found ".jpg" then Some ".jpg"
        else if found ".jpeg" then Some ".jpeg"
        else if found ".png" then Some ".png"
        else None).
Proof.
  split; [|split; [|split]].
  - intros self kb doc a b w hits. split; [|apply page_hits_spec].
    simpl. unfold FileSystem.paths.
    by rewrite (bind_ok _ _ _ _ _ (local_get_files self kb doc a b w)).
  - intros self kb doc a b w objs Hkb Hdoc Hb Hready hits.
    split; [|apply page_hits_spec].
    destruct (s3_get_files self kb doc a b w objs Hkb Hdoc Hb Hready) as (w' & Hrun & Hs).
    exists w'. split; [|done]. simpl. unfold FileSystem.paths.
    by rewrite (bind_ok _ _ _ _ _ Hrun).
  - intros [self|self] kb doc a b w [-> | ->]; simpl; try reflexivity.
    all: by destruct a.
  - intros found. reflexivity.
Qed.

Lemma get_files_pages_witness :
  exists w',
    @FileSystem.run MiniJson.codec (FileSystem.Remote example_s3)
      (FileSystem.GetFiles "kb" "doc" (Some 1%Z) (Some 10%Z)) example_world
    = (Ok (JList (map JStr (map (s3_page_path example_s3 "kb" "doc")
                              (page_hits (s3_found example_objects "kb" "doc") 1 10)))),
       w')
    /\ s3 w' = s3 example_world.
Proof.
  apply (proj1 (proj2 (@get_files_pages MiniJson.codec)) example_s3 "kb" "doc" 1%Z 10%Z
           example_world example_objects).
  - reflexivity.
  - reflexivity.
  - vm_compute. reflexivity.
  - exists (Dir {[ "base" := Dir {[ "kb" := Dir {[ "doc" := dir_of example_files ]} ]};
                  "cache" := Dir {[ "kb" := Dir {[ "doc" := Dir ∅ ]} ]} ]}), ∅.
    split; [vm_compute; reflexivity|]. split; [vm_compute; reflexivity|].
    apply map_Forall_empty.
Defined.

(** The second testable property, 2b: with [page_1.jpeg] and [page_1.png]
    both there, the path of page 1 is the [.jpeg] one; pages 3 to 9 have no
    image and are skipped. *)
Example get_files_example :
  fst (LocalFileSystem.get_files example_local "kb" "doc" (Some 1%Z) (Some 10%Z)
         example_world)
  = Ok ["base/kb/doc/page_1.jpeg"; "base/kb/doc/page_2.png"; "base/kb/doc/page_10.jpg"].
Proof. vm_compute. reflexivity. Qed.

Example get_files_remote_example :
  fst (S3FileSystem.get_files example_s3 "kb" "doc" (Some 1%Z) (Some 10%Z)
         example_world)
  = Ok ["cache/kb/doc/page_1.jpeg"; "cache/kb/doc/page_2.png";
        "cache/kb/doc/page_10.jpg"].
Proof. vm_compute. reflexivity. Qed.

(** ** [get_all_jpg_files] *)


(** The download loop of the remote [get_all_jpg_files]. *)
Lemma s3_download_loop self kb doc objs keys :
  segment kb = true -> segment doc = true ->
  Forall (fun k => is_Some (objs !! k)
                   /\ exists name, k = kb +:+ "/" +:+ doc +:+ "/" +:+ name
                                   /\ segment name = true) keys ->
  forall acc w es,
    s3 w !! S3FileSystem.bucket_name self = Some objs ->
    Os.get (Os.components (Py.join3 (S3FileSystem.base_path self) kb doc)) (disk w)
    = inr (Dir es) ->
    flat es ->
    exists w',
      for_fold keys acc (fun s3_key local_file_paths =>
        let local_path := Py.join (S3FileSystem.base_path self) s3_key in
        try_except
          (S3.download_file (S3FileSystem.bucket_name self) s3_key local_path ;;;
           ret (local_file_paths ++ [local_path])%list)
          (on_any (fun e =>
             print ("Error downloading file " +:+ s3_key +:+ ": " +:+ exn_msg e) ;;;
             ret local_file_paths))) w
      = (Ok (acc ++ map (Py.join (S3FileSystem.base_path self)) keys)%list, w')
      /\ s3 w' = s3 w.
Proof.
  intros Hkb Hdoc. induction 1 as [|k keys [[body Hk] (name & -> & Hname)] _ IH];
    intros acc w es Hb Hg Hflat.
  - exists w. simpl. unfold ret. by rewrite app_nil_r.
  - destruct (s3_path_components (S3FileSystem.base_path self) kb doc name
                Hkb Hdoc Hname) as (Hc & Hpne & Hpe).
    pose proof (write_into_flat _ _ _ body (disk w) es Hc Hpne Hpe Hg Hflat) as Hw.
    rewrite for_fold_cons. cbv beta zeta.
    destruct (IH (acc ++ [Py.join (S3FileSystem.base_path self)
                            (kb +:+ "/" +:+ doc +:+ "/" +:+ name)])%list
                (set_disk (subst (Os.components (Py.join3 (S3FileSystem.base_path self) kb doc))
                             (Dir (<[name := File body]> es)) (disk w)) w)
                (<[name := File body]> es))
      as (w' & Hloop & Hs').
    + done.
    + simpl. by apply (get_subst _ _ _ _ Hg).
    + by apply flat_insert_file.
    + exists w'. split; [|done]. rewrite <- app_assoc in Hloop. simpl in Hloop.
      simpl map. rewrite <- Hloop. unfold bind at 1. unfold try_except at 1. unfold bind at 1.
      unfold S3.download_file, S3.with_bucket. rewrite Hb, Hk.
      by rewrite (change_ok _ _ _ _ Hw).
Qed.




(** The second testable property: the pages 2, 10 and 1 come back in the
    order 1, 2, 10. *)
Example get_all_jpg_files_example :
  fst (LocalFileSystem.get_all_jpg_files example_local "kb" "doc" example_world)
  = Ok ["base/kb/doc/page_1.jpeg"; "base/kb/doc/page_1.png";
        "base/kb/doc/page_2.png"; "base/kb/doc/page_10.jpg"].
Proof. vm_compute. reflexivity. Qed.


(** An image file with no page number in its name is no page image; its
    sort key does not parse, and [int] raises. *)
Example get_all_jpg_files_other_image :
  fst (LocalFileSystem.get_all_jpg_files example_local "kb" "doc"
         (snd (Os.change "base/kb/doc/cover.jpg"
                 (Os.write_file "base/kb/doc/cover.jpg" "jpg") example_world)))
  = Raise (Exn ValueError "invalid literal for int() with base 10: 'base/kb/doc/cover'").
Proof. vm_compute. reflexivity. Qed.

Example get_all_jpg_files_remote_example :
  fst (S3FileSystem.get_all_jpg_files example_s3 "kb" "doc" example_world)
  = Ok ["cache/kb/doc/page_1.jpeg"; "cache/kb/doc/page_1.png";
        "cache/kb/doc/page_2.png"; "cache/kb/doc/page_10.jpg"].
Proof. vm_compute. reflexivity. Qed.

(** ** What is missing, and what is not JSON *)

(** C4, at the input where the code departs from the claim.  When the
    directory of the document is not there, the local
    [get_all_jpg_files] raises the error of [os.listdir]
    ([FileNotFoundError] for a missing directory) instead of returning an
    empty list.  Its remote sibling returns the empty list when there is
    nothing below the prefix, and the local [load_data] prints a diagnostic
    and returns [None] for a missing file. *)
Theorem get_all_jpg_files_missing_directory `{JsonCodec} :
  (forall self kb doc w e,
      let dir := Py.join3 (LocalFileSystem.base_path self) kb doc in
      Os.stat dir (disk w) = inl e ->
      FileSystem.run (FileSystem.Local self) (FileSystem.GetAllJpgFiles kb doc) w
      = (Raise (Os.os_error e dir), w))
  /\ exn_cls (Os.os_error Os.ENOENT "") = FileNotFoundError
  /\ (forall self kb doc w objs,
      s3 w !! S3FileSystem.bucket_name self = Some objs ->
      S3.keys_with_prefix (kb +:+ "/" +:+ doc +:+ "/") objs = [] ->
      FileSystem.run (FileSystem.Remote self) (FileSystem.GetAllJpgFiles kb doc) w
      = (Ok (JList []), w))
  /\ (forall self kb doc name w,
      let file_path :=
        Py.join4 (LocalFileSystem.base_path self) kb doc (name +:+ ".json") in
      Os.stat file_path (disk w) = inl Os.ENOENT ->
      FileSystem.run (FileSystem.Local self) (FileSystem.LoadData kb doc name) w
      = (Ok JNull, add_stdout ("File not found: " +:+ file_path) w)).
Proof.
  split; [|split; [|split]].
  - intros self kb doc w e dir Hst. simpl.
    unfold FileSystem.paths, LocalFileSystem.get_all_jpg_files. fold dir.
    assert (Hls : Os.listdir dir (disk w) = inl e).
    { unfold Os.listdir. by rewrite Hst. }
    unfold bind at 1. by rewrite (bind_raise _ _ _ _ _ (query_raise _ _ _ _ Hls)).
  - reflexivity.
  - intros self kb doc w objs Hb Hks. simpl.
    unfold FileSystem.paths, S3FileSystem.get_all_jpg_files. cbv zeta. rewrite client_made.
    unfold bind at 1. unfold try_except at 1. unfold bind at 1.
    unfold S3.list_objects_v2, S3.with_bucket. rewrite Hb, Hks. reflexivity.
  - intros self kb doc name w file_path Hst. simpl.
    unfold LocalFileSystem.load_data. fold file_path. cbv zeta.
    unfold try_except.
    assert (Hr : Os.read_file file_path (disk w) = inl Os.ENOENT).
    { unfold Os.read_file. by rewrite Hst. }
    by rewrite (bind_raise _ _ _ _ _ (query_raise _ _ _ _ Hr)).
Qed.

Lemma get_all_jpg_files_missing_directory_witness :
  @FileSystem.run MiniJson.codec (FileSystem.Local example_local)
    (FileSystem.GetAllJpgFiles "kb" "never-created") example_world
  = (Raise (Os.os_error Os.ENOENT "base/kb/never-created"), example_world).
Proof.
  apply (proj1 (@get_all_jpg_files_missing_directory MiniJson.codec) example_local
           "kb" "never-created" example_world Os.ENOENT).
  vm_compute. reflexivity.
Defined.

(** C5, at the input where the code departs from the claim.  When the
    page content file is not JSON, the local [load_page_content] lets the
    [JSONDecodeError] of the decoder through to its caller: it catches
    [FileNotFoundError] only.  Its siblings treat the same text as absent:
    the local [load_data], the remote [load_page_content] and the remote
    [load_data] print a diagnostic and return [None]. *)
Theorem load_page_content_malformed `{JsonCodec} :
  (forall self kb doc n w text msg,
      Os.read_file
        (Py.join4 (LocalFileSystem.base_path self) kb doc (page_content_name n))
        (disk w) = inr text ->
      json_loads text = inl msg ->
      FileSystem.run (FileSystem.Local self) (FileSystem.LoadPageContent kb doc n) w
      = (Raise (Exn JSONDecodeError msg), w))
  /\ (forall self kb doc name w text msg,
      let file_path :=
        Py.join4 (LocalFileSystem.base_path self) kb doc (name +:+ ".json") in
      Os.read_file file_path (disk w) = inr text ->
      json_loads text = inl msg ->
      FileSystem.run (FileSystem.Local self) (FileSystem.LoadData kb doc name) w
      = (Ok JNull,
         add_stdout ("Error decoding JSON from " +:+ file_path +:+ ": " +:+ msg) w))
  /\ (forall self kb doc n w objs text msg,
      s3 w !! S3FileSystem.bucket_name self = Some objs ->
      objs !! (kb +:+ "/" +:+ doc +:+ "/" +:+ page_content_name n) = Some text ->
      json_loads text = inl msg ->
      FileSystem.run (FileSystem.Remote self) (FileSystem.LoadPageContent kb doc n) w
      = (Ok JNull, add_stdout ("Error loading page content from S3: " +:+ msg) w))
  /\ (forall self kb doc name w objs text msg,
      let s3_key := kb +:+ "/" +:+ doc +:+ "/" +:+ name +:+ ".json" in
      s3 w !! S3FileSystem.bucket_name self = Some objs ->
      objs !! s3_key = Some text ->
      json_loads text = inl msg ->
      FileSystem.run (FileSystem.Remote self) (FileSystem.LoadData kb doc name) w
      = (Ok JNull,
         add_stdout ("Error decoding JSON from S3 file " +:+ s3_key +:+ ": " +:+ msg) w)).
Proof.
  split; [|split; [|split]].
  - intros self kb doc n w text msg Hr Hj. simpl.
    unfold LocalFileSystem.load_page_content, try_except. cbv zeta.
    rewrite (bind_ok _ _ _ _ _ (query_ok _ _ _ _ Hr)).
    by rewrite (bind_raise _ _ _ _ _ (loads_raise _ _ _ Hj)).
  - intros self kb doc name w text msg file_path Hr Hj. simpl.
    unfold LocalFileSystem.load_data, try_except. fold file_path. cbv zeta.
    rewrite (bind_ok _ _ _ _ _ (query_ok _ _ _ _ Hr)).
    by rewrite (loads_raise _ _ _ Hj).
  - intros self kb doc n w objs text msg Hb Hk Hj. simpl.
    unfold S3FileSystem.load_page_content, try_except. cbv zeta. rewrite client_made.
    erewrite bind_ok.
    2:{ unfold S3.get_object, S3.with_bucket. rewrite Hb, Hk. reflexivity. }
    by rewrite (bind_raise _ _ _ _ _ (loads_raise _ _ _ Hj)).
  - intros self kb doc name w objs text msg s3_key Hb Hk Hj. simpl.
    unfold S3FileSystem.load_data, try_except. fold s3_key. cbv zeta. rewrite client_made.
    erewrite bind_ok.
    2:{ unfold S3.get_object, S3.with_bucket. rewrite Hb, Hk. reflexivity. }
    by rewrite (loads_raise _ _ _ Hj).
Qed.

Lemma load_page_content_malformed_witness :
  @FileSystem.run MiniJson.codec (FileSystem.Local example_local)
    (FileSystem.LoadPageContent "kb" "doc" 7) example_world
  = (Raise (Exn JSONDecodeError "Expecting value"), example_world).
Proof.
  apply (proj1 (@load_page_content_malformed MiniJson.codec) example_local
           "kb" "doc" 7%Z example_world "{not json" "Expecting value").
  - vm_compute. reflexivity.
  - vm_compute. reflexivity.
Defined.

(** ** The primitives on examples *)

Example split_example :
  Py.split "_" "kb/doc/page_10.jpg" = ["kb/doc/page"; "10.jpg"].
Proof. reflexivity. Qed.

Example page_key_example :
  map page_key ["base/kb/doc/page_10.jpg"; "base/kb/doc/page_2.png"; "base/kb/doc/cover.jpg"]
  = [Some 10%Z; Some 2%Z; None].
Proof. reflexivity. Qed.

Example int_of_str_example :
  map Py.int_of_str [" -007 "; "12"; "+3"; "1x"; ""]
  = [Some (-7)%Z; Some 12%Z; Some 3%Z; None; None].
Proof. reflexivity. Qed.

Example join_example :
  [Py.join3 "base/" "kb" ""; Py.join3 "base" "kb" "doc"; Py.join "base" "/abs"]
  = ["base/kb/"; "base/kb/doc"; "/abs"].
Proof. reflexivity. Qed.

Example str_of_int_example : map Py.str_of_int [0; 10; -3]%Z = ["0"; "10"; "-3"].
Proof. reflexivity. Qed.

Example minijson_round_trip :
  MiniJson.loads (MiniJson.dumps (Some 2%nat)
    (JDict [("a", JList [JInt 1; JNull; JStr "x\y"]); ("b", JDict [])]))
  = inr (JDict [("a", JList [JInt 1; JNull; JStr "x\y"]); ("b", JDict [])]).
Proof. vm_compute. reflexivity. Qed.

Example minijson_malformed : MiniJson.loads "not json" = inl "Expecting value".
Proof. vm_compute. reflexivity. Qed.

(** * Further properties of the methods *)

(** ** Saving and loading data *)

Lemma bind_ok_inv {A B} (m : M A) (k : A -> M B) w b w1 :
  bind m k w = (Ok b, w1) -> exists a w', m w = (Ok a, w') /\ k a w' = (Ok b, w1).
Proof.
  unfold bind. destruct (m w) as [[a|e] w']; [|done]. intros Hk. eauto.
Qed.

Lemma none_ok_inv (m : M unit) w w1 :
  FileSystem.none m w = (Ok JNull, w1) -> m w = (Ok tt, w1).
Proof.
  unfold FileSystem.none, bind, ret. destruct (m w) as [[[]|e] w']; by inversion 1.
Qed.

Lemma none_ok (m : M unit) w w1 :
  m w = (Ok tt, w1) -> FileSystem.none m w = (Ok JNull, w1).
Proof. intros Hm. unfold FileSystem.none. by rewrite (bind_ok _ _ _ _ _ Hm). Qed.

Lemma local_save_json_load_data `{JsonCodec} self kb doc name obj w w1 :
  json_loads (json_dumps (Some 2%nat) obj) = inr obj ->
  LocalFileSystem.save_json self kb doc (name +:+ ".json") obj w = (Ok tt, w1) ->
  LocalFileSystem.load_data self kb doc name w1 = (Ok obj, w1).
Proof.
  intros Hrt Hsave. unfold LocalFileSystem.save_json in Hsave. cbv zeta in Hsave.
  apply change_inv in Hsave as (d1 & Hw & ->). apply write_read in Hw.
  unfold LocalFileSystem.load_data, try_except. cbv zeta.
  rewrite (bind_ok _ _ _ _ _ (query_ok _ _ (set_disk d1 w) _ Hw)).
  by rewrite (loads_ok _ _ _ Hrt).
Qed.

Lemma s3_save_json_inv `{JsonCodec} self kb doc file_name obj w w1 :
  S3FileSystem.save_json self kb doc file_name obj w = (Ok tt, w1) ->
  exists objs,
    s3 w !! S3FileSystem.bucket_name self = Some objs
    /\ w1 = add_stdout
              ("JSON data uploaded to " +:+ S3FileSystem.bucket_name self +:+ "/"
               +:+ (kb +:+ "/" +:+ doc +:+ "/" +:+ file_name) +:+ ".")
              (set_s3 (<[S3FileSystem.bucket_name self
                         := <[kb +:+ "/" +:+ doc +:+ "/" +:+ file_name
                              := json_dumps (Some 2%nat) obj]> objs]> (s3 w)) w).
Proof.
  unfold S3FileSystem.save_json. cbv zeta. rewrite client_made. intros Hsave.
  apply try_except_inv_ok in Hsave.
  2:{ intros e k w' [= <-]. eexists. reflexivity. }
  apply bind_ok_inv in Hsave as ([] & w' & Hput & Hprint).
  apply put_object_inv in Hput as (objs & Hb & ->).
  exists objs. split; [done|]. unfold print in Hprint. by injection Hprint as <-.
Qed.

Lemma s3_save_json_load_data `{JsonCodec} self kb doc name obj w w1 :
  json_loads (json_dumps (Some 2%nat) obj) = inr obj ->
  S3FileSystem.save_json self kb doc (name +:+ ".json") obj w = (Ok tt, w1) ->
  S3FileSystem.load_data self kb doc name w1 = (Ok obj, w1).
Proof.
  intros Hrt (objs & Hb & ->)%s3_save_json_inv.
  unfold S3FileSystem.load_data, try_except. cbv zeta. rewrite client_made.
  erewrite bind_ok.
  2:{ unfold S3.get_object, S3.with_bucket. simpl.
      rewrite lookup_insert_eq. rewrite lookup_insert_eq. reflexivity. }
  by rewrite (loads_ok _ _ _ Hrt).
Qed.

(** X1.  On either back end, when [save_json] has stored an object under
    the file name [name + ".json"], [load_data] for [name] returns that
    object and leaves the world as it is (for a codec that reads back what
    it wrote for the object, with [indent=2]). *)
Theorem save_json_load_data `{JsonCodec} (self : FileSystem.t) kb doc name obj w w1 :
  json_loads (json_dumps (Some 2%nat) obj) = inr obj ->
  FileSystem.run self (FileSystem.SaveJson kb doc (name +:+ ".json") obj) w
  = (Ok JNull, w1) ->
  FileSystem.run self (FileSystem.LoadData kb doc name) w1 = (Ok obj, w1).
Proof.
  intros Hrt Hsave. destruct self as [self|self]; simpl in *.
  - apply none_ok_inv in Hsave.
    exact (local_save_json_load_data self kb doc name obj w w1 Hrt Hsave).
  - apply none_ok_inv in Hsave.
    exact (s3_save_json_load_data self kb doc name obj w w1 Hrt Hsave).
Qed.

Lemma save_json_load_data_witness :
  @FileSystem.run MiniJson.codec (FileSystem.Remote example_s3)
    (FileSystem.LoadData "kb" "doc" "elements")
    (snd (@FileSystem.run MiniJson.codec (FileSystem.Remote example_s3)
            (FileSystem.SaveJson "kb" "doc" "elements.json"
               (JList [JDict [("type", JStr "title"); ("page", JInt 1)]]))
            example_world))
  = (Ok (JList [JDict [("type", JStr "title"); ("page", JInt 1)]]),
     snd (@FileSystem.run MiniJson.codec (FileSystem.Remote example_s3)
            (FileSystem.SaveJson "kb" "doc" "elements.json"
               (JList [JDict [("type", JStr "title"); ("page", JInt 1)]]))
            example_world)).
Proof.
  apply (@save_json_load_data MiniJson.codec (FileSystem.Remote example_s3)
           "kb" "doc" "elements" _ example_world).
  - vm_compute. reflexivity.
  - vm_compute. reflexivity.
Defined.

(** ** [create_directory] *)

Lemma get_chain cs : Os.get cs (Os.chain cs) = inr (Dir ∅).
Proof.
  induction cs as [|c cs IH]; simpl; [done|]. by rewrite lookup_singleton_eq.
Qed.

(** [os.makedirs(p)] that succeeds has made the directory: it is new, and
    empty. *)
Lemma makedirs_fresh cs d d' :
  Os.makedirs_at cs false d = inr d' -> Os.get cs d' = inr (Dir ∅).
Proof.
  revert d d'. induction cs as [|c cs IH]; intros d d'; simpl.
  - by destruct d.
  - destruct d as [|es]; [done|]. destruct (es !! c) as [m|] eqn:E.
    + destruct (Os.makedirs_at cs false m) as [e|m'] eqn:Em; [done|].
      intros [= <-]. simpl. rewrite lookup_insert_eq. by apply (IH m).
    + intros [= <-]. simpl. rewrite lookup_insert_eq. apply get_chain.
Qed.

Lemma makedirs_snoc_absent cs c b d es :
  Os.get cs d = inr (Dir es) -> es !! c = None ->
  Os.makedirs_at (cs ++ [c]) b d = inr (subst cs (Dir (<[c := Dir ∅]> es)) d).
Proof.
  revert d. induction cs as [|x cs IH]; intros d; simpl.
  - intros [= ->] ->. done.
  - destruct d as [|ds]; [done|]. destruct (ds !! x) as [j|] eqn:E; [|done].
    intros Hg Hc. by rewrite (IH _ Hg Hc).
Qed.

Lemma local_create_directory_inv self kb doc w w1 :
  LocalFileSystem.create_directory self kb doc w = (Ok tt, w1) ->
  let p := Py.join3 (LocalFileSystem.base_path self) kb doc in
  p <> "" /\ Os.get (Os.components p) (disk w1) = inr (Dir ∅).
Proof.
  unfold LocalFileSystem.create_directory. cbv zeta. intros Hrun.
  apply bind_ok_inv in Hrun as (ex & w' & _ & Hrun).
  apply bind_ok_inv in Hrun as ([] & w'' & _ & Hmk).
  apply change_inv in Hmk as (d1 & Hmk & ->). unfold Os.makedirs in Hmk.
  destruct (String.eqb_spec (Py.join3 (LocalFileSystem.base_path self) kb doc) "")
    as [|Hne]; [done|].
  split; [done|]. simpl. by apply (makedirs_fresh _ (disk w'')).
Qed.

Lemma local_create_directory_flat self kb doc w es :
  let p := Py.join3 (LocalFileSystem.base_path self) kb doc in
  segment doc = true -> Os.stat p (disk w) = inr (Dir es) -> flat es ->
  LocalFileSystem.create_directory self kb doc w
  = (Ok tt, set_disk (subst (Os.components p) (Dir ∅) (disk w)) w).
Proof.
  intros p Hseg Hst Hflat. pose proof Hst as Hst0. apply stat_inv in Hst as [Hp Hg].
  assert (Hc : Os.components p
               = (Os.components (Py.join (LocalFileSystem.base_path self) kb) ++ [doc])%list).
  { unfold p, Py.join3. by apply components_join_segment. }
  rewrite Hc in Hg. apply get_snoc_inv in Hg as (docs & Hg & Hd).
  unfold LocalFileSystem.create_directory. fold p. cbv zeta.
  unfold bind at 1. rewrite test_run. unfold Os.path_exists. rewrite Hst0.
  rewrite (bind_ok _ _ _ _ _ (clear_directory_flat p w _ doc docs es Hp Hc Hg Hd Hflat)).
  set (d1 := subst (Os.components (Py.join (LocalFileSystem.base_path self) kb))
               (Dir (delete doc docs)) (disk w)).
  assert (Hmk : Os.makedirs p false (disk (set_disk d1 w))
                = inr (subst (Os.components p) (Dir ∅) (disk w))).
  { simpl. unfold Os.makedirs. rewrite (proj2 (String.eqb_neq p "") Hp), Hc.
    rewrite (makedirs_snoc_absent _ doc false _ (delete doc docs)).
    - unfold d1. rewrite (subst_subst _ _ _ _ _ Hg), insert_delete_eq.
      by rewrite (subst_snoc _ _ _ _ _ _ Hg Hd).
    - by apply (get_subst _ _ _ _ Hg).
    - by rewrite lookup_delete_eq. }
  rewrite (change_ok p _ _ _ Hmk). by rewrite set_disk_set_disk.
Qed.

(** X2.  Whenever the local [create_directory] returns, the directory of
    the document is there and is empty, whatever was on the disk before:
    [os.listdir] of it answers the empty list.  For a directory of regular
    files that was there before, it does return, and the disk differs from
    the one before only in that this directory is empty. *)
Theorem create_directory_fresh :
  (forall self kb doc w w1,
      LocalFileSystem.create_directory self kb doc w = (Ok tt, w1) ->
      Os.listdir (Py.join3 (LocalFileSystem.base_path self) kb doc) (disk w1) = inr [])
  /\ (forall self kb doc w es,
      let p := Py.join3 (LocalFileSystem.base_path self) kb doc in
      segment doc = true -> Os.stat p (disk w) = inr (Dir es) -> flat es ->
      LocalFileSystem.create_directory self kb doc w
      = (Ok tt, set_disk (subst (Os.components p) (Dir ∅) (disk w)) w)).
Proof.
  split.
  - intros self kb doc w w1 Hrun.
    destruct (local_create_directory_inv self kb doc w w1 Hrun) as [Hne Hg].
    unfold Os.listdir. rewrite (stat_dir _ _ _ Hne Hg). by rewrite map_to_list_empty.
  - apply local_create_directory_flat.
Qed.

Lemma create_directory_fresh_witness :
  Os.listdir "base/kb/doc"
    (disk (snd (LocalFileSystem.create_directory example_local "kb" "doc" example_world)))
  = inr [].
Proof.
  apply (proj1 create_directory_fresh example_local "kb" "doc" example_world).
  vm_compute. reflexivity.
Defined.

(** X3.  After the local [create_directory] has returned, [save_json]
    under an ordinary file name [name + ".json"] succeeds, and [load_data]
    for [name] then returns the object that was saved (for a codec that
    reads back what it wrote for the object). *)
Theorem create_save_load `{JsonCodec} self kb doc name obj w w1 :
  segment (name +:+ ".json") = true ->
  json_loads (json_dumps (Some 2%nat) obj) = inr obj ->
  LocalFileSystem.create_directory self kb doc w = (Ok tt, w1) ->
  exists w2,
    LocalFileSystem.save_json self kb doc (name +:+ ".json") obj w1 = (Ok tt, w2)
    /\ LocalFileSystem.load_data self kb doc name w2 = (Ok obj, w2).
Proof.
  intros Hseg Hrt Hcreate.
  destruct (local_create_directory_inv self kb doc w w1 Hcreate) as [Hne Hg].
  assert (Hsave : LocalFileSystem.save_json self kb doc (name +:+ ".json") obj w1
                  = (Ok tt, set_disk
                       (subst (Os.components (Py.join3 (LocalFileSystem.base_path self) kb doc))
                          (Dir (<[name +:+ ".json"
                                  := File (json_dumps (Some 2%nat) obj)]> ∅)) (disk w1)) w1)).
  { unfold LocalFileSystem.save_json. cbv zeta. apply change_ok.
    apply (write_into_flat _ _ _ _ _ ∅).
    - unfold Py.join4. by apply components_join_segment.
    - unfold Py.join4. by apply join_segment_nonempty.
    - unfold Py.join4. by apply join_segment_not_dir.
    - exact Hg.
    - apply map_Forall_empty. }
  eexists. split; [exact Hsave|].
  by apply (local_save_json_load_data self kb doc name obj w1).
Qed.

Lemma create_save_load_witness :
  exists w2,
    @LocalFileSystem.save_json MiniJson.codec example_local "kb" "new" "elements.json"
      (JDict [("n", JInt 3)])
      (snd (LocalFileSystem.create_directory example_local "kb" "new" example_world))
    = (Ok tt, w2)
    /\ @LocalFileSystem.load_data MiniJson.codec example_local "kb" "new" "elements" w2
       = (Ok (JDict [("n", JInt 3)]), w2).
Proof.
  apply (@create_save_load MiniJson.codec example_local "kb" "new" "elements"
           (JDict [("n", JInt 3)]) example_world).
  - reflexivity.
  - vm_compute. reflexivity.
  - vm_compute. reflexivity.
Defined.

(** ** [load_page_content_range] *)

(** The loop of both [load_page_content_range], over any list of pages
    and from any list of contents. *)
Lemma range_loop (load : Z -> M json) l acc read w :
  (forall n, n ∈ l -> load n w = (Ok (read n), w)) ->
  for_fold l acc
    (fun page_num page_contents =>
       content <- load page_num ;;
       match content with
       | JNull => ret page_contents
       | _ => ret (page_contents ++ [content])%list
       end) w
  = (Ok (acc ++ List.filter (fun v => negb (is_none v)) (map read l))%list, w).
Proof.
  revert acc. induction l as [|n l IH]; intros acc Hl.
  - simpl. by rewrite app_nil_r.
  - rewrite for_fold_cons. unfold bind at 1. unfold bind at 1.
    rewrite (Hl n) by apply list_elem_of_here.
    assert (Hl' : forall m, m ∈ l -> load m w = (Ok (read m), w)).
    { intros m Hm. apply Hl. by apply list_elem_of_further. }
    simpl. destruct (read n); simpl; rewrite (IH _ Hl'); try done;
      by rewrite <- app_assoc.
Qed.

Lemma range_loop_raise (load : Z -> M json) l1 n l2 acc read e w w' :
  (forall m, m ∈ l1 -> load m w = (Ok (read m), w)) ->
  load n w = (Raise e, w') ->
  for_fold (l1 ++ n :: l2)%list acc
    (fun page_num page_contents =>
       content <- load page_num ;;
       match content with
       | JNull => ret page_contents
       | _ => ret (page_contents ++ [content])%list
       end) w
  = (Raise e, w').
Proof.
  revert acc. induction l1 as [|m l1 IH]; intros acc Hl Hn.
  - simpl app. rewrite for_fold_cons. unfold bind at 1. unfold bind at 1.
    by rewrite Hn.
  - simpl app. rewrite for_fold_cons. unfold bind at 1. unfold bind at 1.
    rewrite (Hl m) by apply list_elem_of_here.
    assert (Hl' : forall k, k ∈ l1 -> load k w = (Ok (read k), w)).
    { intros k Hk. apply Hl. by apply list_elem_of_further. }
    destruct (read m); simpl; by rewrite (IH _ Hl' Hn).
Qed.

Lemma range_incl_split a n b :
  (a <= n <= b)%Z ->
  Py.range_incl a b = (Py.range_incl a (n - 1) ++ n :: Py.range_incl (n + 1) b)%list.
Proof.
  intros Hn. unfold Py.range_incl.
  replace (b + 1 - a)%Z with ((n - 1 + 1 - a) + (b + 1 - n))%Z by lia.
  rewrite seqZ_app by lia. f_equal.
  rewrite seqZ_cons by lia. f_equal; [lia|]. f_equal; lia.
Qed.

(** X4.  On either back end, [load_page_content_range] answers what
    [load_page_content] answers for the pages of the range, in the order
    of the page numbers and without the pages answered with [None], when
    these loads return and leave the world as it is.  (For [page_end]
    below [page_start] this is the empty list, whatever the world.) *)
Theorem load_page_content_range_pages `{JsonCodec} (self : FileSystem.t)
    kb doc a b read w :
  (forall n, (a <= n <= b)%Z ->
     FileSystem.run self (FileSystem.LoadPageContent kb doc n) w = (Ok (read n), w)) ->
  FileSystem.run self (FileSystem.LoadPageContentRange kb doc a b) w
  = (Ok (JList (page_contents read a b)), w).
Proof.
  intros Hload. unfold page_contents.
  destruct self as [fs|fs]; simpl in *; unfold FileSystem.values.
  - unfold LocalFileSystem.load_page_content_range.
    erewrite bind_ok; [reflexivity|].
    rewrite (range_loop _ _ [] read); [done|].
    intros n Hn. apply Hload. by apply elem_of_range_incl.
  - unfold S3FileSystem.load_page_content_range.
    erewrite bind_ok; [reflexivity|].
    rewrite (range_loop _ _ [] read); [done|].
    intros n Hn. apply Hload. by apply elem_of_range_incl.
Qed.

Lemma load_page_content_range_pages_witness :
  let fs := FileSystem.Local example_local in
  let w := snd (@FileSystem.run MiniJson.codec fs
                  (FileSystem.SavePageContent "kb" "doc" 3 "three")
             (snd (@FileSystem.run MiniJson.codec fs
                     (FileSystem.SavePageContent "kb" "doc" 1 "one") example_world))) in
  @FileSystem.run MiniJson.codec fs (FileSystem.LoadPageContentRange "kb" "doc" 1 3) w
  = (Ok (JList [JStr "one"; JStr "three"]), w).
Proof.
  intros fs w.
  apply (@load_page_content_range_pages MiniJson.codec fs "kb" "doc" 1 3
           (fun n => if (n =? 1)%Z then JStr "one"
                     else if (n =? 3)%Z then JStr "three" else JNull) w).
  intros n Hn.
  assert (Hc : n = 1%Z \/ n = 2%Z \/ n = 3%Z) by lia.
  destruct Hc as [->|[->| ->]]; vm_compute; reflexivity.
Defined.

(** X5.  [load_page_content_range] has no handler of its own: when the
    load of a page of the range raises, and the pages before it loaded,
    the whole call raises that exception, and what was loaded is lost. *)
Theorem load_page_content_range_raises `{JsonCodec} (self : FileSystem.t)
    kb doc a b n read e w w' :
  (a <= n <= b)%Z ->
  (forall m, (a <= m < n)%Z ->
     FileSystem.run self (FileSystem.LoadPageContent kb doc m) w = (Ok (read m), w)) ->
  FileSystem.run self (FileSystem.LoadPageContent kb doc n) w = (Raise e, w') ->
  FileSystem.run self (FileSystem.LoadPageContentRange kb doc a b) w = (Raise e, w').
Proof.
  intros Hn Hbefore Hraise.
  assert (Hl : forall m, m ∈ Py.range_incl a (n - 1) ->
     FileSystem.run self (FileSystem.LoadPageContent kb doc m) w = (Ok (read m), w)).
  { intros m Hm. apply Hbefore. apply elem_of_range_incl in Hm. lia. }
  destruct self as [fs|fs]; simpl in *; unfold FileSystem.values.
  - unfold LocalFileSystem.load_page_content_range.
    rewrite (range_incl_split a n b Hn).
    apply bind_raise. by apply (range_loop_raise _ _ _ _ _ read).
  - unfold S3FileSystem.load_page_content_range.
    rewrite (range_incl_split a n b Hn).
    apply bind_raise. by apply (range_loop_raise _ _ _ _ _ read).
Qed.

Lemma load_page_content_range_raises_witness :
  @FileSystem.run MiniJson.codec (FileSystem.Local example_local)
    (FileSystem.LoadPageContentRange "kb" "doc" 6 8) example_world
  = (Raise (Exn JSONDecodeError "Expecting value"), example_world).
Proof.
  apply (@load_page_content_range_raises MiniJson.codec (FileSystem.Local example_local)
           "kb" "doc" 6 8 7 (fun _ => JNull)).
  - lia.
  - intros m Hm. assert (m = 6%Z) as -> by lia. vm_compute. reflexivity.
  - vm_compute. reflexivity.
Defined.

(** ** What the remote back end does with what the store raises *)

Lemma get_object_frame bucket key w r w1 :
  S3.get_object bucket key w = (r, w1) -> w1 = w.
Proof.
  unfold S3.get_object, S3.with_bucket. destruct (s3 w !! bucket) as [objs|].
  - destruct (objs !! key); by intros [= _ <-].
  - by intros [= _ <-].
Qed.

Lemma loads_frame `{JsonCodec} text w r w1 : loads text w = (r, w1) -> w1 = w.
Proof. unfold loads. destruct (json_loads text); by intros [= _ <-]. Qed.

Lemma subscript_frame data key w r w1 : subscript data key w = (r, w1) -> w1 = w.
Proof.
  unfold subscript. destruct data as [| | | | | |d]; try by intros [= _ <-].
  destruct (assoc key d); by intros [= _ <-].
Qed.

Lemma get_object_found bucket key w objs text :
  s3 w !! bucket = Some objs -> objs !! key = Some text ->
  S3.get_object bucket key w = (Ok text, w).
Proof. intros Hb Hk. unfold S3.get_object, S3.with_bucket. by rewrite Hb, Hk. Qed.

Lemma get_object_no_bucket bucket key w :
  s3 w !! bucket = None ->
  S3.get_object bucket key w = (Raise (S3.no_such_bucket "GetObject"), w).
Proof. intros Hb. unfold S3.get_object, S3.with_bucket. by rewrite Hb. Qed.

(** X6.  A page content that is a JSON object without the key
    [content]: the local [load_page_content] lets the [KeyError] of the
    subscript through to its caller, the remote one prints it and returns
    [None].  The remote one does the same with the error of a bucket that
    is not there (for a client that was made, as everywhere). *)
Theorem load_page_content_no_content `{JsonCodec} kb doc n text d :
  json_loads text = inr (JDict d) -> assoc "content" d = None ->
  (forall self w,
      Os.read_file
        (Py.join4 (LocalFileSystem.base_path self) kb doc (page_content_name n))
        (disk w) = inr text ->
      FileSystem.run (FileSystem.Local self) (FileSystem.LoadPageContent kb doc n) w
      = (Raise (Exn KeyError "'content'"), w))
  /\ (forall self w objs,
      s3 w !! S3FileSystem.bucket_name self = Some objs ->
      objs !! (kb +:+ "/" +:+ doc +:+ "/" +:+ page_content_name n) = Some text ->
      FileSystem.run (FileSystem.Remote self) (FileSystem.LoadPageContent kb doc n) w
      = (Ok JNull, add_stdout "Error loading page content from S3: 'content'" w))
  /\ (forall self w,
      s3 w !! S3FileSystem.bucket_name self = None ->
      FileSystem.run (FileSystem.Remote self) (FileSystem.LoadPageContent kb doc n) w
      = (Ok JNull,
         add_stdout ("Error loading page content from S3: "
                     +:+ exn_msg (S3.no_such_bucket "GetObject")) w)).
Proof.
  intros Hjson Hkey. split; [|split].
  - intros self w Hread. simpl. unfold LocalFileSystem.load_page_content. cbv zeta.
    unfold try_except.
    rewrite (bind_ok _ _ _ _ _ (query_ok _ _ _ _ Hread)).
    rewrite (bind_ok _ _ _ _ _ (loads_ok _ _ _ Hjson)).
    unfold subscript. by rewrite Hkey.
  - intros self w objs Hb Hobj. simpl. unfold S3FileSystem.load_page_content. cbv zeta.
    rewrite client_made. unfold try_except.
    rewrite (bind_ok _ _ _ _ _ (get_object_found _ _ _ _ _ Hb Hobj)).
    rewrite (bind_ok _ _ _ _ _ (loads_ok _ _ _ Hjson)).
    unfold subscript. by rewrite Hkey.
  - intros self w Hb. simpl. unfold S3FileSystem.load_page_content. cbv zeta.
    rewrite client_made. unfold try_except.
    by rewrite (bind_raise _ _ _ _ _ (get_object_no_bucket _ _ _ Hb)).
Qed.

Lemma load_page_content_no_content_witness :
  let w := snd (S3.put_object "bucket" "kb/doc/page_content_3.json" "{}" example_world) in
  @FileSystem.run MiniJson.codec (FileSystem.Remote example_s3)
    (FileSystem.LoadPageContent "kb" "doc" 3) w
  = (Ok JNull, add_stdout "Error loading page content from S3: 'content'" w).
Proof.
  intros w.
  apply (proj1 (proj2 (@load_page_content_no_content MiniJson.codec "kb" "doc" 3 "{}" []
                         eq_refl eq_refl))
           example_s3 w (<["kb/doc/page_content_3.json" := "{}"]> example_objects)).
  - vm_compute. reflexivity.
  - vm_compute. reflexivity.
Defined.



(** ** A failed upload *)

Lemma put_object_no_bucket bucket key body w :
  s3 w !! bucket = None ->
  S3.put_object bucket key body w = (Raise (S3.no_such_bucket "PutObject"), w).
Proof. intros Hb. unfold S3.put_object, S3.with_bucket. by rewrite Hb. Qed.

(** X8.  An upload to a bucket that is not there: the remote
    [save_json], [save_page_content] and [save_image] (for an image that
    encodes) raise a [RuntimeError] with the message of the method in place
    of the error of the store, and the world is as before: nothing is
    stored and nothing printed (for a client that was made). *)
Theorem s3_upload_failure `{JsonCodec} (self : S3FileSystem.t) kb doc w :
  s3 w !! S3FileSystem.bucket_name self = None ->
  (forall name obj,
      FileSystem.run (FileSystem.Remote self) (FileSystem.SaveJson kb doc name obj) w
      = (Raise (Exn RuntimeError "Failed to upload JSON to S3."), w))
  /\ (forall n s,
      FileSystem.run (FileSystem.Remote self) (FileSystem.SavePageContent kb doc n s) w
      = (Raise (Exn RuntimeError "Failed to upload page content to S3."), w))
  /\ (forall name img,
      is_Some (save_to_format img "JPEG") ->
      FileSystem.run (FileSystem.Remote self) (FileSystem.SaveImage kb doc name img) w
      = (Raise (Exn RuntimeError "Failed to upload image to S3."), w)).
Proof.
  intros Hb. split; [|split].
  - intros name obj. simpl. unfold FileSystem.none, S3FileSystem.save_json. cbv zeta.
    rewrite client_made. apply bind_raise. unfold try_except.
    by rewrite (bind_raise _ _ _ _ _ (put_object_no_bucket _ _ _ _ Hb)).
  - intros n s. simpl. unfold FileSystem.none, S3FileSystem.save_page_content. cbv zeta.
    rewrite client_made. apply bind_raise. unfold try_except.
    by rewrite (put_object_no_bucket _ _ _ _ Hb).
  - intros name img [buffer Hbuf]. simpl.
    unfold FileSystem.none, S3FileSystem.save_image. cbv zeta. rewrite Hbuf.
    rewrite client_made. apply bind_raise. unfold try_except.
    by rewrite (bind_raise _ _ _ _ _ (put_object_no_bucket _ _ _ _ Hb)).
Qed.

Lemma s3_upload_failure_witness :
  @FileSystem.run MiniJson.codec (FileSystem.Remote example_s3)
    (FileSystem.SaveJson "kb" "doc" "elements.json" (JList []))
    (set_s3 ∅ example_world)
  = (Raise (Exn RuntimeError "Failed to upload JSON to S3."), set_s3 ∅ example_world).
Proof.
  assert (Hb : s3 (set_s3 ∅ example_world) !! S3FileSystem.bucket_name example_s3 = None)
    by reflexivity.
  apply (proj1 (@s3_upload_failure MiniJson.codec example_s3 "kb" "doc"
                  (set_s3 ∅ example_world) Hb)).
Defined.

(** ** Saving without the directory *)

Lemma update_below_absent cs c f d e :
  Os.get cs d = inl e -> Os.update (cs ++ [c]) f d = inl e.
Proof.
  revert d. induction cs as [|x cs IH]; intros d; [done|].
  simpl. destruct d as [|es]; [done|].
  assert (Hl : exists y l, (cs ++ [c])%list = y :: l).
  { destruct cs; simpl; eauto. }
  destruct Hl as (y & l & Hl).
  destruct (es !! x) as [m|]; [|by rewrite Hl].
  intros Hg. pose proof (IH _ Hg) as Hu. rewrite Hl in *. by rewrite Hu.
Qed.

Lemma page_content_name_segment n : segment (page_content_name n) = true.
Proof.
  unfold segment, page_content_name.
  assert (Hn : no_char "/" ("page_content_" +:+ Py.str_of_int n +:+ ".json") = true).
  { unfold no_char. rewrite !all_chars_app. fold (no_char "/" (Py.str_of_int n)).
    by rewrite numeral_no_char. }
  rewrite Hn.
  change ("page_content_" +:+ Py.str_of_int n +:+ ".json")
    with (String "p" (String "a" ("ge_content_" +:+ Py.str_of_int n +:+ ".json"))).
  reflexivity.
Qed.

Lemma stat_enoent_inv p d :
  p <> "" -> Os.stat p d = inl Os.ENOENT -> Os.get (Os.components p) d = inl Os.ENOENT.
Proof.
  intros Hp. unfold Os.stat. rewrite (proj2 (String.eqb_neq p "") Hp).
  destruct (Os.get (Os.components p) d) as [e|[x|es]]; [by intros [= ->]| |done].
  by destruct (Py.endswith p "/").
Qed.

Lemma write_below_absent dir name body d :
  segment name = true -> dir <> "" -> Os.stat dir d = inl Os.ENOENT ->
  Os.write_file (Py.join dir name) body d = inl Os.ENOENT.
Proof.
  intros Hseg Hne Hst. unfold Os.write_file, Os.update_path.
  rewrite (proj2 (String.eqb_neq _ "") (join_segment_nonempty dir name Hseg)).
  rewrite (components_join_segment dir name Hseg).
  apply update_below_absent. by apply stat_enoent_inv.
Qed.

(** X9.  The local [save_json], [save_page_content] and [save_image] do
    not make the directory of the document: when it is not there, each
    raises [FileNotFoundError] for the path of the file, and the disk is as
    before. *)
Theorem local_save_needs_directory `{JsonCodec} (self : LocalFileSystem.t) kb doc w :
  let dir := Py.join3 (LocalFileSystem.base_path self) kb doc in
  segment doc = true -> Os.stat dir (disk w) = inl Os.ENOENT ->
  (forall name obj,
      segment name = true ->
      FileSystem.run (FileSystem.Local self) (FileSystem.SaveJson kb doc name obj) w
      = (Raise (Os.os_error Os.ENOENT (Py.join dir name)), w))
  /\ (forall n s,
      FileSystem.run (FileSystem.Local self) (FileSystem.SavePageContent kb doc n s) w
      = (Raise (Os.os_error Os.ENOENT (Py.join dir (page_content_name n))), w))
  /\ (forall name img,
      segment name = true -> is_Some (save_to_path img (Py.join dir name)) ->
      FileSystem.run (FileSystem.Local self) (FileSystem.SaveImage kb doc name img) w
      = (Raise (Os.os_error Os.ENOENT (Py.join dir name)), w))
  /\ exn_cls (Os.os_error Os.ENOENT dir) = FileNotFoundError.
Proof.
  intros dir Hdoc Hst.
  assert (Hne : dir <> "") by by apply join_segment_nonempty.
  split; [|split; [|split]].
  - intros name obj Hname. simpl. unfold FileSystem.none, LocalFileSystem.save_json.
    cbv zeta. apply bind_raise. apply change_raise.
    by apply write_below_absent.
  - intros n s. simpl. unfold FileSystem.none, LocalFileSystem.save_page_content.
    cbv zeta. apply bind_raise. apply change_raise.
    apply write_below_absent; [|done|done]. apply page_content_name_segment.
  - intros name img Hname [bytes Hb]. simpl.
    unfold FileSystem.none, LocalFileSystem.save_image. cbv zeta.
    change (Py.join4 (LocalFileSystem.base_path self) kb doc name)
      with (Py.join dir name).
    rewrite Hb. apply bind_raise. apply change_raise. by apply write_below_absent.
  - done.
Qed.

Lemma local_save_needs_directory_witness :
  @FileSystem.run MiniJson.codec (FileSystem.Local example_local)
    (FileSystem.SavePageContent "kb" "other" 1 "text") example_world
  = (Raise (Os.os_error Os.ENOENT "base/kb/other/page_content_1.json"), example_world).
Proof.
  apply (proj1 (proj2
    (@local_save_needs_directory MiniJson.codec example_local "kb" "other" example_world
       eq_refl eq_refl))).
Defined.

(** ** The pages of a document do not disturb one another *)

Lemma page_content_key n : page_key (page_content_name n) = Some n.
Proof.
  unfold page_key, page_content_name.
  change ("page_content_" +:+ Py.str_of_int n +:+ ".json")
    with ("page_content" +:+ String "_" (Py.str_of_int n +:+ String "." "json")).
  rewrite split_app, last_piece_app.
  2:{ by destruct (split_nonempty "_" (Py.str_of_int n +:+ String "." "json"))
        as (h & t & ->). }
  rewrite (split_no_char "_").
  2:{ unfold no_char. rewrite all_chars_app. apply andb_true_iff. split.
      - by apply numeral_no_char.
      - reflexivity. }
  change (Py.last_piece [?x]) with x. rewrite split_app.
  rewrite (split_no_char "." (Py.str_of_int n)) by by apply numeral_no_char.
  simpl. apply int_of_str_of_int.
Qed.

Lemma page_content_name_inj n m : page_content_name n = page_content_name m -> n = m.
Proof.
  intros E. pose proof (page_content_key n) as Hn. rewrite E, page_content_key in Hn.
  by injection Hn.
Qed.

Lemma append_inj_l s a b : s +:+ a = s +:+ b -> a = b.
Proof.
  induction s as [|c s IH]; rewrite ?app_nil_l, ?app_cons; [done|].
  intros [= E]. by apply IH.
Qed.

(** A change of the entry [x] of a directory is not seen at another entry
    [y] of it. *)
Lemma get_update_other cs x y f d d1 :
  x <> y -> Os.update (cs ++ [x]) f d = inr d1 ->
  Os.get (cs ++ [y]) d1 = Os.get (cs ++ [y]) d.
Proof.
  intros Hxy. revert d d1. induction cs as [|c cs IH]; intros d d1; simpl.
  - destruct d as [|es]; [done|]. destruct (f (es !! x)) as [e|o]; [done|].
    intros [= <-]. destruct o as [m|]; simpl.
    + by rewrite lookup_insert_ne.
    + by rewrite lookup_delete_ne.
  - destruct d as [|es]; [done|].
    assert (Hl : exists z l, (cs ++ [x])%list = z :: l).
    { destruct cs; simpl; eauto. }
    destruct Hl as (z & l & Hl). rewrite Hl. rewrite <- Hl.
    destruct (es !! c) as [k|] eqn:Ek; [|done].
    destruct (Os.update (cs ++ [x]) f k) as [e|k'] eqn:Eu; [done|].
    intros [= <-]. simpl. rewrite lookup_insert_eq. by apply (IH k).
Qed.

Lemma read_write_other dir x y data d d1 :
  segment x = true -> segment y = true -> x <> y ->
  Os.write_file (Py.join dir x) data d = inr d1 ->
  Os.read_file (Py.join dir y) d1 = Os.read_file (Py.join dir y) d.
Proof.
  intros Hx Hy Hxy. unfold Os.write_file, Os.update_path.
  rewrite (proj2 (String.eqb_neq _ "") (join_segment_nonempty dir x Hx)).
  rewrite (components_join_segment dir x Hx). intros Hu.
  unfold Os.read_file, Os.stat.
  rewrite (components_join_segment dir y Hy).
  by rewrite (get_update_other _ x y _ d d1 Hxy Hu).
Qed.

(** What the local [load_page_content] answers is read off the file. *)
Lemma local_load_page_content_read `{JsonCodec} self kb doc m w w' :
  Os.read_file
    (Py.join4 (LocalFileSystem.base_path self) kb doc (page_content_name m)) (disk w')
  = Os.read_file
      (Py.join4 (LocalFileSystem.base_path self) kb doc (page_content_name m)) (disk w) ->
  fst (LocalFileSystem.load_page_content self kb doc m w')
  = fst (LocalFileSystem.load_page_content self kb doc m w).
Proof.
  intros Hread. unfold LocalFileSystem.load_page_content. cbv zeta.
  unfold try_except, bind, Os.query. rewrite Hread.
  destruct (Os.read_file _ (disk w)) as [e|text].
  - unfold on_class. by destruct (decide _).
  - unfold loads, on_class.
    destruct (json_loads text) as [msg|data]; simpl; [done|].
    unfold subscript. destruct data as [| | | | | |d]; simpl; try done.
    by destruct (assoc "content" d).
Qed.

Lemma s3_load_page_content_read `{JsonCodec} self kb doc m w w' :
  fst (S3.get_object (S3FileSystem.bucket_name self)
         (kb +:+ "/" +:+ doc +:+ "/" +:+ page_content_name m) w')
  = fst (S3.get_object (S3FileSystem.bucket_name self)
           (kb +:+ "/" +:+ doc +:+ "/" +:+ page_content_name m) w) ->
  fst (S3FileSystem.load_page_content self kb doc m w')
  = fst (S3FileSystem.load_page_content self kb doc m w).
Proof.
  intros Hget. unfold S3FileSystem.load_page_content. cbv zeta. rewrite client_made.
  unfold try_except, bind.
  destruct (S3.get_object _ _ w') as [r' w0'] eqn:E'.
  destruct (S3.get_object _ _ w) as [r w0] eqn:E.
  apply get_object_frame in E' as ->. apply get_object_frame in E as ->.
  simpl in Hget. subst r'. destruct r as [text|e].
  - unfold loads, orelse, on_class, on_any.
    destruct (json_loads text) as [msg|data]; simpl; [done|].
    unfold subscript. destruct data as [| | | | | |d]; simpl; try done.
    by destruct (assoc "content" d).
  - unfold orelse, on_class, on_any. by destruct (decide _).
Qed.

(** X10.  On either back end, saving the content of a page leaves what
    [load_page_content] answers for every other page of the document as it
    was. *)
Theorem save_page_content_frame `{JsonCodec} (self : FileSystem.t) kb doc n s m w w1 :
  m <> n ->
  FileSystem.run self (FileSystem.SavePageContent kb doc n s) w = (Ok JNull, w1) ->
  fst (FileSystem.run self (FileSystem.LoadPageContent kb doc m) w1)
  = fst (FileSystem.run self (FileSystem.LoadPageContent kb doc m) w).
Proof.
  intros Hmn Hsave. destruct self as [fs|fs]; simpl in *; apply none_ok_inv in Hsave.
  - apply local_load_page_content_read.
    unfold LocalFileSystem.save_page_content in Hsave. cbv zeta in Hsave.
    apply change_inv in Hsave as (d1 & Hw & ->). simpl.
    assert (Hne : page_content_name n <> page_content_name m).
    { intros E. by apply page_content_name_inj in E. }
    exact (read_write_other _ _ _ _ _ _ (page_content_name_segment n)
             (page_content_name_segment m) Hne Hw).
  - apply s3_load_page_content_read.
    unfold S3FileSystem.save_page_content in Hsave. cbv zeta in Hsave. rewrite client_made in Hsave.
    apply try_except_inv_ok in Hsave.
    2:{ intros e k w' [= <-]. eexists. reflexivity. }
    apply put_object_inv in Hsave as (objs & Hb & ->).
    unfold S3.get_object, S3.with_bucket. simpl. rewrite lookup_insert_eq, Hb.
    rewrite lookup_insert_ne; [by destruct (objs !! _)|].
    intros E. do 4 apply append_inj_l in E. by apply page_content_name_inj in E.
Qed.

Lemma save_page_content_frame_witness :
  fst (@FileSystem.run MiniJson.codec (FileSystem.Remote example_s3)
         (FileSystem.LoadPageContent "kb" "doc" 7)
         (snd (@FileSystem.run MiniJson.codec (FileSystem.Remote example_s3)
                 (FileSystem.SavePageContent "kb" "doc" 8 "eight") example_world)))
  = fst (@FileSystem.run MiniJson.codec (FileSystem.Remote example_s3)
           (FileSystem.LoadPageContent "kb" "doc" 7) example_world).
Proof.
  apply (@save_page_content_frame MiniJson.codec (FileSystem.Remote example_s3)
           "kb" "doc" 8 "eight" 7 example_world).
  - lia.
  - vm_compute. reflexivity.
Defined.

(** ** After [delete_directory] *)

Lemma stat_below_absent dir name d :
  segment name = true ->
  Os.get (Os.components dir ++ [name]) d = inl Os.ENOENT ->
  Os.stat (Py.join dir name) d = inl Os.ENOENT.
Proof.
  intros Hseg Hg. unfold Os.stat.
  rewrite (proj2 (String.eqb_neq _ "") (join_segment_nonempty dir name Hseg)).
  by rewrite (components_join_segment dir name Hseg), Hg.
Qed.

Lemma page_hits_none found a b :
  (forall i ext, In ext extensions -> found i ext = false) ->
  page_hits found a b = [].
Proof.
  intros Hf. unfold page_hits. induction (Py.range_incl a b) as [|i l IH]; [done|].
  simpl. unfold chosen_extension. simpl.
  by rewrite !Hf by (unfold extensions; simpl; tauto).
Qed.

Lemma range_loop_none (load : Z -> M json) a b w :
  (forall n, load n w = (Ok JNull, w)) ->
  for_fold (Py.range_incl a b) []
    (fun page_num page_contents =>
       content <- load page_num ;;
       match content with
       | JNull => ret page_contents
       | _ => ret (page_contents ++ [content])%list
       end) w
  = (Ok [], w).
Proof.
  intros Hl. rewrite (range_loop load _ [] (fun _ => JNull)) by done.
  f_equal. f_equal. induction (Py.range_incl a b); [done|]. simpl. done.
Qed.

Lemma local_deleted_loads `{JsonCodec} self kb doc w :
  (forall rest,
     Os.get (Os.components (Py.join3 (LocalFileSystem.base_path self) kb doc) ++ rest)
       (disk w) = inl Os.ENOENT) ->
  (forall n,
     FileSystem.run (FileSystem.Local self) (FileSystem.LoadPageContent kb doc n) w
     = (Ok JNull, w))
  /\ (forall a b,
     FileSystem.run (FileSystem.Local self) (FileSystem.LoadPageContentRange kb doc a b) w
     = (Ok (JList []), w))
  /\ (forall a b,
     FileSystem.run (FileSystem.Local self) (FileSystem.GetFiles kb doc a b) w
     = (Ok (JList []), w)).
Proof.
  intros Hgone.
  assert (Hload : forall n,
    LocalFileSystem.load_page_content self kb doc n w = (Ok JNull, w)).
  { intros n. apply local_load_missing. apply stat_below_absent.
    - apply page_content_name_segment.
    - apply Hgone. }
  split; [exact Hload|]. split.
  - intros a b. simpl. unfold FileSystem.values, LocalFileSystem.load_page_content_range.
    by rewrite (bind_ok _ _ _ _ _ (range_loop_none _ a b w Hload)).
  - intros [a|] [b|]; try reflexivity. simpl. unfold FileSystem.paths.
    rewrite (bind_ok _ _ _ _ _ (local_get_files self kb doc a b w)).
    rewrite page_hits_none; [done|].
    intros i ext Hext. unfold local_found, local_page_path, Os.path_exists. simpl.
    assert (Hs : segment (page_name i ext) = true).
    { apply page_name_segment.
      apply (proj1 (Forall_forall _ _) extensions_no_slash).
      by apply list_elem_of_In. }
    by rewrite (stat_below_absent _ _ _ Hs (Hgone _)).
Qed.

Lemma keys_without_prefix prefix (objs : gmap string string) :
  S3.keys_with_prefix prefix (objs_without prefix objs) = [].
Proof.
  destruct (S3.keys_with_prefix prefix (objs_without prefix objs)) as [|k l] eqn:E; [done|].
  assert (Hk : k ∈ S3.keys_with_prefix prefix (objs_without prefix objs)).
  { rewrite E. apply list_elem_of_here. }
  apply keys_with_prefix_elem in Hk as [[body Hk] Hp].
  rewrite objs_without_lookup, Hp in Hk. done.
Qed.

Lemma s3_delete_directory_inv `{JsonCodec} self kb doc w removed w1 :
  FileSystem.run (FileSystem.Remote self) (FileSystem.DeleteDirectory kb doc) w
  = (Ok (JList removed), w1) ->
  length removed < S3.max_keys ->
  exists objs,
    s3 w !! S3FileSystem.bucket_name self = Some objs
    /\ s3 w1 = <[S3FileSystem.bucket_name self
                 := objs_without (kb +:+ "/" +:+ doc +:+ "/") objs]> (s3 w)
    /\ disk w1 = disk w.
Proof.
  simpl. unfold S3FileSystem.delete_directory.
  destruct (s3 w !! S3FileSystem.bucket_name self) as [objs|] eqn:Eb.
  - destruct (s3_delete_prefix_listed self (kb +:+ "/" +:+ doc +:+ "/") w objs Eb)
      as [line ->].
    intros [= <- <-]. rewrite length_map, length_take. intros Hlen.
    rewrite take_ge by lia. rewrite delete_keys_with_prefix. by exists objs.
  - unfold S3FileSystem.delete_prefix. rewrite client_made.
    unfold bind at 1, S3.list_objects_v2, S3.with_bucket. by rewrite Eb.
Qed.

Lemma s3_deleted_loads `{JsonCodec} self kb doc w objs :
  s3 w !! S3FileSystem.bucket_name self = Some (objs_without (kb +:+ "/" +:+ doc +:+ "/") objs) ->
  (forall n,
     FileSystem.run (FileSystem.Remote self) (FileSystem.LoadPageContent kb doc n) w
     = (Ok JNull, w))
  /\ (forall a b,
     FileSystem.run (FileSystem.Remote self) (FileSystem.LoadPageContentRange kb doc a b) w
     = (Ok (JList []), w))
  /\ FileSystem.run (FileSystem.Remote self) (FileSystem.GetAllJpgFiles kb doc) w
     = (Ok (JList []), w).
Proof.
  intros Hb.
  assert (Hload : forall n,
    S3FileSystem.load_page_content self kb doc n w = (Ok JNull, w)).
  { intros n. unfold S3FileSystem.load_page_content, try_except. cbv zeta.
    rewrite client_made.
    unfold bind at 1. unfold S3.get_object, S3.with_bucket. rewrite Hb.
    rewrite objs_without_lookup.
    replace (kb +:+ "/" +:+ doc +:+ "/" +:+ page_content_name n)
      with ((kb +:+ "/" +:+ doc +:+ "/") +:+ page_content_name n)
      by by rewrite !append_assoc.
    by rewrite startswith_app. }
  split; [exact Hload|]. split.
  - intros a b. simpl. unfold FileSystem.values, S3FileSystem.load_page_content_range.
    by rewrite (bind_ok _ _ _ _ _ (range_loop_none _ a b w Hload)).
  - simpl. unfold FileSystem.paths, S3FileSystem.get_all_jpg_files. cbv zeta.
    rewrite client_made. unfold bind at 1. unfold try_except at 1. unfold bind at 1.
    unfold S3.list_objects_v2, S3.with_bucket. rewrite Hb, keys_without_prefix.
    reflexivity.
Qed.

(** X11.  After [delete_directory] nothing of the document is read any
    more: on either back end [load_page_content] answers [None] for every
    page and [load_page_content_range] the empty list for every range; the
    local [get_files] and the remote [get_all_jpg_files] answer the empty
    list.  (On the local back end for a directory of regular files, which
    is what the method can delete; on the remote one when the call returned
    fewer keys than one response can carry, so that the response listed
    them all.) *)
Theorem delete_directory_then_load `{JsonCodec} :
  (forall self kb doc w es,
      let fs := FileSystem.Local self in
      segment doc = true ->
      Os.stat (Py.join3 (LocalFileSystem.base_path self) kb doc) (disk w) = inr (Dir es) ->
      flat es ->
      exists w1,
        FileSystem.run fs (FileSystem.DeleteDirectory kb doc) w = (Ok JNull, w1)
        /\ (forall n,
              FileSystem.run fs (FileSystem.LoadPageContent kb doc n) w1 = (Ok JNull, w1))
        /\ (forall a b,
              FileSystem.run fs (FileSystem.LoadPageContentRange kb doc a b) w1
              = (Ok (JList []), w1))
        /\ (forall a b,
              FileSystem.run fs (FileSystem.GetFiles kb doc a b) w1 = (Ok (JList []), w1)))
  /\ (forall self kb doc w removed w1,
      let fs := FileSystem.Remote self in
      FileSystem.run fs (FileSystem.DeleteDirectory kb doc) w = (Ok (JList removed), w1) ->
      length removed < S3.max_keys ->
      (forall n,
          FileSystem.run fs (FileSystem.LoadPageContent kb doc n) w1 = (Ok JNull, w1))
      /\ (forall a b,
            FileSystem.run fs (FileSystem.LoadPageContentRange kb doc a b) w1
            = (Ok (JList []), w1))
      /\ FileSystem.run fs (FileSystem.GetAllJpgFiles kb doc) w1 = (Ok (JList []), w1)).
Proof.
  split.
  - intros self kb doc w es fs Hdoc Hst Hflat.
    destruct (local_delete_directory_flat self kb doc w es Hdoc Hst Hflat) as [Hdel Hgone].
    eexists. split.
    + simpl. unfold FileSystem.none. by rewrite (bind_ok _ _ _ _ _ Hdel).
    + by apply local_deleted_loads.
  - intros self kb doc w removed w1 fs Hdel Hlen.
    apply s3_delete_directory_inv in Hdel as (objs & Hb & Hs3 & _); [|done].
    apply (s3_deleted_loads self kb doc w1 objs).
    by rewrite Hs3, lookup_insert_eq.
Qed.

Lemma delete_directory_then_load_witness :
  let fs := FileSystem.Remote example_s3 in
  let w1 := snd (@FileSystem.run MiniJson.codec fs
                   (FileSystem.DeleteDirectory "kb" "doc") example_world) in
  @FileSystem.run MiniJson.codec fs (FileSystem.GetAllJpgFiles "kb" "doc") w1
  = (Ok (JList []), w1).
Proof.
  intros fs w1.
  apply (proj2 (@delete_directory_then_load MiniJson.codec) example_s3 "kb" "doc"
           example_world
           (map S3FileSystem.key_dict (S3.keys_with_prefix "kb/doc/" example_objects))
           w1).
  - vm_compute. reflexivity.
  - vm_compute. lia.
Defined.

(** ** An image with no page number in its name *)

Lemma sort_by_page_raise l w :
  Exists (fun x => page_key x = None) l ->
  exists msg, sort_by_page l w = (Raise (Exn ValueError msg), w).
Proof.
  intros Hl. destruct (keyed_raise l w Hl) as [msg Hk]. exists msg.
  unfold sort_by_page. by rewrite (bind_raise _ _ _ _ _ Hk).
Qed.

Lemma local_stray_image self kb doc w files :
  let dir := Py.join3 (LocalFileSystem.base_path self) kb doc in
  Os.listdir dir (disk w) = inr files ->
  Exists (fun f => LocalFileSystem.is_image_name f = true
                   /\ unnumbered (Py.join dir f)) files ->
  exists msg,
    LocalFileSystem.get_all_jpg_files self kb doc w = (Raise (Exn ValueError msg), w).
Proof.
  intros dir Hls Hstray. unfold LocalFileSystem.get_all_jpg_files. fold dir.
  rewrite (bind_ok _ _ _ _ _ (query_ok _ _ _ _ Hls)).
  apply sort_by_page_raise.
  apply Exists_exists in Hstray as (f & Hin & Himg & _ & Hkey).
  apply Exists_exists. exists (Py.join dir f). split; [|done].
  apply list_elem_of_fmap. exists f. split; [done|].
  apply list_elem_of_In, filter_In. split; [|done]. by apply list_elem_of_In.
Qed.

Lemma s3_stray_image `{JsonCodec} self kb doc w objs :
  let prefix := kb +:+ "/" +:+ doc +:+ "/" in
  let images := List.filter S3FileSystem.is_image_key (S3.keys_with_prefix prefix objs) in
  segment kb = true -> segment doc = true ->
  s3 w !! S3FileSystem.bucket_name self = Some objs ->
  length (S3.keys_with_prefix prefix objs) <= S3.max_keys ->
  mirror_ready (Py.join3 (S3FileSystem.base_path self) kb doc) (disk w) ->
  Forall (fun k => exists name, k = prefix +:+ name /\ segment name = true) images ->
  Exists (fun k => unnumbered (Py.join (S3FileSystem.base_path self) k)) images ->
  exists w',
    S3FileSystem.get_all_jpg_files self kb doc w = (Ok [], w') /\ s3 w' = s3 w.
Proof.
  intros prefix images Hkb Hdoc Hb Hlen (d1 & es & Hmk & Hg & Hflat) Himgs Hstray.
  subst images. unfold S3FileSystem.get_all_jpg_files. fold prefix. cbv zeta.
  rewrite client_made. unfold try_except at 1. unfold bind at 1.
  unfold S3.list_objects_v2, S3.with_bucket. rewrite Hb, take_ge by done.
  destruct (S3.keys_with_prefix prefix objs) as [|k0 ks] eqn:Ek.
  - simpl in Hstray. by apply Exists_nil in Hstray.
  - rewrite <- Ek in *. unfold ret at 1.
    rewrite (bind_ok _ _ _ _ _ (change_ok _ _ _ _ Hmk)).
    destruct (s3_download_loop self kb doc objs
                (List.filter S3FileSystem.is_image_key (S3.keys_with_prefix prefix objs))
                Hkb Hdoc) with
      (acc := @nil string) (w := set_disk d1 w) (es := es) as (w1 & Hloop & Hs1);
      [|done|done|done|].
    { apply Forall_forall. intros k Hkin. rewrite Forall_forall in Himgs.
      destruct (Himgs k Hkin) as (name & -> & Hname). split.
      - apply list_elem_of_In, filter_In in Hkin as [Hin _].
        apply list_elem_of_In in Hin.
        by apply keys_with_prefix_elem in Hin as [? _].
      - exists name. split; [|done]. unfold prefix. by rewrite !append_assoc. }
    cbv zeta in Hloop. rewrite (bind_ok _ _ _ _ _ Hloop). simpl app.
    destruct (sort_by_page_raise
                (map (Py.join (S3FileSystem.base_path self))
                   (List.filter S3FileSystem.is_image_key
                      (S3.keys_with_prefix prefix objs))) w1)
      as (msg & Hsort).
    { apply Exists_exists in Hstray as (k & Hkin & _ & Hkey).
      apply Exists_exists. exists (Py.join (S3FileSystem.base_path self) k).
      split; [|done]. apply list_elem_of_fmap. by exists k. }
    rewrite Hsort. unfold on_any, bind, print, ret. eexists. split; [reflexivity|].
    by simpl.
Qed.

(** X12.  One image file of the document whose name carries no page
    number (ASCII text whose part after the last underscore, up to the
    first dot, is no integer) is enough for [get_all_jpg_files] to answer
    no page at all: the local one raises the [ValueError] of [int], the
    remote one catches it and answers the empty list, the object store
    being as before (for a document of at most [max_keys] objects, which
    one response lists). *)
Theorem get_all_jpg_files_stray_image `{JsonCodec} :
  (forall self kb doc w files,
      let dir := Py.join3 (LocalFileSystem.base_path self) kb doc in
      Os.listdir dir (disk w) = inr files ->
      Exists (fun f => LocalFileSystem.is_image_name f = true
                       /\ unnumbered (Py.join dir f)) files ->
      exists msg,
        FileSystem.run (FileSystem.Local self) (FileSystem.GetAllJpgFiles kb doc) w
        = (Raise (Exn ValueError msg), w))
  /\ (forall self kb doc w objs,
      let prefix := kb +:+ "/" +:+ doc +:+ "/" in
      let images :=
        List.filter S3FileSystem.is_image_key (S3.keys_with_prefix prefix objs) in
      segment kb = true -> segment doc = true ->
      s3 w !! S3FileSystem.bucket_name self = Some objs ->
      length (S3.keys_with_prefix prefix objs) <= S3.max_keys ->
      mirror_ready (Py.join3 (S3FileSystem.base_path self) kb doc) (disk w) ->
      Forall (fun k => exists name, k = prefix +:+ name /\ segment name = true) images ->
      Exists (fun k => unnumbered (Py.join (S3FileSystem.base_path self) k)) images ->
      exists w',
        FileSystem.run (FileSystem.Remote self) (FileSystem.GetAllJpgFiles kb doc) w
        = (Ok (JList []), w')
        /\ s3 w' = s3 w).
Proof.
  split.
  - intros self kb doc w files dir Hls Hstray.
    destruct (local_stray_image self kb doc w files Hls Hstray) as [msg Hrun].
    exists msg. simpl. unfold FileSystem.paths. by rewrite (bind_raise _ _ _ _ _ Hrun).
  - intros self kb doc w objs prefix images Hkb Hdoc Hb Hlen Hready Himgs Hstray.
    destruct (s3_stray_image self kb doc w objs Hkb Hdoc Hb Hlen Hready Himgs Hstray)
      as (w' & Hrun & Hs3).
    exists w'. split; [|done]. simpl. unfold FileSystem.paths.
    by rewrite (bind_ok _ _ _ _ _ Hrun).
Qed.

Lemma get_all_jpg_files_stray_image_witness :
  let w := snd (Os.change "base/kb/doc/cover.jpg"
                  (Os.write_file "base/kb/doc/cover.jpg" "jpg") example_world) in
  let w2 := snd (S3.put_object "bucket" "kb/doc/cover.jpg" "jpg" example_world) in
  (exists msg,
     @FileSystem.run MiniJson.codec (FileSystem.Local example_local)
       (FileSystem.GetAllJpgFiles "kb" "doc") w
     = (Raise (Exn ValueError msg), w))
  /\ (exists w',
     @FileSystem.run MiniJson.codec (FileSystem.Remote example_s3)
       (FileSystem.GetAllJpgFiles "kb" "doc") w2
     = (Ok (JList []), w')
     /\ s3 w' = s3 w2).
Proof.
  intros w w2. split.
  - apply (proj1 (@get_all_jpg_files_stray_image MiniJson.codec) example_local "kb" "doc" w
             (match Os.listdir "base/kb/doc" (disk w) with inr l => l | inl _ => [] end)).
    + vm_compute. reflexivity.
    + apply Exists_exists. exists "cover.jpg". split.
      * apply list_elem_of_In. vm_compute. tauto.
      * split; [|split]; vm_compute; reflexivity.
  - apply (proj2 (@get_all_jpg_files_stray_image MiniJson.codec) example_s3 "kb" "doc" w2
             (<["kb/doc/cover.jpg" := "jpg"]> example_objects)).
    + reflexivity.
    + reflexivity.
    + vm_compute. reflexivity.
    + vm_compute. lia.
    + exists (Dir {[ "base" := Dir {[ "kb" := Dir {[ "doc" := dir_of example_files ]} ]};
                    "cache" := Dir {[ "kb" := Dir {[ "doc" := Dir ∅ ]} ]} ]}), ∅.
      split; [vm_compute; reflexivity|]. split; [vm_compute; reflexivity|].
      apply map_Forall_empty.
    + apply Forall_forall. intros k Hk. apply list_elem_of_In in Hk.
      vm_compute in Hk.
      repeat (destruct Hk as [<-|Hk];
              [eexists; split; [reflexivity|vm_compute; reflexivity]|]).
      destruct Hk.
    + apply Exists_exists. exists "kb/doc/cover.jpg". split.
      * apply list_elem_of_In. vm_compute. tauto.
      * split; vm_compute; reflexivity.
Defined.

(** ** More on the descriptor *)

Lemma from_dict_leaves config :
  snd (FileSystem.from_dict config) = delete "subclass_name" config.
Proof.
  unfold FileSystem.from_dict. cbv zeta.
  destruct (default JNull (config !! "subclass_name")) as [| | | |name| |]; try done.
  by destruct (FileSystem.subclasses !! name).
Qed.

(** X13.  [from_dict] takes [subclass_name] out of the dictionary it is
    given: whatever the first call did, a second call on the same
    dictionary finds no class name and raises the [ValueError] for
    [None]. *)
Theorem from_dict_consumes (config : gmap string json) :
  let left := snd (FileSystem.from_dict config) in
  left = delete "subclass_name" config
  /\ FileSystem.from_dict left
     = (Raise (Exn ValueError "Unknown subclass: None"), left).
Proof.
  cbv zeta. rewrite from_dict_leaves. split; [done|].
  unfold FileSystem.from_dict. cbv zeta. rewrite lookup_delete_eq. simpl.
  by rewrite delete_delete_eq.
Qed.

(** X14.  The two table names of a remote instance, which [to_dict]
    leaves out, can be given to [from_dict] beside the fields of the
    descriptor: the instance it then makes is the original one, with all
    its fields. *)
Theorem from_dict_with_tables (fs : S3FileSystem.t) :
  fst (FileSystem.from_dict (with_tables fs)) = Ok (FileSystem.Remote fs).
Proof.
  destruct fs as [b bk r a s e d1 d2].
  rewrite (from_dict_registered _ "S3FileSystem" FileSystem.S3FileSystemClass);
    [|by unfold with_tables, FileSystem.to_dict, S3FileSystem.to_dict; desc_lookup
     |apply subclasses_s3].
  unfold with_tables. simpl FileSystem.to_dict. unfold S3FileSystem.to_dict. simpl.
  rewrite construct_ok.
  - simpl. unfold S3FileSystem.attributes. simpl. desc_lookup.
    by destruct e, d1, d2.
  - simpl. unfold FileSystem.s3_params.
    rewrite dom_delete_L, !dom_insert_L, dom_singleton_L. set_solver.
  - unfold FileSystem.required_parameters, FileSystem.s3_required.
    repeat constructor; desc_lookup; eauto.
Qed.

Lemma from_dict_ok_inv config obj :
  fst (FileSystem.from_dict config) = Ok obj ->
  exists cls,
    config !! "subclass_name" = Some (JStr (FileSystem.class_name cls))
    /\ FileSystem.construct cls (delete "subclass_name" config) = Ok obj.
Proof.
  unfold FileSystem.from_dict. cbv zeta.
  destruct (config !! "subclass_name") as [[| | | |name| |]|] eqn:En; simpl; try done.
  destruct (FileSystem.subclasses !! name) as [cls|] eqn:Ec; simpl; [|done].
  intros Hc. exists cls. by rewrite (subclasses_lookup _ _ Ec).
Qed.

Lemma construct_ok_inv cls config obj :
  FileSystem.construct cls config = Ok obj ->
  dom config ⊆ FileSystem.parameters cls
  /\ Forall (fun k => is_Some (config !! k)) (FileSystem.required_parameters cls)
  /\ obj = FileSystem.Instance cls
             (FileSystem.init cls (fun k => default JNull (config !! k))).
Proof.
  intros Hc.
  destruct (decide (dom config ⊆ FileSystem.parameters cls
                    /\ Forall (fun k => is_Some (config !! k))
                         (FileSystem.required_parameters cls))) as [[Hdom Hreq]|Hno].
  - rewrite construct_ok in Hc by done. by injection Hc as <-.
  - apply construct_raise in Hno as [msg Hr]. congruence.
Qed.

(** X15.  [from_dict] makes an object from a dictionary that fits the
    constructor only.  When it answers an object, the dictionary named the
    class of the object under [subclass_name], held besides that no key
    that is not a parameter of the constructor of the class, and held
    every parameter without a default; and each attribute of the object
    is the value the dictionary held for it, of whatever type, [None] for
    a parameter it did not hold. *)
Theorem from_dict_describes (config : gmap string json) (obj : FileSystem.instance) :
  fst (FileSystem.from_dict config) = Ok obj ->
  let cls := FileSystem.instance_class obj in
  config !! "subclass_name" = Some (JStr (FileSystem.class_name cls))
  /\ dom config ⊆ {[ "subclass_name" ]} ∪ FileSystem.parameters cls
  /\ Forall (fun k => is_Some (config !! k)) (FileSystem.required_parameters cls)
  /\ dom (FileSystem.attributes obj) = FileSystem.parameters cls
  /\ forall k, k ∈ FileSystem.parameters cls ->
       FileSystem.attributes obj !! k = Some (default JNull (config !! k)).
Proof.
  intros (cls & Hname & Hc)%from_dict_ok_inv.
  apply construct_ok_inv in Hc as (Hdom & Hreq & ->). simpl.
  split; [done|]. split; [|split; [|split]].
  - rewrite dom_delete_L in Hdom. intros k Hk.
    destruct (decide (k = "subclass_name")) as [->|Hne]; [set_solver|].
    apply elem_of_union_r. apply Hdom. set_solver.
  - eapply Forall_impl; [exact Hreq|]. intros k [v Hk]. exists v.
    apply lookup_delete_Some in Hk. tauto.
  - apply init_attributes.
  - intros k Hk. rewrite (proj2 (init_attributes _ _) k Hk). simpl.
    destruct (decide (k = "subclass_name")) as [->|Hne].
    + destruct cls; simpl in Hk; unfold FileSystem.local_params, FileSystem.s3_params in Hk;
        set_solver.
    + by rewrite lookup_delete_ne.
Qed.

Lemma from_dict_describes_witness :
  let config : gmap string json :=
    {[ "subclass_name" := JStr "LocalFileSystem"; "base_path" := JInt 5 ]} in
  let obj := FileSystem.Instance FileSystem.LocalFileSystemClass
               {[ "base_path" := JInt 5 ]} in
  fst (FileSystem.from_dict config) = Ok obj
  /\ dom config ⊆ {[ "subclass_name" ]} ∪ FileSystem.local_params
  /\ FileSystem.attributes obj !! "base_path" = Some (default JNull (config !! "base_path")).
Proof.
  intros config obj.
  assert (Hrun : fst (FileSystem.from_dict config) = Ok obj) by (vm_compute; reflexivity).
  split; [exact Hrun|].
  destruct (from_dict_describes config obj Hrun) as (_ & Hdom & _ & _ & Hattr).
  split; [exact Hdom|]. apply Hattr. simpl. unfold FileSystem.local_params. set_solver.
Defined.

(** ** What the remote [get_files] leaves on the local disk *)

Lemma read_write_other_at p q cs x y data d d1 :
  Os.components p = (cs ++ [x])%list -> Os.components q = (cs ++ [y])%list ->
  x <> y -> p <> "" ->
  Os.write_file p data d = inr d1 -> Os.read_file q d1 = Os.read_file q d.
Proof.
  intros Hp Hq Hxy Hne. unfold Os.write_file, Os.update_path.
  rewrite (proj2 (String.eqb_neq _ "") Hne), Hp. intros Hu.
  unfold Os.read_file, Os.stat. rewrite Hq.
  by rewrite (get_update_other _ x y _ d d1 Hxy Hu).
Qed.

Lemma read_file_inv q d body :
  Os.read_file q d = inr body -> Os.get (Os.components q) d = inr (File body).
Proof.
  unfold Os.read_file. destruct (Os.stat q d) as [e|[x|es]] eqn:Hst; try done.
  intros [= ->]. by apply stat_inv in Hst as [_ Hg].
Qed.

Lemma mirrored_nil self kb doc objs d : mirrored self kb doc objs d [].
Proof. split; constructor. Qed.

Lemma mirrored_makedirs self kb doc objs d d1 hits :
  segment kb = true -> segment doc = true ->
  Os.makedirs (Py.join3 (S3FileSystem.base_path self) kb doc) true d = inr d1 ->
  mirrored self kb doc objs d hits -> mirrored self kb doc objs d1 hits.
Proof.
  intros Hkb Hdoc Hmk [Hdown Hexts]. destruct hits as [|hit hits]; [apply mirrored_nil|].
  assert (Hsame : d1 = d).
  { apply Forall_cons in Hdown as [(body & _ & Hread) _].
    apply Forall_cons in Hexts as [Hext _].
    apply read_file_inv in Hread. unfold s3_page_path, s3_page_key in Hread.
    destruct (s3_path_components (S3FileSystem.base_path self) kb doc
                (page_name (fst hit) (snd hit)) Hkb Hdoc
                (page_name_segment _ _ Hext)) as (Hc & _ & _).
    rewrite Hc in Hread. apply get_snoc_inv in Hread as (es & Hg & _).
    unfold Os.makedirs in Hmk.
    destruct (String.eqb _ ""); [done|].
    rewrite (makedirs_existing _ _ _ Hg) in Hmk. by injection Hmk. }
  by rewrite Hsame.
Qed.

Lemma mirrored_write self kb doc objs d d2 hits i ext body :
  segment kb = true -> segment doc = true -> no_char "/" ext = true ->
  objs !! s3_page_key kb doc (i, ext) = Some body ->
  Os.write_file (s3_page_path self kb doc (i, ext)) body d = inr d2 ->
  mirrored self kb doc objs d hits ->
  mirrored self kb doc objs d2 (hits ++ [(i, ext)]).
Proof.
  intros Hkb Hdoc Hext Hobj Hw [Hdown Hexts].
  destruct (s3_path_components (S3FileSystem.base_path self) kb doc (page_name i ext)
              Hkb Hdoc (page_name_segment i ext Hext)) as (Hc & Hpne & _).
  split.
  - apply Forall_app. split.
    + apply Forall_forall. intros hit Hin.
      destruct (proj1 (Forall_forall _ _) Hdown hit Hin) as (b & Hb & Hread).
      pose proof (proj1 (Forall_forall _ _) Hexts hit Hin) as Hhext.
      exists b. split; [done|].
      destruct (decide (page_name (fst hit) (snd hit) = page_name i ext)) as [Heq|Hne].
      * unfold s3_page_key in Hb, Hobj. simpl in Hobj. rewrite Heq, Hobj in Hb.
        injection Hb as <-. unfold s3_page_path, s3_page_key. rewrite Heq.
        by apply (write_read _ _ _ _ Hw).
      * rewrite <- Hread.
        destruct (s3_path_components (S3FileSystem.base_path self) kb doc
                    (page_name (fst hit) (snd hit)) Hkb Hdoc
                    (page_name_segment _ _ Hhext)) as (Hc' & _ & _).
        assert (Hne' : page_name i ext <> page_name (fst hit) (snd hit)) by by intros E.
        exact (read_write_other_at _ _ _ _ _ _ _ _ Hc Hc' Hne' Hpne Hw).
    + constructor; [|constructor]. exists body. split; [done|].
      by apply (write_read _ _ _ _ Hw).
  - apply Forall_app. split; [done|]. by repeat constructor.
Qed.

Lemma s3_first_downloaded_mirror self kb doc i objs hits :
  segment kb = true -> segment doc = true ->
  forall exts acc w,
    Forall (fun ext => no_char "/" ext = true) exts ->
    s3 w !! S3FileSystem.bucket_name self = Some objs ->
    mirror_ready (Py.join3 (S3FileSystem.base_path self) kb doc) (disk w) ->
    mirrored self kb doc objs (disk w) hits ->
    exists w',
      S3FileSystem.first_downloaded self kb doc i exts acc w
      = (Ok match List.find (s3_found objs kb doc i) exts with
            | Some ext => (true, (acc ++ [s3_page_path self kb doc (i, ext)])%list)
            | None => (false, acc)
            end, w')
      /\ s3 w' = s3 w
      /\ mirror_ready (Py.join3 (S3FileSystem.base_path self) kb doc) (disk w')
      /\ mirrored self kb doc objs (disk w')
           (hits ++ match List.find (s3_found objs kb doc i) exts with
                    | Some ext => [(i, ext)]
                    | None => []
                    end).
Proof.
  intros Hkb Hdoc. induction exts as [|ext exts IH]; intros acc w Hexts Hb Hready Hmir.
  - exists w. simpl. rewrite app_nil_r. split; [done|]. split; [done|]. by split.
  - apply Forall_cons in Hexts as [Hext Hexts].
    destruct Hready as (d1 & es & Hmk & Hg & Hflat).
    pose proof (mirror_ready_nonempty _ _ (ex_intro _ d1 (ex_intro _ es (conj Hmk (conj Hg Hflat)))))
      as Hne.
    pose proof (mirrored_makedirs self kb doc objs _ d1 hits Hkb Hdoc Hmk Hmir) as Hmir1.
    simpl S3FileSystem.first_downloaded. cbv zeta.
    rewrite (ensure_folder_then _ w d1 _ Hmk).
    destruct (s3_path_components (S3FileSystem.base_path self) kb doc (page_name i ext)
                Hkb Hdoc (page_name_segment i ext Hext)) as (Hc & Hpne & Hpe).
    simpl List.find.
    change (s3_found objs kb doc i ext)
      with (bool_decide
              (is_Some (objs !! (kb +:+ "/" +:+ doc +:+ "/" +:+ page_name i ext)))).
    assert (Hcase : (exists body,
                        objs !! (kb +:+ "/" +:+ doc +:+ "/" +:+ page_name i ext) = Some body)
                    \/ objs !! (kb +:+ "/" +:+ doc +:+ "/" +:+ page_name i ext) = None).
    { destruct (objs !! _); eauto. }
    destruct Hcase as [[body Ek]|Ek].
    + rewrite !bool_decide_eq_true_2 by eauto.
      pose proof (write_into_flat _ _ _ body d1 es Hc Hpne Hpe Hg Hflat) as Hw.
      rewrite (bind_ok _ _ _ _ _
        (download_found _ _ _ body (set_disk d1 w) objs _ Hb Ek Hw)).
      eexists. split; [reflexivity|]. split; [done|]. simpl. split.
      * apply (mirror_ready_dir _ _ (<[page_name i ext := File body]> es) Hne).
        -- by apply (get_subst _ _ _ _ Hg).
        -- apply flat_insert_file; [done|]. by apply page_name_segment.
      * by apply (mirrored_write self kb doc objs d1 _ hits i ext body).
    + rewrite !bool_decide_eq_false_2 by (rewrite Ek; by intros [? ?]).
      rewrite (bind_ok _ _ _ _ _
        (download_missing _ _ _ (set_disk d1 w) objs Hb Ek)).
      destruct (IH acc (set_disk d1 w) Hexts Hb) as (w' & Hrun & Hs & Hr & Hm).
      { simpl. by apply (mirror_ready_dir _ _ es Hne). }
      { exact Hmir1. }
      exists w'. exact (conj Hrun (conj Hs (conj Hr Hm))).
Qed.

Lemma s3_pages_loop_mirror self kb doc objs pages :
  segment kb = true -> segment doc = true ->
  forall acc hits w,
    s3 w !! S3FileSystem.bucket_name self = Some objs ->
    mirror_ready (Py.join3 (S3FileSystem.base_path self) kb doc) (disk w) ->
    mirrored self kb doc objs (disk w) hits ->
    exists w',
      for_fold pages acc
        (fun i file_paths =>
           r <- S3FileSystem.first_downloaded self kb doc i extensions file_paths ;;
           (if fst r then ret tt
            else print ("Warning: No image file found for page "
                        +:+ Py.str_of_int i +:+ " in S3")) ;;;
           ret (snd r)) w
      = (Ok (acc ++ map (s3_page_path self kb doc)
               (omap (fun i => option_map (fun ext => (i, ext))
                                 (chosen_extension (s3_found objs kb doc i)))
                  pages))%list, w')
      /\ mirrored self kb doc objs (disk w')
           (hits ++ omap (fun i => option_map (fun ext => (i, ext))
                                     (chosen_extension (s3_found objs kb doc i)))
                      pages).
Proof.
  intros Hkb Hdoc. induction pages as [|i pages IH]; intros acc hits w Hb Hready Hmir.
  - exists w. simpl. unfold ret. by rewrite !app_nil_r.
  - destruct (s3_first_downloaded_mirror self kb doc i objs hits Hkb Hdoc extensions acc w
                extensions_no_slash Hb Hready Hmir) as (w1 & Hrun & Hs1 & Hr1 & Hm1).
    rewrite for_fold_cons. cbv beta. unfold bind at 1. unfold bind at 1. rewrite Hrun.
    fold (chosen_extension (s3_found objs kb doc i)) in *.
    destruct (chosen_extension (s3_found objs kb doc i)) as [ext|] eqn:E;
      cbv beta iota.
    + destruct (IH (acc ++ [s3_page_path self kb doc (i, ext)])%list
                  (hits ++ [(i, ext)])%list w1)
        as (w' & Hloop & Hm'); [by rewrite Hs1|done|done|].
      exists w'.
      rewrite (omap_cons_some _ i pages (i, ext)) by by rewrite E.
      split.
      * rewrite <- app_assoc in Hloop. exact Hloop.
      * rewrite <- app_assoc in Hm'. exact Hm'.
    + destruct (IH acc hits (add_stdout ("Warning: No image file found for page "
                                    +:+ Py.str_of_int i +:+ " in S3") w1))
        as (w' & Hloop & Hm'); [simpl; by rewrite Hs1|exact Hr1| |].
      { rewrite app_nil_r in Hm1. exact Hm1. }
      exists w'.
      rewrite (omap_cons_none _ i pages) by by rewrite E.
      by split.
Qed.

(** X16.  What the remote [get_files] answers is on the local disk when
    it returns: for every page it found, the path it answers for the page
    is a regular file that holds the bytes of the object of that page.
    (The bucket is there, and the mirror folder of the document is there
    or can be made, and holds regular files only.) *)
Theorem get_files_mirror `{JsonCodec} (self : S3FileSystem.t) kb doc a b w objs :
  segment kb = true -> segment doc = true ->
  s3 w !! S3FileSystem.bucket_name self = Some objs ->
  mirror_ready (Py.join3 (S3FileSystem.base_path self) kb doc) (disk w) ->
  let hits := page_hits (s3_found objs kb doc) a b in
  exists w',
    FileSystem.run (FileSystem.Remote self)
      (FileSystem.GetFiles kb doc (Some a) (Some b)) w
    = (Ok (JList (map JStr (map (s3_page_path self kb doc) hits))), w')
    /\ downloaded self kb doc objs (disk w') hits.
Proof.
  intros Hkb Hdoc Hb Hready hits.
  destruct (s3_pages_loop_mirror self kb doc objs (Py.range_incl a b) Hkb Hdoc [] [] w
              Hb Hready (mirrored_nil _ _ _ _ _)) as (w' & Hrun & [Hdown _]).
  exists w'. split; [|exact Hdown].
  simpl. unfold FileSystem.paths, S3FileSystem.get_files.
  by rewrite (bind_ok _ _ _ _ _ Hrun).
Qed.

Lemma get_files_mirror_witness :
  exists w',
    @FileSystem.run MiniJson.codec (FileSystem.Remote example_s3)
      (FileSystem.GetFiles "kb" "doc" (Some 1%Z) (Some 2%Z)) example_world
    = (Ok (JList (map JStr (map (s3_page_path example_s3 "kb" "doc")
                              (page_hits (s3_found example_objects "kb" "doc") 1 2)))),
       w')
    /\ downloaded example_s3 "kb" "doc" example_objects (disk w')
         (page_hits (s3_found example_objects "kb" "doc") 1 2).
Proof.
  apply (@get_files_mirror MiniJson.codec example_s3 "kb" "doc" 1%Z 2%Z
           example_world example_objects).
  - reflexivity.
  - reflexivity.
  - vm_compute. reflexivity.
  - exists (Dir {[ "base" := Dir {[ "kb" := Dir {[ "doc" := dir_of example_files ]} ]};
                  "cache" := Dir {[ "kb" := Dir {[ "doc" := Dir ∅ ]} ]} ]}), ∅.
    split; [vm_compute; reflexivity|]. split; [vm_compute; reflexivity|].
    apply map_Forall_empty.
Defined.

(** ** A directory inside the directory of a document *)

(** The loop of [clear_directory] stops at the first entry that is a
    directory: [os.remove] raises for it, and it is still there. *)
Lemma remove_loop_nested p cs l :
  forall es w,
    NoDup l ->
    (forall f, f ∈ l -> segment f = true /\ is_Some (es !! f)) ->
    (exists f sub, f ∈ l /\ es !! f = Some (Dir sub)) ->
    Os.components p = cs -> Os.get cs (disk w) = inr (Dir es) ->
    exists name sub w1 es1,
      for_each l (fun file =>
        let pf := Py.join p file in Os.change pf (Os.remove pf)) w
      = (Raise (Os.os_error Os.EISDIR (Py.join p name)), w1)
      /\ es !! name = Some (Dir sub)
      /\ Os.get cs (disk w1) = inr (Dir es1)
      /\ es1 !! name = Some (Dir sub).
Proof.
  induction l as [|f l IH]; intros es w Hnd Hl Hdir Hc Hg.
  - destruct Hdir as (f & sub & Hin & _). by apply elem_of_nil in Hin.
  - apply NoDup_cons in Hnd as [Hf Hnd].
    destruct (Hl f) as [Hseg [n Hn]]; [by left|].
    assert (Hup : forall F,
      Os.update_path (Py.join p f) F (disk w)
      = match F (es !! f) with
        | inl e => inl e
        | inr o => inr (subst cs (Dir (Os.set_entry f o es)) (disk w))
        end).
    { intros F. apply update_path_snoc; [by apply join_segment_nonempty| |done].
      by rewrite components_join_segment, Hc. }
    simpl for_each. destruct n as [x|sub].
    + assert (Hrm : Os.remove (Py.join p f) (disk w)
                    = inr (subst cs (Dir (delete f es)) (disk w))).
      { unfold Os.remove. rewrite Hup, Hn. by rewrite join_segment_not_dir. }
      rewrite (bind_ok _ _ _ _ _ (change_ok _ _ _ _ Hrm)).
      destruct (IH (delete f es)
                  (set_disk (subst cs (Dir (delete f es)) (disk w)) w))
        as (name & sub & w1 & es1 & Hrun & Hname & Hg1 & Hes1); [done| | |done| |].
      * intros g Hgl. destruct (Hl g) as [? [m Hm]]; [by right|].
        split; [done|]. exists m. rewrite lookup_delete_ne; [done|]. by intros ->.
      * destruct Hdir as (g & sub & Hgin & Hgd).
        apply elem_of_cons in Hgin as [->|Hgin]; [congruence|].
        exists g, sub. split; [done|]. rewrite lookup_delete_ne; [done|]. by intros ->.
      * simpl. by apply (get_subst _ _ _ _ Hg).
      * exists name, sub, w1, es1. split; [done|]. split; [|done].
        by apply lookup_delete_Some in Hname as [_ ?].
    + assert (Hrm : Os.remove (Py.join p f) (disk w) = inl Os.EISDIR).
      { unfold Os.remove. by rewrite Hup, Hn. }
      rewrite (bind_raise _ _ _ _ _ (change_raise _ _ _ _ Hrm)).
      by exists f, sub, w, es.
Qed.

(** X17.  The local [delete_directory] removes regular files only.  When
    the directory of the document holds a directory, the call raises the
    [IsADirectoryError] of [os.remove] for one such entry, and the
    directory of the document and that entry are still there. *)
Theorem delete_directory_nested `{JsonCodec} (self : LocalFileSystem.t) kb doc w es :
  let p := Py.join3 (LocalFileSystem.base_path self) kb doc in
  Os.stat p (disk w) = inr (Dir es) ->
  map_Forall (fun name _ => segment name = true) es ->
  (exists name sub, es !! name = Some (Dir sub)) ->
  exists name sub w1,
    es !! name = Some (Dir sub)
    /\ FileSystem.run (FileSystem.Local self) (FileSystem.DeleteDirectory kb doc) w
       = (Raise (Os.os_error Os.EISDIR (Py.join p name)), w1)
    /\ exn_cls (Os.os_error Os.EISDIR (Py.join p name)) = IsADirectoryError
    /\ Os.isdir p (disk w1) = true
    /\ Os.isdir (Py.join p name) (disk w1) = true.
Proof.
  intros p Hst Hnames (g & gsub & Hgd).
  pose proof Hst as Hst0. apply stat_inv in Hst as [Hp Hg].
  assert (Hls : Os.listdir p (disk w) = inr (map fst (map_to_list es))).
  { unfold Os.listdir. by rewrite Hst0. }
  destruct (remove_loop_nested p (Os.components p) (map fst (map_to_list es)) es w)
    as (name & sub & w1 & es1 & Hrun & Hname & Hg1 & Hes1); [| | |done|done|].
  { apply NoDup_fst_map_to_list. }
  { intros f [[f' n] [-> Hin]]%list_elem_of_fmap. simpl.
    apply elem_of_map_to_list in Hin. split; [by apply (Hnames _ _ Hin)|eauto]. }
  { exists g, gsub. split; [|done]. apply list_elem_of_fmap. exists (g, Dir gsub).
    split; [done|]. by apply elem_of_map_to_list. }
  assert (Hseg : segment name = true) by by apply (Hnames _ _ Hname).
  exists name, sub, w1. split; [done|]. split; [|split; [done|split]].
  - assert (Hclear : LocalFileSystem.clear_directory p w
                     = (Raise (Os.os_error Os.EISDIR (Py.join p name)), w1)).
    { unfold LocalFileSystem.clear_directory.
      rewrite (bind_ok _ _ _ _ _ (query_ok _ _ _ _ Hls)).
      by rewrite (bind_raise _ _ _ _ _ Hrun). }
    simpl. unfold FileSystem.none. apply bind_raise.
    unfold LocalFileSystem.delete_directory. fold p. unfold bind. rewrite !test_run.
    unfold Os.path_exists, Os.isdir. rewrite Hst0. simpl. exact Hclear.
  - unfold Os.isdir. by rewrite (stat_dir p _ es1 Hp Hg1).
  - unfold Os.isdir. rewrite (stat_dir _ _ sub); [done|by apply join_segment_nonempty|].
    rewrite (components_join_segment p name Hseg), get_app, Hg1. simpl.
    by rewrite Hes1.
Qed.

Lemma delete_directory_nested_witness :
  let w := World (Dir {[ "base" := Dir {[ "kb" := Dir {[ "doc" :=
                   Dir {[ "sub" := Dir ∅ ]} ]} ]} ]}) ∅ ∅ [] "" in
  exists name sub w1,
    ({[ "sub" := Dir ∅ ]} : gmap string node) !! name = Some (Dir sub)
    /\ @FileSystem.run MiniJson.codec (FileSystem.Local example_local)
         (FileSystem.DeleteDirectory "kb" "doc") w
       = (Raise (Os.os_error Os.EISDIR (Py.join "base/kb/doc" name)), w1)
    /\ exn_cls (Os.os_error Os.EISDIR (Py.join "base/kb/doc" name)) = IsADirectoryError
    /\ Os.isdir "base/kb/doc" (disk w1) = true
    /\ Os.isdir (Py.join "base/kb/doc" name) (disk w1) = true.
Proof.
  intros w.
  apply (@delete_directory_nested MiniJson.codec example_local "kb" "doc" w
           {[ "sub" := Dir ∅ ]}).
  - vm_compute. reflexivity.
  - by apply map_Forall_singleton.
  - exists "sub", ∅. by rewrite lookup_singleton_eq.
Defined.

(** ** The two tests for an image *)

Lemma lower_app a b : Py.lower (a +:+ b) = Py.lower a +:+ Py.lower b.
Proof.
  induction a as [|x a IH]; rewrite ?app_nil_l, ?app_cons; simpl; [done|].
  by rewrite IH, app_cons.
Qed.

Lemma endswith_lower s suf :
  Py.lower suf = suf -> Py.endswith s suf = true -> Py.endswith (Py.lower s) suf = true.
Proof.
  intros Hsuf [a ->]%endswith_inv. rewrite lower_app, Hsuf. apply endswith_app.
Qed.

(** X18.  A name the local [get_all_jpg_files] takes for an image is one
    for the remote [get_all_jpg_files] too: the remote test is the local
    one on the lower-case form of the name, and the three extensions are
    lower-case. *)
Theorem image_test_case (name : string) :
  LocalFileSystem.is_image_name name = true -> S3FileSystem.is_image_key name = true.
Proof.
  unfold LocalFileSystem.is_image_name, S3FileSystem.is_image_key. cbv zeta.
  rewrite !orb_true_iff. intros [[Hj|Hj]|Hj].
  - left. left. by apply endswith_lower.
  - left. right. by apply endswith_lower.
  - right. by apply endswith_lower.
Qed.

Lemma image_test_case_witness : S3FileSystem.is_image_key "page_3.jpeg" = true.
Proof. apply (image_test_case "page_3.jpeg"). reflexivity. Defined.

(** The converse fails: an extension in capitals is one for the remote
    back end only. *)
Example image_test_capitals :
  S3FileSystem.is_image_key "PAGE_1.JPG" = true
  /\ LocalFileSystem.is_image_name "PAGE_1.JPG" = false.
Proof. by split. Qed.

(** ** A saved page image is found *)

Lemma range_incl_one n : Py.range_incl n n = [n].
Proof.
  unfold Py.range_incl. replace (n + 1 - n)%Z with 1%Z by lia.
  rewrite seqZ_cons by lia. by rewrite seqZ_nil by lia.
Qed.

Lemma chosen_extension_found found ext :
  In ext extensions -> found ext = true ->
  exists ext', chosen_extension found = Some ext' /\ In ext' extensions
               /\ (ext = ".jpg" -> ext' = ".jpg").
Proof.
  intros Hin Hf. unfold chosen_extension.
  destruct (List.find found extensions) as [ext'|] eqn:E.
  - exists ext'. split; [done|]. split; [by apply find_some in E as [? _]|].
    intros ->. unfold extensions in E. simpl in E. rewrite Hf in E. by injection E.
  - by rewrite (find_none _ _ E _ Hin) in Hf.
Qed.

Lemma page_hits_one found n ext' :
  chosen_extension (found n) = Some ext' -> page_hits found n n = [(n, ext')].
Proof. intros Hc. unfold page_hits. rewrite range_incl_one. simpl. by rewrite Hc. Qed.

Lemma local_save_image_get_files self kb doc n ext img w w1 :
  In ext extensions ->
  LocalFileSystem.save_image self kb doc (page_name n ext) img w = (Ok tt, w1) ->
  exists ext',
    In ext' extensions /\ (ext = ".jpg" -> ext' = ".jpg")
    /\ LocalFileSystem.get_files self kb doc (Some n) (Some n) w1
       = (Ok [local_page_path self kb doc (n, ext')], w1).
Proof.
  intros Hext Hsave. unfold LocalFileSystem.save_image in Hsave. cbv zeta in Hsave.
  destruct (save_to_path img _) as [bytes|]; [|done].
  apply change_inv in Hsave as (d1 & Hw & ->). apply write_read in Hw.
  destruct (chosen_extension_found (local_found self kb doc d1 n) ext Hext)
    as (ext' & Hc & Hin & Hjpg).
  { unfold local_found, local_page_path, Os.path_exists. simpl.
    unfold Os.read_file, Py.join4 in Hw.
    by destruct (Os.stat _ d1). }
  exists ext'. split; [done|]. split; [done|].
  rewrite local_get_files. simpl disk. by rewrite (page_hits_one _ n ext' Hc).
Qed.

Lemma s3_save_image_inv self kb doc file_name img w w1 :
  S3FileSystem.save_image self kb doc file_name img w = (Ok tt, w1) ->
  exists objs buffer,
    save_to_format img "JPEG" = Some buffer
    /\ s3 w !! S3FileSystem.bucket_name self = Some objs
    /\ s3 w1 = <[S3FileSystem.bucket_name self
                 := <[kb +:+ "/" +:+ doc +:+ "/" +:+ file_name := buffer]> objs]> (s3 w)
    /\ disk w1 = disk w.
Proof.
  unfold S3FileSystem.save_image. cbv zeta. intros Hsave.
  destruct (save_to_format img "JPEG") as [buffer|]; [|done].
  apply try_except_inv_ok in Hsave.
  2:{ intros e k w' [= <-]. eexists. reflexivity. }
  apply bind_ok_inv in Hsave as ([] & w' & Hput & Hprint).
  apply put_object_inv in Hput as (objs & Hb & ->).
  exists objs, buffer. unfold print in Hprint. injection Hprint as <-. by repeat split.
Qed.

Lemma s3_save_image_get_files self kb doc n ext img w w1 :
  In ext extensions -> segment kb = true -> segment doc = true ->
  mirror_ready (Py.join3 (S3FileSystem.base_path self) kb doc) (disk w) ->
  S3FileSystem.save_image self kb doc (page_name n ext) img w = (Ok tt, w1) ->
  exists ext' w2,
    In ext' extensions /\ (ext = ".jpg" -> ext' = ".jpg")
    /\ S3FileSystem.get_files self kb doc (Some n) (Some n) w1
       = (Ok [s3_page_path self kb doc (n, ext')], w2)
    /\ s3 w2 = s3 w1.
Proof.
  intros Hext Hkb Hdoc Hready (objs & buffer & Hbuf & Hb & Hs3 & Hdisk)%s3_save_image_inv.
  set (objs' := <[kb +:+ "/" +:+ doc +:+ "/" +:+ page_name n ext := buffer]> objs) in *.
  destruct (chosen_extension_found (s3_found objs' kb doc n) ext Hext)
    as (ext' & Hc & Hin & Hjpg).
  { unfold s3_found, s3_page_key. simpl. apply bool_decide_eq_true_2.
    unfold objs'. rewrite lookup_insert_eq. by eauto. }
  destruct (s3_get_files self kb doc n n w1 objs' Hkb Hdoc) as (w2 & Hrun & Hs2).
  { by rewrite Hs3, lookup_insert_eq. }
  { by rewrite Hdisk. }
  exists ext', w2. split; [done|]. split; [done|]. split; [|done].
  by rewrite Hrun, (page_hits_one _ n ext' Hc).
Qed.

(** X19.  A page image saved with [save_image] under the name of page
    [n], with one of the three extensions, is found by [get_files]: for
    the range from [n] to [n] it answers one path, that of an image of
    page [n], and that of the saved one when the extension is [.jpg], the
    first [get_files] tries.  (On the remote back end with the mirror
    folder there or makeable.) *)
Theorem save_image_get_files `{JsonCodec} n ext img kb doc w w1 :
  In ext extensions ->
  (forall self,
      FileSystem.run (FileSystem.Local self)
        (FileSystem.SaveImage kb doc (page_name n ext) img) w = (Ok JNull, w1) ->
      exists ext',
        In ext' extensions /\ (ext = ".jpg" -> ext' = ".jpg")
        /\ FileSystem.run (FileSystem.Local self)
             (FileSystem.GetFiles kb doc (Some n) (Some n)) w1
           = (Ok (JList [JStr (local_page_path self kb doc (n, ext'))]), w1))
  /\ (forall self,
      segment kb = true -> segment doc = true ->
      mirror_ready (Py.join3 (S3FileSystem.base_path self) kb doc) (disk w) ->
      FileSystem.run (FileSystem.Remote self)
        (FileSystem.SaveImage kb doc (page_name n ext) img) w = (Ok JNull, w1) ->
      exists ext' w2,
        In ext' extensions /\ (ext = ".jpg" -> ext' = ".jpg")
        /\ FileSystem.run (FileSystem.Remote self)
             (FileSystem.GetFiles kb doc (Some n) (Some n)) w1
           = (Ok (JList [JStr (s3_page_path self kb doc (n, ext'))]), w2)
        /\ s3 w2 = s3 w1).
Proof.
  intros Hext. split.
  - intros self Hsave%none_ok_inv.
    destruct (local_save_image_get_files self kb doc n ext img w w1 Hext Hsave)
      as (ext' & Hin & Hjpg & Hrun).
    exists ext'. split; [done|]. split; [done|]. simpl. unfold FileSystem.paths.
    by rewrite (bind_ok _ _ _ _ _ Hrun).
  - intros self Hkb Hdoc Hready Hsave%none_ok_inv.
    destruct (s3_save_image_get_files self kb doc n ext img w w1 Hext Hkb Hdoc Hready Hsave)
      as (ext' & w2 & Hin & Hjpg & Hrun & Hs).
    exists ext', w2. split; [done|]. split; [done|]. split; [|done].
    simpl. unfold FileSystem.paths. by rewrite (bind_ok _ _ _ _ _ Hrun).
Qed.

Lemma save_image_get_files_witness :
  let img := Image (fun _ => Some "bytes") (fun _ => Some "jpeg bytes") in
  let w1 := snd (@FileSystem.run MiniJson.codec (FileSystem.Local example_local)
                   (FileSystem.SaveImage "kb" "doc" (page_name 5 ".jpg") img)
                   example_world) in
  exists ext',
    In ext' extensions /\ (".jpg" = ".jpg" -> ext' = ".jpg")
    /\ @FileSystem.run MiniJson.codec (FileSystem.Local example_local)
         (FileSystem.GetFiles "kb" "doc" (Some 5%Z) (Some 5%Z)) w1
       = (Ok (JList [JStr (local_page_path example_local "kb" "doc" (5%Z, ext'))]), w1).
Proof.
  intros img w1.
  apply (proj1 (@save_image_get_files MiniJson.codec 5 ".jpg" img "kb" "doc"
                  example_world w1 (or_introl eq_refl))
           example_local).
  vm_compute. reflexivity.
Defined.

(** ** What the methods depend on *)

Lemma stores_only_ret {A} (a : A) : stores_only (ret a).
Proof. by intros w w' Hs. Qed.

Lemma stores_only_raise {A} e : stores_only (@raise A e).
Proof. by intros w w' Hs. Qed.

Lemma stores_only_bind {A B} (m : M A) (k : A -> M B) :
  stores_only m -> (forall a, stores_only (k a)) -> stores_only (bind m k).
Proof.
  intros Hm Hk w w' Hs. unfold bind. destruct (Hm w w' Hs) as [Hr Hs1].
  destruct (m w) as [r w1], (m w') as [r' w1']. simpl in *. subst r'.
  destruct r as [a|e]; [by apply Hk|done].
Qed.

Lemma stores_only_try_except {A} (m : M A) h :
  stores_only m -> handler_stores_only h -> stores_only (try_except m h).
Proof.
  intros Hm Hh w w' Hs. unfold try_except. destruct (Hm w w' Hs) as [Hr Hs1].
  destruct (m w) as [r w1], (m w') as [r' w1']. simpl in *. subst r'.
  destruct r as [a|e]; [done|]. destruct (h e) as [k|] eqn:Ek; [|done].
  by apply (Hh e k Ek).
Qed.

Lemma handler_on_class {A} c (k : exn -> M A) :
  (forall e, stores_only (k e)) -> handler_stores_only (on_class c k).
Proof. intros Hk e k'. unfold on_class. destruct (decide _); [|done]. by intros [= <-]. Qed.

Lemma handler_on_any {A} (k : exn -> M A) :
  (forall e, stores_only (k e)) -> handler_stores_only (on_any k).
Proof. intros Hk e k'. unfold on_any. by intros [= <-]. Qed.

Lemma handler_orelse {A} (h1 h2 : exn -> option (M A)) :
  handler_stores_only h1 -> handler_stores_only h2 -> handler_stores_only (orelse h1 h2).
Proof.
  intros H1 H2 e k. unfold orelse. destruct (h1 e) as [k1|] eqn:E1.
  - intros [= <-]. by apply (H1 e).
  - by apply H2.
Qed.

Lemma stores_only_print line : stores_only (print line).
Proof. by intros w w' Hs. Qed.

Lemma stores_only_query {A} p (f : node -> Os.errno + A) : stores_only (Os.query p f).
Proof.
  intros w w' [Hd Hs]. unfold Os.query. rewrite Hd. by destruct (f (disk w')).
Qed.

Lemma stores_only_change p f : stores_only (Os.change p f).
Proof.
  intros w w' [Hd Hs]. unfold Os.change. rewrite Hd. by destruct (f (disk w')).
Qed.

Lemma stores_only_test f : stores_only (Os.test f).
Proof. intros w w' [Hd Hs]. unfold Os.test. by rewrite Hd. Qed.

Lemma stores_only_with_bucket {A} op bucket (k : gmap string string -> M A) :
  (forall objs, stores_only (k objs)) -> stores_only (S3.with_bucket op bucket k).
Proof.
  intros Hk w w' Hs. unfold S3.with_bucket. rewrite (proj2 Hs).
  destruct (s3 w' !! bucket) as [objs|]; [by apply Hk|done].
Qed.

Lemma stores_only_set_bucket bucket objs : stores_only (S3.set_bucket bucket objs).
Proof.
  intros w w' [Hd Hs]. unfold S3.set_bucket, same_stores. simpl. by rewrite Hs.
Qed.

Lemma stores_only_for_each {A} (l : list A) body :
  (forall x, stores_only (body x)) -> stores_only (for_each l body).
Proof.
  intros Hb. induction l as [|x l IH]; simpl.
  - apply stores_only_ret.
  - apply stores_only_bind; [apply Hb|done].
Qed.

Lemma stores_only_for_fold {A B} (l : list A) (acc : B) body :
  (forall x acc, stores_only (body x acc)) -> stores_only (for_fold l acc body).
Proof.
  intros Hb. revert acc. induction l as [|x l IH]; intros acc; simpl.
  - apply stores_only_ret.
  - apply stores_only_bind; [apply Hb|done].
Qed.

Lemma stores_only_loads `{JsonCodec} text : stores_only (loads text).
Proof.
  unfold loads. destruct (json_loads text);
    [apply stores_only_raise|apply stores_only_ret].
Qed.

Lemma stores_only_subscript data key : stores_only (subscript data key).
Proof.
  unfold subscript. destruct data as [| | | | | |d]; try apply stores_only_raise.
  destruct (assoc key d); [apply stores_only_ret|apply stores_only_raise].
Qed.

Lemma stores_only_keyed l : stores_only (keyed l).
Proof.
  induction l as [|x l IH]; simpl; [apply stores_only_ret|].
  destruct (page_key x); [|apply stores_only_raise].
  apply stores_only_bind; [done|]. intros r. apply stores_only_ret.
Qed.

Lemma stores_only_sort_by_page l : stores_only (sort_by_page l).
Proof.
  unfold sort_by_page. apply stores_only_bind; [apply stores_only_keyed|].
  intros ks. apply stores_only_ret.
Qed.

Create HintDb stores discriminated.

#[local] Hint Resolve stores_only_ret stores_only_raise stores_only_print
  stores_only_query stores_only_change stores_only_test stores_only_set_bucket
  stores_only_loads stores_only_subscript stores_only_sort_by_page : stores.

(** One step for a computation built from the parts above. *)
Ltac stores_step :=
  first
    [ apply stores_only_bind
    | apply stores_only_try_except
    | apply stores_only_with_bucket
    | apply stores_only_for_each
    | apply stores_only_for_fold
    | apply handler_orelse
    | apply handler_on_class
    | apply handler_on_any
    | solve [auto with stores]
    | match goal with
      | |- stores_only (match ?x with _ => _ end) => destruct x
      | |- stores_only (if ?b then _ else _) => destruct b
      end
    | progress intros
    | progress cbv zeta ].

Ltac stores := repeat stores_step.

Lemma stores_only_local `{JsonCodec} fs (c : FileSystem.call) :
  is_log_error c = false -> stores_only (FileSystem.run (FileSystem.Local fs) c).
Proof.
  destruct c; intros Hc; try discriminate; simpl;
    unfold FileSystem.none, FileSystem.paths, FileSystem.values.
  - unfold LocalFileSystem.create_directory, LocalFileSystem.clear_directory. by stores.
  - unfold LocalFileSystem.delete_directory, LocalFileSystem.clear_directory. by stores.
  - unfold LocalFileSystem.delete_kb, LocalFileSystem.delete_directory,
      LocalFileSystem.clear_directory. by stores.
  - unfold LocalFileSystem.save_json. by stores.
  - unfold LocalFileSystem.save_image. by stores.
  - unfold LocalFileSystem.get_files. by stores.
  - unfold LocalFileSystem.get_all_jpg_files. by stores.
  - unfold LocalFileSystem.save_page_content. by stores.
  - unfold LocalFileSystem.load_page_content. by stores.
  - unfold LocalFileSystem.load_page_content_range, LocalFileSystem.load_page_content.
    by stores.
  - unfold LocalFileSystem.load_data. by stores.
Qed.

Lemma stores_only_remote `{JsonCodec} fs (c : FileSystem.call) :
  is_log_error c = false -> stores_only (FileSystem.run (FileSystem.Remote fs) c).
Proof.
  destruct c; intros Hc; try discriminate; simpl;
    unfold FileSystem.none, FileSystem.paths, FileSystem.values.
  - unfold S3FileSystem.create_directory. by stores.
  - unfold S3FileSystem.delete_directory, S3FileSystem.delete_prefix,
      S3.list_objects_v2, S3.delete_objects. by stores.
  - unfold S3FileSystem.delete_kb, S3FileSystem.delete_prefix,
      S3.list_objects_v2, S3.delete_objects. by stores.
  - unfold S3FileSystem.save_json, S3.put_object. by stores.
  - unfold S3FileSystem.save_image, S3.put_object. by stores.
  - unfold S3FileSystem.get_files, S3.download_file. by stores.
  - unfold S3FileSystem.get_all_jpg_files, S3.list_objects_v2, S3.download_file.
    by stores.
  - unfold S3FileSystem.save_page_content, S3.put_object. by stores.
  - unfold S3FileSystem.load_page_content, S3.get_object. by stores.
  - unfold S3FileSystem.load_page_content_range, S3FileSystem.load_page_content,
      S3.get_object. by stores.
  - unfold S3FileSystem.load_data, S3.get_object. by stores.
Qed.

(** X20.  Apart from [log_error], every method of either back end reads
    the local disk and the object store only: in two worlds that agree on
    them, whatever was printed before, whatever the error table holds and
    whatever the time is, a call answers the same (or raises the same) and
    leaves disk and store in agreement. *)
Theorem methods_read_stores `{JsonCodec} (self : FileSystem.t) (c : FileSystem.call)
    (w w' : world) :
  is_log_error c = false -> same_stores w w' ->
  fst (FileSystem.run self c w) = fst (FileSystem.run self c w')
  /\ same_stores (snd (FileSystem.run self c w)) (snd (FileSystem.run self c w')).
Proof.
  intros Hc Hs. destruct self as [fs|fs].
  - by apply stores_only_local.
  - by apply stores_only_remote.
Qed.

Lemma methods_read_stores_witness :
  let w' := add_stdout "a line" (set_dynamodb {[ "t" := [] ]} example_world) in
  fst (@FileSystem.run MiniJson.codec (FileSystem.Remote example_s3)
         (FileSystem.GetAllJpgFiles "kb" "doc") example_world)
  = fst (@FileSystem.run MiniJson.codec (FileSystem.Remote example_s3)
           (FileSystem.GetAllJpgFiles "kb" "doc") w')
  /\ same_stores
       (snd (@FileSystem.run MiniJson.codec (FileSystem.Remote example_s3)
               (FileSystem.GetAllJpgFiles "kb" "doc") example_world))
       (snd (@FileSystem.run MiniJson.codec (FileSystem.Remote example_s3)
               (FileSystem.GetAllJpgFiles "kb" "doc") w')).
Proof.
  intros w'.
  apply (@methods_read_stores MiniJson.codec (FileSystem.Remote example_s3)
           (FileSystem.GetAllJpgFiles "kb" "doc") example_world w').
  - reflexivity.
  - split; reflexivity.
Defined.

Lemma log_error_stores `{JsonCodec} (self : FileSystem.t) kb doc err w :
  let w1 := snd (FileSystem.run self (FileSystem.LogError kb doc err) w) in
  same_stores w w1 /\ stdout w1 = stdout w.
Proof.
  destruct self as [fs|fs]; simpl; [done|].
  unfold FileSystem.none, S3FileSystem.log_error.
  destruct (S3FileSystem.error_table fs) as [table|]; [|done].
  unfold bind, get_world, put_item. by destruct (dynamodb w !! table).
Qed.

(** X21.  [log_error] leaves the local disk, the object store and the
    output as they are, whether it returns or raises; on the local back
    end, and on the remote one without an error table, it leaves the whole
    world as it is and returns [None].  So every other call answers after
    it what it would have answered before. *)
Theorem log_error_apart `{JsonCodec} (self : FileSystem.t) kb doc err
    (c : FileSystem.call) (w : world) :
  is_log_error c = false ->
  let logged := FileSystem.run self (FileSystem.LogError kb doc err) w in
  disk (snd logged) = disk w /\ s3 (snd logged) = s3 w
  /\ stdout (snd logged) = stdout w
  /\ (match self with
      | FileSystem.Local _ => True
      | FileSystem.Remote fs => S3FileSystem.error_table fs = None
      end -> logged = (Ok JNull, w))
  /\ fst (FileSystem.run self c (snd logged)) = fst (FileSystem.run self c w).
Proof.
  intros Hc logged.
  destruct (log_error_stores self kb doc err w) as [[Hd Hs] Ho]. fold logged in Hd, Hs, Ho.
  split; [done|]. split; [done|]. split; [done|]. split.
  - unfold logged. destruct self as [fs|fs]; simpl; [done|].
    intros Ht. unfold FileSystem.none, S3FileSystem.log_error. by rewrite Ht.
  - assert (Hsame : same_stores (snd logged) w) by done.
    destruct self as [fs|fs].
    + by apply (stores_only_local fs c Hc).
    + by apply (stores_only_remote fs c Hc).
Qed.

Lemma log_error_apart_witness :
  let fs := FileSystem.Remote
              (S3FileSystem.Make "cache" "bucket" "eu-west-1" "AK" "SK" (Some "errors")
                 None None) in
  let w := set_dynamodb {[ "errors" := [] ]} example_world in
  let logged := @FileSystem.run MiniJson.codec fs
                  (FileSystem.LogError "kb" "doc" (JStr "no text")) w in
  dynamodb (snd logged)
  = {[ "errors" := [ErrorItem "kb" "doc" (JStr "no text") "2024-01-01T00:00:00"] ]}
  /\ fst (@FileSystem.run MiniJson.codec fs (FileSystem.LoadData "kb" "doc" "elements")
            (snd logged))
     = fst (@FileSystem.run MiniJson.codec fs (FileSystem.LoadData "kb" "doc" "elements") w).
Proof.
  intros fs w logged. split; [vm_compute; reflexivity|].
  apply (@log_error_apart MiniJson.codec fs "kb" "doc" (JStr "no text")
           (FileSystem.LoadData "kb" "doc" "elements") w).
  reflexivity.
Defined.
